(** * kipoi.data: loading contracts, collation and the dynamic loader

    A shallow embedding of [kipoi/data.py].  Python objects with mutable
    state are modelled by explicit state passing, exceptions by a [result]
    type, dictionaries used as records of attributes by [gmap string],
    nested sample structures by an inductive type. *)

From Stdlib Require Import ZArith.
From stdpp Require Import base option list gmap strings.

Open Scope string_scope.
Open Scope list_scope.
Open Scope nat_scope.

#[local] Set Warnings "-register-all".

(** ** Exceptions

    A message is kept as the sequence of pieces that [str.format] glues
    together, so that what a message mentions stays observable. *)

Inductive fragment :=
| Text (s : string)
| ReprStr (s : string)
| ReprList (l : list string)
| ReprSet (s : gset string).

Definition message := list fragment.

Inductive exn :=
| ValueError (m : message)
| AssertionError (cond : string)
| AttributeError (obj attr : string)
| TypeError (m : message)
| KeyError (k : string)
| IndexError.

Inductive result (A : Type) :=
| Ok (a : A)
| Err (e : exn).
Arguments Ok {A} a.
Arguments Err {A} e.

Global Instance result_ret : MRet result := λ A a, Ok a.
Global Instance result_bind : MBind result := λ A B k r,
  match r with
  | Ok a => k a
  | Err e => Err e
  end.
Global Instance result_fmap : FMap result := λ A B f r,
  match r with
  | Ok a => Ok (f a)
  | Err e => Err e
  end.

Definition is_ok {A} (r : result A) : bool :=
  match r with Ok _ => true | Err _ => false end.

(** [sequence] is what a list comprehension does with results: the first
    exception aborts the whole comprehension. *)
Fixpoint sequence {A} (rs : list (result A)) : result (list A) :=
  match rs with
  | [] => Ok []
  | r :: rs' => x ← r; xs ← sequence rs'; Ok (x :: xs)
  end.

(** ** Arrays and nested structures *)

(** A numpy array seen along its leading axis: a 0-d array is a scalar,
    any other array is the list of its slices [a[0], a[1], ...]. *)
Inductive ndarray :=
| Scalar (v : Z)
| Arr (rows : list ndarray).

(** A nested (list / dict) structure of arrays.  Dictionaries keep their
    insertion order, as Python's do. *)
Inductive nested :=
| NArr (a : ndarray)
| NList (xs : list nested)
| NDict (kvs : list (string * nested)).

Section nested_induction.
Variable P : nested → Prop.
Hypothesis HArr : ∀ a, P (NArr a).
Hypothesis HList : ∀ xs, Forall P xs → P (NList xs).
Hypothesis HDict : ∀ kvs, Forall (λ kv, P kv.2) kvs → P (NDict kvs).

Fixpoint nested_ind' (d : nested) : P d :=
  match d with
  | NArr a => HArr a
  | NList xs =>
      HList xs ((fix go (l : list nested) : Forall P l :=
                   match l with
                   | [] => List.Forall_nil _
                   | x :: l' => List.Forall_cons _ x l' (nested_ind' x) (go l')
                   end) xs)
  | NDict kvs =>
      HDict kvs ((fix go (l : list (string * nested)) : Forall (λ kv, P kv.2) l :=
                    match l with
                    | [] => List.Forall_nil _
                    | kv :: l' => List.Forall_cons (λ kv, P kv.2) kv l' (nested_ind' kv.2) (go l')
                    end) kvs)
  end.
End nested_induction.

(** *** numpy primitives on the leading axis *)

Definition StructuralMismatch (why : string) : exn := ValueError [Text why].

(** [a.shape[0]] *)
Definition np_len (a : ndarray) : result nat :=
  match a with
  | Arr rows => Ok (length rows)
  | Scalar _ => Err (StructuralMismatch "all numpy arrays need to have at least one axis")
  end.

(** [a[i]] *)
Definition np_getitem (a : ndarray) (i : nat) : result ndarray :=
  match a with
  | Arr rows => match rows !! i with Some r => Ok r | None => Err IndexError end
  | Scalar _ => Err IndexError
  end.

(** [np.stack(arrays)]: a new leading axis, slice [i] is input [i]. *)
Definition np_stack (arrays : list ndarray) : ndarray := Arr arrays.

(** [np.concatenate(arrays)]: the slices of all inputs, in order. *)
Fixpoint np_concatenate (arrays : list ndarray) : result ndarray :=
  match arrays with
  | [] => Ok (Arr [])
  | Arr rows :: rest =>
      r ← np_concatenate rest;
      match r with
      | Arr rows' => Ok (Arr (rows ++ rows'))
      | Scalar _ => Err (StructuralMismatch "zero-dimensional arrays cannot be concatenated")
      end
  | Scalar _ :: _ => Err (StructuralMismatch "zero-dimensional arrays cannot be concatenated")
  end.

(** Dictionary subscription [d[k]]. *)
Fixpoint dict_get (kvs : list (string * nested)) (k : string) : result nested :=
  match kvs with
  | [] => Err (KeyError k)
  | (k', v) :: kvs' => if decide (k' = k) then Ok v else dict_get kvs' k
  end.

(** [x[k]] for a batch [x]. *)
Definition getitem_key (x : nested) (k : string) : result nested :=
  match x with
  | NDict kvs => dict_get kvs k
  | _ => Err (TypeError [Text "indices must be integers"])
  end.

(** ** Iteration *)

(** What one [next()] on an iterator does. *)
Inductive step (A S : Type) :=
| Yield (x : A) (s : S)
| Stop
| Raise (e : exn).
Arguments Yield {A S} x s.
Arguments Stop {A S}.
Arguments Raise {A S} e.

(** A finite iterator is the list of the outcomes it still has to give. *)
Definition list_next {A} (pending : list (result A)) : step A (list (result A)) :=
  match pending with
  | [] => Stop
  | Ok x :: rest => Yield x rest
  | Err e :: _ => Raise e
  end.

(** A generator expression [(f(x) for x in it)]. *)
Definition genexpr {A B} (f : A → result B) (it : list (result A)) : list (result B) :=
  map (λ o, x ← o; f x) it.

(** ** kipoi.data_utils *)

Module data_utils.

(** Modelled from the spec: [get_dataset_lens] of [kipoi/data_utils.py]
    is missing.  Section 4.1: walks a nested container of arrays and
    reports the first-dimension length of every leaf, failing with a
    structural mismatch on a leaf that has no leading axis. *)
Fixpoint get_dataset_lens (data : nested) : result (list nat) :=
  match data with
  | NArr a => n ← np_len a; Ok [n]
  | NList xs => ls ← sequence (map get_dataset_lens xs); Ok (concat ls)
  | NDict kvs => ls ← sequence (map (λ kv, get_dataset_lens kv.2) kvs); Ok (concat ls)
  end.

(** Modelled from the spec: [get_dataset_item] of [kipoi/data_utils.py]
    is missing.  Section 4.2, indexed extraction: the single-sample
    structure obtained by slicing every leaf at the index. *)
Fixpoint get_dataset_item (data : nested) (idx : nat) : result nested :=
  match data with
  | NArr a => r ← np_getitem a idx; Ok (NArr r)
  | NList xs =>
      ys ← sequence (map (λ x, get_dataset_item x idx) xs); Ok (NList ys)
  | NDict kvs =>
      ys ← sequence (map (λ kv, v ← get_dataset_item kv.2 idx; Ok (kv.1, v)) kvs);
      Ok (NDict ys)
  end.

(** The leaf, list or dict seen at the same place in another input. *)
Definition as_arr (x : nested) : result ndarray :=
  match x with
  | NArr a => Ok a
  | _ => Err (StructuralMismatch "leaf paths differ: array expected")
  end.

Definition as_list (n : nat) (x : nested) : result (list nested) :=
  match x with
  | NList xs =>
      if decide (length xs = n) then Ok xs
      else Err (StructuralMismatch "leaf paths differ: sequence lengths")
  | _ => Err (StructuralMismatch "leaf paths differ: sequence expected")
  end.

Definition as_dict (n : nat) (x : nested) : result (list (string * nested)) :=
  match x with
  | NDict kvs =>
      if decide (length kvs = n) then Ok kvs
      else Err (StructuralMismatch "leaf paths differ: mapping keys")
  | _ => Err (StructuralMismatch "leaf paths differ: mapping expected")
  end.

Definition key_of (k : string) (kvs : list (string * nested)) : result nested :=
  match dict_get kvs k with
  | Ok v => Ok v
  | Err _ => Err (StructuralMismatch "leaf paths differ: mapping keys")
  end.

Definition nth_of (i : nat) (xs : list nested) : result nested :=
  match xs !! i with
  | Some x => Ok x
  | None => Err (StructuralMismatch "leaf paths differ: sequence lengths")
  end.

(** The recursion shared by both collation entry points: it follows the
    first input and looks every other input up at the same path; [leaf]
    merges the arrays found at one leaf path. *)
Section collate.
Variable leaf : list ndarray → result ndarray.

Fixpoint collate_with (first : nested) (rest : list nested) : result nested :=
  match first with
  | NArr a =>
      others ← sequence (map as_arr rest);
      r ← leaf (a :: others); Ok (NArr r)
  | NList xs =>
      rest' ← sequence (map (as_list (length xs)) rest);
      ys ← (fix go (i : nat) (l : list nested) : result (list nested) :=
              match l with
              | [] => Ok []
              | x :: l' =>
                  col ← sequence (map (nth_of i) rest');
                  y ← collate_with x col;
                  ys ← go (S i) l'; Ok (y :: ys)
              end) 0 xs;
      Ok (NList ys)
  | NDict kvs =>
      rest' ← sequence (map (as_dict (length kvs)) rest);
      ys ← (fix go (l : list (string * nested)) : result (list (string * nested)) :=
              match l with
              | [] => Ok []
              | kv :: l' =>
                  col ← sequence (map (key_of kv.1) rest');
                  y ← collate_with kv.2 col;
                  ys ← go l'; Ok ((kv.1, y) :: ys)
              end) kvs;
      Ok (NDict ys)
  end.

Definition collate (batch : list nested) : result nested :=
  match batch with
  | [] => Err IndexError
  | first :: rest => collate_with first rest
  end.
End collate.

(** Modelled from the spec: [numpy_collate] of [kipoi/data_utils.py] is
    missing.  Section 4.2, sample collation: N samples give one batch,
    every leaf stacked into a new array with leading dimension N, input
    [i] at index [i]; inputs with different leaf paths fail. *)
Definition numpy_collate : list nested → result nested :=
  collate (λ arrays, Ok (np_stack arrays)).

(** Modelled from the spec: [numpy_collate_concat] of
    [kipoi/data_utils.py] is missing.  Section 4.2, batch concatenation:
    M batches give one aggregate, every leaf concatenated along the
    existing leading dimension, order preserved. *)
Definition numpy_collate_concat : list nested → result nested :=
  collate np_concatenate.

(** Modelled from the spec: [batch_gen] of [kipoi/data_utils.py] is
    missing.  Section 4.3: batches are built by greedily collecting up
    to [batch_size] consecutive samples and collating them; the final
    partial group is yielded as a smaller batch. *)
Fixpoint partition_from (batch_size : nat) (group : list nested)
    (samples : list nested) : list (list nested) :=
  match samples with
  | [] => if length group =? 0 then [] else [group]
  | x :: samples' =>
      let group' := group ++ [x] in
      if length group' =? batch_size
      then group' :: partition_from batch_size [] samples'
      else partition_from batch_size group' samples'
  end.

Definition batch_gen (iterator : list nested) (batch_size : nat) : list (result nested) :=
  map numpy_collate (partition_from batch_size [] iterator).

(** Modelled from the spec: [iterable_cycle] of [kipoi/data_utils.py]
    is missing.  Section 4.3: the underlying iteration restarts
    indefinitely and never terminates:
<<
    while True:
        for x in iterable:
            yield x
>>
    [restart] is [iter(iterable)]; the state of the generator is the
    pass in progress and the state of whatever the iterable reads.
    One [next()] may restart any number of times before it yields, so
    it takes fuel; [None] says that it was still running when the fuel
    ran out. *)
Section iterable_cycle.
Context {A St : Type} (restart : St → result (list (result A) * St)).

Fixpoint iterable_cycle_next (fuel : nat) (cur : list (result A)) (s : St)
    : option (step A (list (result A) * St)) :=
  match cur with
  | Ok x :: cur' => Some (Yield x (cur', s))
  | Err e :: _ => Some (Raise e)
  | [] =>
      match fuel with
      | 0 => None
      | S fuel' =>
          match restart s with
          | Ok (cur', s') => iterable_cycle_next fuel' cur' s'
          | Err e => Some (Raise e)
          end
      end
  end.

(** The first [k] items of the generator, and whether it was seen to
    finish, to raise, or to be still running. *)
Inductive verdict := Running | Finished | Raised (e : exn) | Starved.

End iterable_cycle.


End data_utils.

Import data_utils.

(** ** Collating one sample and taking it back *)

(** What stacking a single sample produces: every leaf gets a leading axis
    of length one ([a[None]]). *)
Fixpoint expand_dims (s : nested) : nested :=
  match s with
  | NArr a => NArr (Arr [a])
  | NList xs => NList (map expand_dims xs)
  | NDict kvs => NDict (map (λ kv, (kv.1, expand_dims kv.2)) kvs)
  end.


(** ** Keyword arguments *)

(** [**kwargs]: the values that matter here are integers and booleans,
    and Python's booleans are the integers 0 and 1. *)
Abbreviation kwargs := (gmap string nat).

(** A parameter with a default, taken out of the keywords of a call. *)
Definition kw_get (name : string) (dflt : nat) (kw : kwargs) : nat :=
  default dflt (kw !! name).

(** What is left for [**kwargs] once the named parameters are bound. *)
Definition kw_rest (names : list string) (kw : kwargs) : kwargs :=
  foldr delete kw names.

Definition truthy (n : nat) : bool := negb (n =? 0).

(** The positional and keyword arguments of a constructor call. *)
Definition call_args : Type := list string * gmap string string.

(** ** kipoi.external.torch.data *)

Module torch.

(** Modelled from the spec: [kipoi/external/torch/data.py] is missing.
    Section 4.4: indices are grouped, in sampler order, into ranges of
  [batch_size]; a final undersized group is dropped when [drop_last]
  is set. *)
Fixpoint BatchSampler_from (batch_size : nat) (drop_last : bool)
  (batch : list nat) (sampler : list nat) : list (list nat) :=
match sampler with
| [] => if negb (length batch =? 0) && negb drop_last then [batch] else []
| idx :: sampler' =>
    let batch' := batch ++ [idx] in
    if length batch' =? batch_size
    then batch' :: BatchSampler_from batch_size drop_last [] sampler'
    else BatchSampler_from batch_size drop_last batch' sampler'
end.

Definition BatchSampler (sampler : list nat) (batch_size : nat) (drop_last : bool) :=
BatchSampler_from batch_size drop_last [] sampler.

(** Modelled from the spec: the batching service.  The dataset is known
  by its length and its index operation. *)
Record DataLoader := {
dataset_len : nat;
dataset_getitem : nat → result nested;
batch_size : nat;
collate_fn : list nested → result nested;
shuffle : bool;
num_workers : nat;
drop_last : bool
}.

(** Modelled from the spec: the constructor accepts the four batching
  parameters of section 4.4 and no other keyword. *)
Definition check_kwargs (extra : kwargs) : result unit :=
match map_to_list extra with
| [] => Ok ()
| (k, _) :: _ =>
    Err (TypeError [Text "__init__() got an unexpected keyword argument "; ReprStr k])
end.

(** Modelled from the spec: one batch is the collation of the samples
  at its indices. *)
Definition fetch (dl : DataLoader) (indices : list nat) : result nested :=
samples ← sequence (map (dataset_getitem dl) indices);
collate_fn dl samples.

End torch.


(** ** Python functions, classes and the state of the interpreter *)

(** What a production function hands back: a nested structure, or a
    fresh generator over a finite sequence of items. *)
Inductive pyvalue :=
| VData (d : nested)
| VStream (items : list nested).

Record function := {
  fn_name : string;
  fn_args : gset string;
  fn_call : call_args → result pyvalue
}.

(** The value of a class attribute. *)
Inductive attr :=
| ANone
| AFunction (f : function)           (* [staticmethod(f)] *)
| AMethod (qualname : string)        (* a method or class method defined in a class body *)
| AStr (s : string)
| AArgs (a : gmap string string)     (* argument name → description *)
| AKwargs (kw : gmap string string)
| AObj (repr : string).              (* any other object, by its name *)

(** A class object: its method resolution order (itself first), the
    attributes of its own [__dict__], and the parameter names of its
    constructor without [self]. *)
Record class_obj := {
  mro : list string;
  attrs : gmap string attr;
  init_args : gset string
}.

(** Class objects live in a store, referred to by name; two references
    are the same object exactly when the names are equal. *)
Abbreviation class_store := (gmap string class_obj).

Fixpoint mro_lookup (classes : class_store) (name : string) (order : list string)
    : option attr :=
  match order with
  | [] => None
  | c :: order' =>
      match classes !! c ≫= λ o, attrs o !! name with
      | Some a => Some a
      | None => mro_lookup classes name order'
      end
  end.

(** [getattr(cls, name)] *)
Definition type_getattr (classes : class_store) (cls name : string) : result attr :=
  match mro_lookup classes name (default [] (mro <$> classes !! cls)) with
  | Some a => Ok a
  | None => Err (AttributeError cls name)
  end.

(** [cls.name = a]: the class object itself is updated. *)
Definition type_setattr (cls name : string) (a : attr) (classes : class_store)
    : class_store :=
  alter (λ o, {| mro := mro o; attrs := <[name := a]> (attrs o);
                 init_args := init_args o |}) cls classes.

Definition issubclass (classes : class_store) (cls base : string) : bool :=
  bool_decide (base ∈ default [] (mro <$> classes !! cls)).

(** Calling [cls.attr(...)] for an attribute that holds a function. *)
Definition call (a : attr) (args : call_args) : result pyvalue :=
  match a with
  | AFunction f => fn_call f args
  | _ => Err (TypeError [Text "object is not callable"])
  end.

(** The state that the code reads and writes: the class objects, the
    permutations that [torch.randperm] is going to draw, in order, and
    the number of loader instances created so far. *)
Record world := {
  classes : class_store;
  randperms : list (list nat);
  objects : nat
}.

Definition set_classes (f : class_store → class_store) (w : world) : world :=
  {| classes := f (classes w); randperms := randperms w; objects := objects w |}.

Definition new_object (w : world) : world :=
  {| classes := classes w; randperms := randperms w; objects := S (objects w) |}.

Definition draw_randperm (n : nat) (w : world) : list nat * world :=
  match randperms w with
  | [] => (seq 0 n, w)
  | p :: tape =>
      (p, {| classes := classes w; randperms := tape; objects := objects w |})
  end.

(** One iteration request run to its end: the outcomes of the successive
    [next()] calls, and the instance and the world as they are left. *)
Definition pass (Self : Type) : Type := list (result nested) * Self * world.

(** An object that [iter()] can be called on any number of times. *)
Definition iterable (Self : Type) : Type := Self → world → result (pass Self).

(** [iter(dl)] for a [DataLoader] over an indexed dataset [self]. *)
Definition DataLoader_iter {Self} (dl : torch.DataLoader) : iterable Self :=
  λ self w,
    let '(indices, w') :=
      if torch.shuffle dl then draw_randperm (torch.dataset_len dl) w
      else (seq 0 (torch.dataset_len dl), w) in
    Ok (map (torch.fetch dl)
            (torch.BatchSampler indices (torch.batch_size dl) (torch.drop_last dl)),
        self, w').

(** Modelled from the spec: [DataloaderIterable] of
    [kipoi/data_utils.py] is missing.  Section 4.4: a producer wrapped
    together with its batching parameters into one iterable; [iter()]
    on it asks the producer for a batch iteration with these
    parameters. *)
Record DataloaderIterable := { dl_kwargs : kwargs }.

Definition DataloaderIterable_iter {Self}
    (batch_iter : kwargs → Self → world → result (pass Self))
    (it : DataloaderIterable) : iterable Self :=
  batch_iter (dl_kwargs it).

(** ** kipoi.data

    One module per class of [kipoi/data.py].  The record [t] of a module
    is the state of an instance ([self]); for the abstract classes its
    fields are what a subclass has to supply.  Methods are resolved
    statically; class attributes that the code assigns ([data_fn],
    [generator_fn], the metadata) are read from the class store.  A
    method that returns an iterator is modelled by a [pass]. *)

Definition DimensionMismatch : exn := AssertionError "len(set(lens)) == 1".

Module BaseDataLoader.
Section methods.
Context {Self : Type}.
(** The abstract method and the iterable of each subclass. *)
Variable batch_iter : kwargs → Self → world → result (pass Self).
Variable _batch_iterable : kwargs → Self → result (iterable Self).

(** [(x["inputs"], x["targets"])] *)
Definition train_pair (x : nested) : result (nested * nested) :=
  i ← getitem_key x "inputs"; t ← getitem_key x "targets"; Ok (i, t).

(** The generator that [batch_train_iter] returns. *)
Inductive train_iterator :=
| Cycling (it : iterable Self) (cur : list (result nested)) (self : Self) (w : world)
| Finite (pending : list (result (nested * nested))) (self : Self) (w : world).

(** [iter(iterable)] as the cycle sees it. *)
Definition restart (it : iterable Self) (s : Self * world)
    : result (list (result nested) * (Self * world)) :=
  '(p, self', w') ← it s.1 s.2; Ok (p, (self', w')).

Definition batch_train_iter (cycle : bool) (kw : kwargs) (self : Self) (w : world)
    : result train_iterator :=
  if cycle then
    it ← _batch_iterable kw self; Ok (Cycling it [] self w)
  else
    '(p, self', w') ← batch_iter kw self w;
    Ok (Finite (genexpr train_pair p) self' w').

(** [next()] on that generator. *)
Definition train_next (fuel : nat) (g : train_iterator)
    : option (step (nested * nested) train_iterator) :=
  match g with
  | Cycling it cur self w =>
      match iterable_cycle_next (restart it) fuel cur (self, w) with
      | None => None
      | Some Stop => Some Stop
      | Some (Raise e) => Some (Raise e)
      | Some (Yield x (cur', (self', w'))) =>
          match train_pair x with
          | Ok p => Some (Yield p (Cycling it cur' self' w'))
          | Err e => Some (Raise e)
          end
      end
  | Finite pending self w =>
      match list_next pending with
      | Stop => Some Stop
      | Raise e => Some (Raise e)
      | Yield p rest => Some (Yield p (Finite rest self w))
      end
  end.

(** The first [k] items pulled from it. *)
Fixpoint train_take (fuel k : nat) (g : train_iterator)
    : list (nested * nested) * verdict :=
  match k with
  | 0 => ([], Running)
  | S k' =>
      match train_next fuel g with
      | None => ([], Starved)
      | Some Stop => ([], Finished)
      | Some (Raise e) => ([], Raised e)
      | Some (Yield p g') =>
          let '(ps, v) := train_take fuel k' g' in (p :: ps, v)
      end
  end.

Definition batch_predict_iter (kw : kwargs) (self : Self) (w : world)
    : result (pass Self) :=
  '(p, self', w') ← batch_iter kw self w;
  Ok (genexpr (λ x, getitem_key x "inputs") p, self', w').

Definition load_all (kw : kwargs) (self : Self) (w : world)
    : result (nested * Self * world) :=
  '(p, self', w') ← batch_iter kw self w;
  xs ← sequence p;
  r ← numpy_collate_concat xs;
  Ok (r, self', w').
End methods.
End BaseDataLoader.

Module PreloadedDataset.
Record t := { data : nested; n : nat }.

Definition from_fn (cls : string) (data_fn : function) (w : world) : string * world :=
  (cls, set_classes (type_setattr cls "data_fn" (AFunction data_fn)) w).

Definition _get_data_fn (cls : string) (w : world) : result attr :=
  a ← type_getattr (classes w) cls "data_fn";
  match a with
  | ANone => Err (AssertionError "cls.data_fn is not None")
  | _ => Ok a
  end.

Definition __init__ (cls : string) (args : call_args) (w : world) : result (t * world) :=
  f ← _get_data_fn cls w;
  v ← call f args;
  data ← match v with
         | VData d => Ok d
         | VStream _ =>
             Err (StructuralMismatch "Leafs of the nested structure need to be numpy arrays")
         end;
  lens ← get_dataset_lens data;
  if decide (size (list_to_set lens : gset nat) = 1) then
    match lens !! 0 with
    | Some n => Ok ({| data := data; n := n |}, new_object w)
    | None => Err IndexError
    end
  else Err DimensionMismatch.

(** [lambda: data] *)
Definition const_fn (data : nested) : function :=
  {| fn_name := "<lambda>"; fn_args := ∅; fn_call := λ _, Ok (VData data) |}.

(** [cls.from_data_fn(lambda: data)()]: the attribute is looked up on
    the class and called with the constant function, and what it
    returns is called without arguments. *)
Definition from_data (cls : string) (data : nested) (w : world) : result (t * world) :=
  a ← type_getattr (classes w) cls "from_data_fn";
  match a with
  | AMethod q =>
      if decide (q = "PreloadedDataset.from_fn") then
        let '(cls', w') := from_fn cls (const_fn data) w in
        __init__ cls' ([], ∅) w'
      else Err (TypeError [Text "unexpected arguments"])
  | _ => Err (TypeError [Text "object is not callable"])
  end.

Definition __len__ (self : t) : nat := n self.

Definition __getitem__ (self : t) (index : nat) : result nested :=
  get_dataset_item (data self) index.

Definition _batch_iterable (kw : kwargs) (self : t) : torch.DataLoader :=
  {| torch.dataset_len := __len__ self;
     torch.dataset_getitem := __getitem__ self;
     torch.batch_size := kw_get "batch_size" 32 kw;
     torch.collate_fn := numpy_collate;
     torch.shuffle := truthy (kw_get "shuffle" 0 kw);
     torch.num_workers := 0;
     torch.drop_last := truthy (kw_get "drop_last" 0 kw) |}.

Definition batch_iter (kw : kwargs) (self : t) (w : world) : result (pass t) :=
  DataLoader_iter (_batch_iterable kw self) self w.

Definition load_all (kw : kwargs) (self : t) : nested := data self.
End PreloadedDataset.

Module Dataset.
Record t := { __len__ : nat; __getitem__ : nat → result nested }.

Definition _batch_iterable (kw : kwargs) (self : t) : result torch.DataLoader :=
  _ ← torch.check_kwargs
        (kw_rest ["batch_size"; "shuffle"; "num_workers"; "drop_last"] kw);
  Ok {| torch.dataset_len := __len__ self;
        torch.dataset_getitem := __getitem__ self;
        torch.batch_size := kw_get "batch_size" 32 kw;
        torch.collate_fn := numpy_collate;
        torch.shuffle := truthy (kw_get "shuffle" 0 kw);
        torch.num_workers := kw_get "num_workers" 0 kw;
        torch.drop_last := truthy (kw_get "drop_last" 0 kw) |}.

Definition batch_iter (kw : kwargs) (self : t) (w : world) : result (pass t) :=
  dl ← _batch_iterable kw self;
  DataLoader_iter dl self w.

(** [batch_size] is bound by name, default 32, and handed on. *)
Definition load_all (kw : kwargs) (self : t) (w : world) : result (nested * t * world) :=
  '(p, self', w') ←
    batch_iter (<["batch_size" := kw_get "batch_size" 32 kw]> kw) self w;
  xs ← sequence p;
  r ← numpy_collate_concat xs;
  Ok (r, self', w').
End Dataset.

Module BatchDataset.
Record t := { __len__ : nat; __getitem__ : nat → result nested }.

Definition _batch_iterable (kw : kwargs) (self : t) : torch.DataLoader :=
  {| torch.dataset_len := __len__ self;
     torch.dataset_getitem := __getitem__ self;
     torch.batch_size := 1;
     torch.collate_fn := numpy_collate_concat;
     torch.shuffle := false;
     torch.num_workers := kw_get "num_workers" 0 kw;
     torch.drop_last := false |}.

Definition batch_iter (kw : kwargs) (self : t) (w : world) : result (pass t) :=
  DataLoader_iter (_batch_iterable kw self) self w.
End BatchDataset.

(** The two iterator classes leave [__iter__] and [__next__] to the
    subclass.  An instance follows the iterator protocol: it is its own
    iterator, and its state is the sequence of items it has not given
    yet. *)
Module SampleIterator.
Record t := { pending : list nested }.

Definition __iter__ (self : t) : t := self.

Definition __next__ (self : t) : step nested t :=
  match pending self with
  | [] => Stop
  | x :: rest => Yield x {| pending := rest |}
  end.

(** Pulling from the instance until it signals exhaustion. *)
Fixpoint exhaust (fuel : nat) (self : t) : list nested * t :=
  match fuel with
  | 0 => ([], self)
  | S fuel' =>
      match __next__ self with
      | Yield x self' => let '(xs, s) := exhaust fuel' self' in (x :: xs, s)
      | _ => ([], self)
      end
  end.

Definition batch_iter (kw : kwargs) (self : t) (w : world) : result (pass t) :=
  let '(samples, self') := exhaust (S (length (pending self))) (__iter__ self) in
  Ok (batch_gen samples (kw_get "batch_size" 32 kw), self', w).

Definition _batch_iterable (kw : kwargs) (self : t) : DataloaderIterable :=
  {| dl_kwargs := <["batch_size" := kw_get "batch_size" 32 kw]> kw |}.
End SampleIterator.

Module BatchIterator.
Record t := { pending : list nested }.

Definition __iter__ (self : t) : t := self.

Definition __next__ (self : t) : step nested t :=
  match pending self with
  | [] => Stop
  | x :: rest => Yield x {| pending := rest |}
  end.

Fixpoint exhaust (fuel : nat) (self : t) : list nested * t :=
  match fuel with
  | 0 => ([], self)
  | S fuel' =>
      match __next__ self with
      | Yield x self' => let '(xs, s) := exhaust fuel' self' in (x :: xs, s)
      | _ => ([], self)
      end
  end.

Definition batch_iter (kw : kwargs) (self : t) (w : world) : result (pass t) :=
  let '(batches, self') := exhaust (S (length (pending self))) (__iter__ self) in
  Ok (map Ok batches, self', w).

Definition _batch_iterable (kw : kwargs) (self : t) : DataloaderIterable :=
  {| dl_kwargs := kw |}.
End BatchIterator.

Module SampleGenerator.
Record t := { cls : string; args : call_args }.

Definition from_fn (cls : string) (generator_fn : function) (w : world) : string * world :=
  (cls, set_classes (type_setattr cls "generator_fn" (AFunction generator_fn)) w).

Definition _get_generator_fn (cls : string) (w : world) : result attr :=
  a ← type_getattr (classes w) cls "generator_fn";
  match a with
  | ANone => Err (AssertionError "cls.generator_fn is not None")
  | _ => Ok a
  end.

Definition __init__ (cls : string) (args : call_args) (w : world) : t * world :=
  ({| cls := cls; args := args |}, new_object w).

(** A new generator every time. *)
Definition __iter__ (self : t) (w : world) : result (list nested) :=
  f ← _get_generator_fn (cls self) w;
  v ← call f (args self);
  match v with
  | VStream items => Ok items
  | VData _ => Err (TypeError [Text "iter() returned non-iterator"])
  end.

Definition batch_iter (kw : kwargs) (self : t) (w : world) : result (pass t) :=
  items ← __iter__ self w;
  Ok (batch_gen items (kw_get "batch_size" 32 kw), self, w).

Definition _batch_iterable (kw : kwargs) (self : t) : DataloaderIterable :=
  {| dl_kwargs := <["batch_size" := kw_get "batch_size" 32 kw]> kw |}.
End SampleGenerator.

Module BatchGenerator.
Record t := { cls : string; args : call_args }.

Definition from_fn (cls : string) (generator_fn : function) (w : world) : string * world :=
  (cls, set_classes (type_setattr cls "generator_fn" (AFunction generator_fn)) w).

Definition _get_generator_fn (cls : string) (w : world) : result attr :=
  a ← type_getattr (classes w) cls "generator_fn";
  match a with
  | ANone => Err (AssertionError "cls.generator_fn is not None")
  | _ => Ok a
  end.

Definition __init__ (cls : string) (args : call_args) (w : world) : t * world :=
  ({| cls := cls; args := args |}, new_object w).

Definition __iter__ (self : t) (w : world) : result (list nested) :=
  f ← _get_generator_fn (cls self) w;
  v ← call f (args self);
  match v with
  | VStream items => Ok items
  | VData _ => Err (TypeError [Text "iter() returned non-iterator"])
  end.

Definition batch_iter (kw : kwargs) (self : t) (w : world) : result (pass t) :=
  items ← __iter__ self w;
  Ok (map Ok items, self, w).

Definition _batch_iterable (kw : kwargs) (self : t) : DataloaderIterable :=
  {| dl_kwargs := kw |}.
End BatchGenerator.

(** *** Loader instances and dynamic dispatch *)

(** An instance of one of the seven variants. *)
Inductive loader :=
| inst_PreloadedDataset (self : PreloadedDataset.t)
| inst_Dataset (self : Dataset.t)
| inst_BatchDataset (self : BatchDataset.t)
| inst_SampleIterator (self : SampleIterator.t)
| inst_BatchIterator (self : BatchIterator.t)
| inst_SampleGenerator (self : SampleGenerator.t)
| inst_BatchGenerator (self : BatchGenerator.t).

Definition is_preloaded (self : loader) : bool :=
  match self with inst_PreloadedDataset _ => true | _ => false end.

Definition lift {T A} (inj : T → loader) (r : result (A * T * world))
    : result (A * loader * world) :=
  '(x, s, w) ← r; Ok (x, inj s, w).

(** [self.batch_iter] called with the keywords [kw] *)
Definition batch_iter (kw : kwargs) (self : loader) (w : world) : result (pass loader) :=
  match self with
  | inst_PreloadedDataset s => lift inst_PreloadedDataset (PreloadedDataset.batch_iter kw s w)
  | inst_Dataset s => lift inst_Dataset (Dataset.batch_iter kw s w)
  | inst_BatchDataset s => lift inst_BatchDataset (BatchDataset.batch_iter kw s w)
  | inst_SampleIterator s => lift inst_SampleIterator (SampleIterator.batch_iter kw s w)
  | inst_BatchIterator s => lift inst_BatchIterator (BatchIterator.batch_iter kw s w)
  | inst_SampleGenerator s => lift inst_SampleGenerator (SampleGenerator.batch_iter kw s w)
  | inst_BatchGenerator s => lift inst_BatchGenerator (BatchGenerator.batch_iter kw s w)
  end.

(** [self._batch_iterable] called with the keywords [kw] *)
Definition _batch_iterable (kw : kwargs) (self : loader) : result (iterable loader) :=
  match self with
  | inst_PreloadedDataset s => Ok (DataLoader_iter (PreloadedDataset._batch_iterable kw s))
  | inst_Dataset s => dl ← Dataset._batch_iterable kw s; Ok (DataLoader_iter dl)
  | inst_BatchDataset s => Ok (DataLoader_iter (BatchDataset._batch_iterable kw s))
  | inst_SampleIterator s =>
      Ok (DataloaderIterable_iter batch_iter (SampleIterator._batch_iterable kw s))
  | inst_BatchIterator s =>
      Ok (DataloaderIterable_iter batch_iter (BatchIterator._batch_iterable kw s))
  | inst_SampleGenerator s =>
      Ok (DataloaderIterable_iter batch_iter (SampleGenerator._batch_iterable kw s))
  | inst_BatchGenerator s =>
      Ok (DataloaderIterable_iter batch_iter (BatchGenerator._batch_iterable kw s))
  end.

(** The methods inherited from [BaseDataLoader]. *)
Definition batch_train_iter := BaseDataLoader.batch_train_iter batch_iter _batch_iterable.
Definition batch_predict_iter := BaseDataLoader.batch_predict_iter batch_iter.

(** [self.load_all] called with the keywords [kw]: two classes override the inherited method. *)
Definition load_all (kw : kwargs) (self : loader) (w : world)
    : result (nested * loader * world) :=
  match self with
  | inst_PreloadedDataset s => Ok (PreloadedDataset.load_all kw s, self, w)
  | inst_Dataset s => lift inst_Dataset (Dataset.load_all kw s w)
  | _ => BaseDataLoader.load_all batch_iter kw self w
  end.

(** [b] is the object [a] at a later time: the attributes that no method
    of the module assigns are the same; what an iterator instance has
    still to give may differ. *)
Definition same_instance (a b : loader) : Prop :=
  match a, b with
  | inst_PreloadedDataset s, inst_PreloadedDataset s' => s = s'
  | inst_Dataset s, inst_Dataset s' => s = s'
  | inst_BatchDataset s, inst_BatchDataset s' => s = s'
  | inst_SampleIterator _, inst_SampleIterator _ => True
  | inst_BatchIterator _, inst_BatchIterator _ => True
  | inst_SampleGenerator s, inst_SampleGenerator s' => s = s'
  | inst_BatchGenerator s, inst_BatchGenerator s' => s = s'
  | _, _ => False
  end.

(** *** The class objects of the module *)

Definition methods (cls : string) (names : list string) : list (string * attr) :=
  map (λ name, (name, AMethod (cls +:+ "." +:+ name))) names.

Definition mk_class (name : string) (bases : list string) (body : list (string * attr))
    : string * class_obj :=
  (name, {| mro := name :: bases; attrs := list_to_map body; init_args := ∅ |}).

(** [object], by the names that every class inherits from it. *)
Definition object_class : string * class_obj :=
  mk_class "object" []
    (methods "object"
       ["__class__"; "__delattr__"; "__dir__"; "__doc__"; "__eq__"; "__format__";
        "__ge__"; "__getattribute__"; "__gt__"; "__hash__"; "__init__";
        "__init_subclass__"; "__le__"; "__lt__"; "__ne__"; "__new__"; "__reduce__";
        "__reduce_ex__"; "__repr__"; "__setattr__"; "__sizeof__"; "__str__";
        "__subclasshook__"]).

Definition kipoi_data_classes : class_store :=
  list_to_map
    [ object_class;
      mk_class "BaseDataLoader" ["object"]
        (("__metaclass__", AObj "abc.ABCMeta") ::
         methods "BaseDataLoader"
           ["batch_iter"; "batch_train_iter"; "batch_predict_iter"; "load_all"]);
      mk_class "PreloadedDataset" ["BaseDataLoader"; "object"]
        (("data_fn", ANone) ::
         methods "PreloadedDataset"
           ["from_fn"; "from_data"; "_get_data_fn"; "__init__"; "__len__";
            "__getitem__"; "_batch_iterable"; "batch_iter"; "load_all"]);
      mk_class "Dataset" ["BaseDataLoader"; "object"]
        (("__metaclass__", AObj "abc.ABCMeta") ::
         methods "Dataset"
           ["__getitem__"; "__len__"; "_batch_iterable"; "batch_iter"; "load_all"]);
      mk_class "BatchDataset" ["BaseDataLoader"; "object"]
        (("__metaclass__", AObj "abc.ABCMeta") ::
         methods "BatchDataset"
           ["__getitem__"; "__len__"; "_batch_iterable"; "batch_iter"]);
      mk_class "SampleIterator" ["BaseDataLoader"; "object"]
        (("__metaclass__", AObj "abc.ABCMeta") ::
         methods "SampleIterator"
           ["__iter__"; "__next__"; "next"; "batch_iter"; "_batch_iterable"]);
      mk_class "BatchIterator" ["BaseDataLoader"; "object"]
        (methods "BatchIterator"
           ["__iter__"; "__next__"; "next"; "batch_iter"; "_batch_iterable"]);
      mk_class "SampleGenerator" ["BaseDataLoader"; "object"]
        (("generator_fn", ANone) ::
         methods "SampleGenerator"
           ["from_fn"; "_get_generator_fn"; "__init__"; "__iter__"; "batch_iter";
            "_batch_iterable"]);
      mk_class "BatchGenerator" ["BaseDataLoader"; "object"]
        (("generator_fn", ANone) ::
         methods "BatchGenerator"
           ["from_fn"; "_get_generator_fn"; "__init__"; "__iter__"; "batch_iter";
            "_batch_iterable"]) ].

(** The interpreter right after [import kipoi.data]. *)
Definition initial_world : world :=
  {| classes := kipoi_data_classes; randperms := []; objects := 0 |}.

(** *** get_dataloader_factory *)

Definition AVAILABLE_DATALOADERS : list (string * string) :=
  [ ("PreloadedDataset", "PreloadedDataset");
    ("Dataset", "Dataset");
    ("BatchDataset", "BatchDataset");
    ("SampleIterator", "SampleIterator");
    ("SampleGenerator", "SampleGenerator");
    ("BatchIterator", "BatchIterator");
    ("BatchGenerator", "BatchGenerator") ].

Definition DATALOADERS_AS_FUNCTIONS : list string :=
  ["PreloadedDataset"; "SampleGenerator"; "BatchGenerator"].

(** [AVAILABLE_DATALOADERS[ty]], [None] when [ty not in AVAILABLE_DATALOADERS]. *)
Definition available (ty : string) : option string :=
  (list_to_map AVAILABLE_DATALOADERS : gmap string string) !! ty.

(** The description parsed from [dataloader.yaml]. *)
Record DataLoaderDescription := {
  type : string;
  defined_as : string;
  args : gmap string string;
  info : string;
  output_schema : string;
  dependencies : string;
  postprocessing : string
}.

(** What [getattr(load_module(file_path), obj_name)] found. *)
Inductive candidate :=
| Function (f : function)
| Class (name : string).

(** What the collaborators of the first lines of the function return:
    the source, the path of the description, its directory, the parsed
    description, the object it names, and the example arguments that
    [example_kwargs] computes. *)
Record resolution := {
  source : string;
  yaml_path : string;
  dataloader_dir : string;
  dl : DataLoaderDescription;
  CustomDataLoader : candidate;
  example_kwargs : gmap string string
}.

(** Modelled from the spec: [getargs] of [kipoi/utils.py] is missing.
    Section 4.5: the candidate's actual parameter-name set. *)
Definition getargs (classes : class_store) (x : candidate) : gset string :=
match x with
| Function f => fn_args f
| Class c => default ∅ (init_args <$> classes !! c)
end.

(** The three [ValueError]s of the function, under the names that the
  specification gives them. *)
Definition UnknownVariant (ty : string) : exn :=
ValueError [Text "dataloader type: "; ReprStr ty;
            Text " is not in supported dataloaders:";
            ReprList (map fst AVAILABLE_DATALOADERS)].

Definition ArgumentMismatch (actual declared : gset string) : exn :=
ValueError [Text "DataLoader arguments: \n"; ReprSet actual; Text "\n don't match ";
            Text "the specification in the dataloader.yaml file:\n"; ReprSet declared].

Definition ContractMismatch (variant : string) : exn :=
ValueError [Text "DataLoader does't inherit from the specified dataloader: ";
            Text variant].

(** [cls.from_fn(f)] as [get_dataloader_factory] calls it, on the class
  that [AVAILABLE_DATALOADERS] gives: the three classes that define
  [from_fn], each with its own; on the other four the name is not
  found.  (A subclass of one of the three inherits the class method;
  the [from_fn] of the three modules take the class as an argument
  for that.) *)
Definition from_fn (cls : string) (f : function) (w : world) : result (string * world) :=
if decide (cls = "PreloadedDataset") then Ok (PreloadedDataset.from_fn cls f w)
else if decide (cls = "SampleGenerator") then Ok (SampleGenerator.from_fn cls f w)
else if decide (cls = "BatchGenerator") then Ok (BatchGenerator.from_fn cls f w)
else Err (AttributeError cls "from_fn").

(** The assignments [CustomDataLoader.x = ...] at the end of the function. *)
Definition bind_metadata (cls : string) (r : resolution) (classes : class_store)
  : class_store :=
foldl (λ c '(name, a), type_setattr cls name a c) classes
  [ ("type", AStr (type (dl r)));
    ("defined_as", AStr (defined_as (dl r)));
    ("args", AArgs (args (dl r)));
    ("info", AObj (info (dl r)));
    ("output_schema", AObj (output_schema (dl r)));
    ("dependencies", AObj (dependencies (dl r)));
    ("postprocessing", AObj (postprocessing (dl r)));
    ("_yaml_path", AStr (yaml_path r));
    ("source", AObj (source r));
    ("source_dir", AStr (dataloader_dir r));
    ("example_kwargs", AKwargs (example_kwargs r));
    ("init_example", AMethod "get_dataloader_factory.<locals>.init_example");
    ("print_args", AMethod "kipoi.specs.print_dl_kwargs") ].

(** The function from its first check on (the type check); it returns
  a reference to the class.  What comes before, pulling the
  description, reading it, splitting [defined_as] and importing the
  module, is done by collaborators that are not in the sources: the
  resolution [r] holds what they have produced. *)
Definition get_dataloader_factory (r : resolution) (w : world) : result (string * world) :=
match available (type (dl r)) with
| None => Err (UnknownVariant (type (dl r)))
| Some variant =>
    let actual := getargs (classes w) (CustomDataLoader r) in
    let declared := dom (args (dl r)) in
    if negb (bool_decide (actual = declared)) then
      Err (ArgumentMismatch actual declared)
    else
      '(cls, w') ←
        (if bool_decide (type (dl r) ∈ DATALOADERS_AS_FUNCTIONS) then
           match CustomDataLoader r with
           | Function f => from_fn variant f w
           | Class _ =>
               Err (AssertionError "isinstance(CustomDataLoader, types.FunctionType)")
           end
         else
           match CustomDataLoader r with
           | Class c =>
               if issubclass (classes w) c variant then Ok (c, w)
               else Err (ContractMismatch variant)
           | Function _ => Err (TypeError [Text "issubclass() arg 1 must be a class"])
           end);
      Ok (cls, set_classes (bind_metadata cls r) w')
end.

(** ** Concrete inputs

    Small datasets, functions and descriptions on which the properties
    below are exercised. *)

(** [from + np.arange(n)] *)
Definition arange (n : nat) (from : Z) : ndarray :=
  Arr (map (λ i, Scalar (from + Z.of_nat i)) (seq 0 n)).

Definition samples (n : nat) : nested :=
  NDict [("inputs", NArr (arange n 0)); ("targets", NArr (arange n 100))].

(** Leaves of lengths 10 and 9. *)
Definition ragged_samples : nested :=
  NDict [("inputs", NArr (arange 10 0)); ("targets", NArr (arange 9 100))].

Definition no_args : call_args := ([], ∅).

(** A function without parameters that returns [d]. *)
Definition returning (d : nested) : function :=
  {| fn_name := "load"; fn_args := ∅; fn_call := λ _, Ok (VData d) |}.

(** A generator function without parameters that yields [items]. *)
Definition yielding (items : list nested) : function :=
  {| fn_name := "generate"; fn_args := ∅; fn_call := λ _, Ok (VStream items) |}.

(** The world after [PreloadedDataset.from_fn(f)]. *)
Definition preloaded_world (f : function) : world :=
  (PreloadedDataset.from_fn "PreloadedDataset" f initial_world).2.

(** [batch_size=4, shuffle=False, drop_last=False] and the same with
    [drop_last=True]. *)
Definition batch_4 : kwargs :=
  list_to_map [("batch_size", 4); ("shuffle", 0); ("drop_last", 0)].

Definition batch_4_drop_last : kwargs :=
  list_to_map [("batch_size", 4); ("shuffle", 0); ("drop_last", 1)].


(** A preloaded dataset of [n] samples. *)
Definition preloaded (n : nat) : loader :=
  inst_PreloadedDataset {| PreloadedDataset.data := samples n; PreloadedDataset.n := n |}.

(** The batch that collates the samples found at [indices]. *)
Definition collate_at (getitem : nat → result nested) (indices : list nat)
    : result nested :=
  samples ← sequence (map getitem indices);
  numpy_collate samples.

(** The slice [data[from : from + n]] of [samples]. *)
Definition samples_slice (from n : nat) : nested :=
  NDict [("inputs", NArr (arange n (Z.of_nat from)));
         ("targets", NArr (arange n (100 + Z.of_nat from)))].

(** ** Well-formed class stores and reachable worlds *)

(** The class [cls] exists and comes first in its own resolution order. *)
Definition wf_class (classes : class_store) (cls : string) : Prop :=
  ∃ o bases, classes !! cls = Some o ∧ mro o = cls :: bases.

(** The class [cls] exists and its own [__dict__] has no attribute [name]. *)
Definition lacks (classes : class_store) (cls name : string) : Prop :=
  ∃ o, classes !! cls = Some o ∧ attrs o !! name = None.

(** Every attribute that [get_dataloader_factory] assigns, read through
    the class reference [cls], is the one of the resolution [r]. *)
Definition metadata_bound (classes : class_store) (cls : string) (r : resolution) : Prop :=
  type_getattr classes cls "type" = Ok (AStr (type (dl r)))
  ∧ type_getattr classes cls "defined_as" = Ok (AStr (defined_as (dl r)))
  ∧ type_getattr classes cls "args" = Ok (AArgs (args (dl r)))
  ∧ type_getattr classes cls "info" = Ok (AObj (info (dl r)))
  ∧ type_getattr classes cls "output_schema" = Ok (AObj (output_schema (dl r)))
  ∧ type_getattr classes cls "dependencies" = Ok (AObj (dependencies (dl r)))
  ∧ type_getattr classes cls "postprocessing" = Ok (AObj (postprocessing (dl r)))
  ∧ type_getattr classes cls "_yaml_path" = Ok (AStr (yaml_path r))
  ∧ type_getattr classes cls "source" = Ok (AObj (source r))
  ∧ type_getattr classes cls "source_dir" = Ok (AStr (dataloader_dir r))
  ∧ type_getattr classes cls "example_kwargs" = Ok (AKwargs (example_kwargs r)).

(** The worlds that a program can be in when all it does to classes is
    to import the module, define classes of its own, and call [from_fn]
    and [get_dataloader_factory]. *)
Inductive reachable : world → Prop :=
| reachable_initial : reachable initial_world
| reachable_class name o w :
    classes w !! name = None → reachable w →
    reachable (set_classes (insert name o) w)
| reachable_from_fn cls f w cls' w' :
    reachable w → from_fn cls f w = Ok (cls', w') → reachable w'
| reachable_factory r w cls w' :
    reachable w → get_dataloader_factory r w = Ok (cls, w') → reachable w'
| reachable_other w w' :
    reachable w → classes w' = classes w → reachable w'.

(** *** Descriptions and candidates for the examples *)

Definition description (ty : string) (declared : list string) : DataLoaderDescription :=
  {| type := ty;
     defined_as := "dataloader.py::loader";
     args := list_to_map (map (λ a, (a, "doc")) declared);
     info := "info";
     output_schema := "schema";
     dependencies := "deps";
     postprocessing := "post" |}.

Definition resolved (ty : string) (declared : list string) (c : candidate) : resolution :=
  {| source := "kipoi";
     yaml_path := "loader/dataloader.yaml";
     dataloader_dir := "loader";
     dl := description ty declared;
     CustomDataLoader := c;
     example_kwargs := ∅ |}.

(** A function with the given parameters that returns [v]. *)
Definition fn (params : list string) (v : pyvalue) : function :=
  {| fn_name := "loader"; fn_args := list_to_set params; fn_call := λ _, Ok v |}.

(** A class of the user that derives from [bases]. *)
Definition user_class (name : string) (bases : list string) (params : list string)
    : class_obj :=
  {| mro := name :: bases; attrs := ∅; init_args := list_to_set params |}.

(** The world after a user module has defined two classes: [Mine], which
    takes [a] and [c] and derives from [object] only, and [MyDataset],
    which takes [a] and [b] and derives from [Dataset]. *)
Definition user_world : world :=
  set_classes
    (λ classes,
       <["MyDataset" := user_class "MyDataset" ["Dataset"; "BaseDataLoader"; "object"]
                          ["a"; "b"]]>
         (<["Mine" := user_class "Mine" ["object"] ["a"; "c"]]> classes))
    initial_world.

(** Declared [{a, b}], implemented with [{a, c}], under a variant name
    that is not known. *)
Definition unknown_variant_ab_ac : resolution :=
  resolved "Foo" ["a"; "b"] (Function (fn ["a"; "c"] (VData (samples 10)))).

(** Declared [{a, b}], implemented by [Mine] with [{a, c}], variant
    [Dataset]. *)
Definition dataset_ab_ac : resolution :=
  resolved "Dataset" ["a"; "b"] (Class "Mine").

(** Declared [{a, b}], implemented by [Mine] with [{a, c}], variant
    [BatchDataset]. *)
Definition batch_dataset_ab_ac : resolution :=
  resolved "BatchDataset" ["a"; "b"] (Class "Mine").

(** Declarations that agree with the implementation on the names. *)
Definition dataset_Mine : resolution :=
  resolved "Dataset" ["a"; "c"] (Class "Mine").

Definition dataset_MyDataset : resolution :=
  resolved "Dataset" ["a"; "b"] (Class "MyDataset").

Definition preloaded_fn (d : nested) : resolution :=
  resolved "PreloadedDataset" ["a"] (Function (fn ["a"] (VData d))).

Definition sample_generator_fn (items : list nested) : resolution :=
  resolved "SampleGenerator" ["a"] (Function (fn ["a"] (VStream items))).

Definition sample_generator_Mine : resolution :=
  resolved "SampleGenerator" ["a"; "c"] (Class "Mine").

(** No class on the resolution order of [PreloadedDataset] defines
    [from_data_fn]. *)
Definition no_from_data_fn (classes : class_store) : Prop :=
  (∃ o, classes !! "PreloadedDataset" = Some o
        ∧ mro o = ["PreloadedDataset"; "BaseDataLoader"; "object"])
  ∧ lacks classes "PreloadedDataset" "from_data_fn"
  ∧ lacks classes "BaseDataLoader" "from_data_fn"
  ∧ lacks classes "object" "from_data_fn".

(** The attribute that [from_fn] assigns on a class. *)
Definition is_fn_attr (name : string) : Prop :=
  name = "data_fn" ∨ name = "generator_fn".

(** Two descriptions of sample generators, bound one after the other. *)
Definition first_load : resolution := sample_generator_fn [samples 1].
Definition second_load : resolution := sample_generator_fn [samples 2; samples 3].

(** An instance of the class that the first load returned. *)
Definition generator_instance : SampleGenerator.t :=
  {| SampleGenerator.cls := "SampleGenerator"; SampleGenerator.args := no_args |}.

(** One sample: the slice [i] of [samples]. *)
Definition sample (i : nat) : nested :=
  NDict [("inputs", NArr (Scalar (Z.of_nat i)));
         ("targets", NArr (Scalar (100 + Z.of_nat i)))].

(** An iterator instance that has five samples to give. *)
Definition five_iterator : loader :=
  inst_SampleIterator {| SampleIterator.pending := map sample (seq 0 5) |}.

(** The world after [SampleGenerator.from_fn] has bound a generator
    function that yields the same five samples. *)
Definition generator_world : world :=
  (SampleGenerator.from_fn "SampleGenerator" (yielding (map sample (seq 0 5)))
     initial_world).2.

(** The worlds after the first and after the second load. *)
Definition after_first_load : world :=
  set_classes (bind_metadata "SampleGenerator" first_load)
    (SampleGenerator.from_fn "SampleGenerator" (fn ["a"] (VStream [samples 1]))
       initial_world).2.

Definition after_second_load : world :=
  set_classes (bind_metadata "SampleGenerator" second_load)
    (SampleGenerator.from_fn "SampleGenerator"
       (fn ["a"] (VStream [samples 2; samples 3])) after_first_load).2.

(** ** Subclasses defined by the user *)

(** The world after a user module has defined [MyGenerator], a subclass
    of [SampleGenerator] without a body of its own. *)
Definition subclass_world : world :=
  set_classes
    (insert "MyGenerator"
       (user_class "MyGenerator" ["SampleGenerator"; "BaseDataLoader"; "object"] []))
    initial_world.

(** The worlds after [SampleGenerator.from_fn] on the base class, and
    then [MyGenerator.from_fn] on the subclass. *)
Definition base_bound_world : world :=
  (SampleGenerator.from_fn "SampleGenerator" (yielding [sample 0]) subclass_world).2.

Definition subclass_bound_world : world :=
  (SampleGenerator.from_fn "MyGenerator" (yielding [sample 1]) base_bound_world).2.

(** ** Batches with inputs and targets *)

(** The outcome [o] of a [next()] is a batch that has both keys, and
    [pr] is the pair that they make. *)
Definition has_pair (o : result nested) (pr : nested * nested) : Prop :=
  ∃ x, o = Ok x ∧ BaseDataLoader.train_pair x = Ok pr.

(** A batch of [n] samples that has inputs only. *)
Definition inputs_only (n : nat) : nested :=
  NDict [("inputs", NArr (arange n 0))].

(** A batch iterator that has two batches to give, the second one
    without targets. *)
Definition two_batches : loader :=
  inst_BatchIterator {| BatchIterator.pending := [samples 2; inputs_only 3] |}.

(** A description of type [Dataset] whose [defined_as] names a plain
    function with the declared parameter. *)
Definition dataset_fn : resolution :=
  resolved "Dataset" ["a"] (Function (fn ["a"] (VData (samples 10)))).

(** The world after [BatchGenerator.from_fn] has bound a generator
    function that yields two batches, and an instance made without
    arguments. *)
Definition batch_generator_world : world :=
  (BatchGenerator.from_fn "BatchGenerator" (yielding [samples 2; samples 3])
     initial_world).2.

Definition batch_generator_instance : BatchGenerator.t :=
  {| BatchGenerator.cls := "BatchGenerator"; BatchGenerator.args := no_args |}.



(** ** Attributes that the module assigns, and [init_example] *)

(** The names that [from_fn] and [get_dataloader_factory] assign on a
    class. *)
Definition assigned_names : list string :=
  [ "data_fn"; "generator_fn";
    "type"; "defined_as"; "args"; "info"; "output_schema"; "dependencies";
    "postprocessing"; "_yaml_path"; "source"; "source_dir"; "example_kwargs";
    "init_example"; "print_args" ].

Section init_example.
(** The constructors that are defined outside of this module, by the
    qualified name of the [__init__] that the class resolves to. *)
Variable construct : string → string → call_args → world → result (loader * world).

(** Calling the class [cls] with arguments: the constructor is the
    [__init__] that the class resolves to. *)
Definition instantiate (cls : string) (args : call_args) (w : world)
    : result (loader * world) :=
  a ← type_getattr (classes w) cls "__init__";
  match a with
  | AMethod q =>
      if decide (q = "PreloadedDataset.__init__") then
        '(self, w') ← PreloadedDataset.__init__ cls args w;
        Ok (inst_PreloadedDataset self, w')
      else if decide (q = "SampleGenerator.__init__") then
        let '(self, w') := SampleGenerator.__init__ cls args w in
        Ok (inst_SampleGenerator self, w')
      else if decide (q = "BatchGenerator.__init__") then
        let '(self, w') := BatchGenerator.__init__ cls args w in
        Ok (inst_BatchGenerator self, w')
      else construct q cls args w
  | _ => Err (TypeError [Text "object is not callable"])
  end.

(** The class method [init_example] that [get_dataloader_factory]
    attaches: it calls the class with [cls.example_kwargs] as the
    keywords and without positional arguments.  [cls.init_example()]
    finds the method through the class. *)
Definition init_example (cls : string) (w : world) : result (loader * world) :=
  m ← type_getattr (classes w) cls "init_example";
  match m with
  | AMethod q =>
      if decide (q = "get_dataloader_factory.<locals>.init_example") then
        kw ← type_getattr (classes w) cls "example_kwargs";
        match kw with
        | AKwargs kw => instantiate cls ([], kw) w
        | _ => Err (TypeError [Text "argument after ** must be a mapping"])
        end
      else Err (TypeError [Text "unexpected arguments"])
  | _ => Err (TypeError [Text "object is not callable"])
  end.
End init_example.

(** No constructor is defined outside of the module. *)
Definition no_user_constructor : string → string → call_args → world
    → result (loader * world) :=
  λ q _ _ _, Err (AttributeError q "__init__").

(** A generator function that requires the keyword [a]. *)
Definition needs_a : function :=
  {| fn_name := "loader";
     fn_args := {[ "a" ]};
     fn_call := λ args,
       match args.2 !! "a" with
       | Some _ => Ok (VStream [sample 0])
       | None => Err (TypeError [Text "missing a required argument: "; ReprStr "a"])
       end |}.

(** A description of a sample generator with an example for [a]. *)
Definition example_load : resolution :=
  {| source := "kipoi";
     yaml_path := "loader/dataloader.yaml";
     dataloader_dir := "loader";
     dl := description "SampleGenerator" ["a"];
     CustomDataLoader := Function needs_a;
     example_kwargs := {[ "a" := "example_files/a.txt" ]} |}.

Definition after_example_load : world :=
  set_classes (bind_metadata "SampleGenerator" example_load)
    (SampleGenerator.from_fn "SampleGenerator" needs_a initial_world).2.

Definition example_instance : SampleGenerator.t :=
  {| SampleGenerator.cls := "SampleGenerator";
     SampleGenerator.args := ([], {[ "a" := "example_files/a.txt" ]}) |}.

(** ** Slices of a nested structure *)

(** [f] applied to every array of a nested structure. *)
Fixpoint map_leaves (f : ndarray → ndarray) (d : nested) : nested :=
  match d with
  | NArr a => NArr (f a)
  | NList xs => NList (map (map_leaves f) xs)
  | NDict kvs => NDict (map (λ kv, (kv.1, map_leaves f kv.2)) kvs)
  end.

(** Every array of a nested structure satisfies [P]. *)
Inductive leaves (P : ndarray → Prop) : nested → Prop :=
| leaves_arr a : P a → leaves P (NArr a)
| leaves_list xs : Forall (leaves P) xs → leaves P (NList xs)
| leaves_dict kvs : Forall (λ kv, leaves P kv.2) kvs → leaves P (NDict kvs).

(** The keys of every dictionary of a nested structure are distinct, as
    the keys of a Python dictionary are. *)
Inductive distinct_keys : nested → Prop :=
| distinct_keys_arr a : distinct_keys (NArr a)
| distinct_keys_list xs : Forall distinct_keys xs → distinct_keys (NList xs)
| distinct_keys_dict kvs :
    NoDup (map fst kvs) → Forall (λ kv, distinct_keys kv.2) kvs →
    distinct_keys (NDict kvs).

(** An array with [n] slices along its leading axis. *)
Definition has_rows (n : nat) (a : ndarray) : Prop :=
  ∃ rows, a = Arr rows ∧ length rows = n.

(** [a[i]] and [a[indices]], where the indices are in range. *)
Definition row (i : nat) (a : ndarray) : ndarray :=
  match a with
  | Arr rows => default (Scalar 0) (rows !! i)
  | Scalar v => Scalar v
  end.

Definition take_rows (indices : list nat) (a : ndarray) : ndarray :=
  match a with
  | Arr rows => Arr (omap (λ i, rows !! i) indices)
  | Scalar v => Scalar v
  end.

(** The two loops of [collate_with], over the elements of a list and
    over the entries of a dictionary, under names of their own. *)
Section collate_loops.
Variable leaf : list ndarray → result ndarray.

Section collate_list.
Variable rest' : list (list nested).

Fixpoint collate_list (i : nat) (l : list nested) : result (list nested) :=
  match l with
  | [] => Ok []
  | x :: l' =>
      col ← sequence (map (nth_of i) rest');
      y ← collate_with leaf x col;
      ys ← collate_list (S i) l'; Ok (y :: ys)
  end.
End collate_list.

Section collate_dict.
Variable rest' : list (list (string * nested)).

Fixpoint collate_dict (l : list (string * nested)) : result (list (string * nested)) :=
  match l with
  | [] => Ok []
  | kv :: l' =>
      col ← sequence (map (key_of kv.1) rest');
      y ← collate_with leaf kv.2 col;
      ys ← collate_dict l'; Ok ((kv.1, y) :: ys)
  end.
End collate_dict.
End collate_loops.

(** The slice [data[from : from + len]] of every array. *)
Definition slice (from len : nat) (data : nested) : nested :=
  map_leaves (take_rows (seq from len)) data.

(** An indexed dataset over the [n] samples of [samples n]. *)
Definition indexed (n : nat) : Dataset.t :=
  {| Dataset.__len__ := n; Dataset.__getitem__ := get_dataset_item (samples n) |}.

(** A dataset of three batches of two samples each. *)
Definition three_batches : BatchDataset.t :=
  {| BatchDataset.__len__ := 3;
     BatchDataset.__getitem__ := λ i,
       if decide (i < 3) then Ok (samples_slice (i * 2) 2) else Err IndexError |}.

(** ** The [defined_as] field of a description *)

(** The character [:]. *)
Definition colon : Ascii.ascii :=
  Ascii.Ascii false true false true true true false false.

(** [s.split("::")]: the pieces of [s] between the occurrences of the
    separator, which are found from the left and do not overlap;
    [cur] is the piece that is being read. *)
Fixpoint split_colons (cur s : string) : list string :=
  match s with
  | EmptyString => [cur]
  | String c s' =>
      match s' with
      | EmptyString => [cur +:+ String c EmptyString]
      | String c' s'' =>
          if decide (c = colon ∧ c' = colon)
          then cur :: split_colons EmptyString s''
          else split_colons (cur +:+ String c EmptyString) s'
      end
  end.

(** [file_path, obj_name = tuple(dl.defined_as.split("::"))]: unpacking
    into two names fails unless there are exactly two pieces. *)
Definition defined_as_parts (defined_as : string) : result (string * string) :=
  match split_colons EmptyString defined_as with
  | [file_path; obj_name] => Ok (file_path, obj_name)
  | [] | [_] =>
      Err (ValueError [Text "not enough values to unpack (expected 2, got 1)"])
  | _ => Err (ValueError [Text "too many values to unpack (expected 2)"])
  end.

(** The string has no colon in it. *)
Fixpoint no_colon (s : string) : bool :=
  match s with
  | EmptyString => true
  | String c s' => negb (bool_decide (c = colon)) && no_colon s'
  end.

Lemma sequence_map_ok {A B} (f : A → result B) (g : A → B) (l : list A) :
  Forall (λ x, f x = Ok (g x)) l → sequence (map f l) = Ok (map g l).
Proof.
  induction 1 as [|x l Hx _ IH]; simpl; [done|].
  by rewrite Hx, IH.
Qed.

Lemma numpy_collate_singleton (s : nested) :
  numpy_collate [s] = Ok (expand_dims s).
Proof.
  unfold numpy_collate, collate.
  induction s as [a|xs IH|kvs IH] using nested_ind'; simpl; [done| |].
  - generalize 0.
    induction IH as [|x xs Hx _ IHxs]; intros i; simpl; [done|].
    rewrite Hx; simpl.
    specialize (IHxs (S i)).
    destruct (_ (S i) xs) as [ys|e] eqn:E in IHxs |- *; simpl in *; congruence.
  - induction IH as [|[k v] kvs Hx _ IHkvs]; simpl; [done|].
    simpl in Hx. rewrite Hx; simpl.
    match goal with
    | H : context [?f kvs] |- context [?g kvs] => change (g kvs) with (f kvs)
    end.
    match type of IHkvs with
    | context [?f kvs] => destruct (f kvs) as [ys|e]; simpl in *; congruence
    end.
Qed.

Lemma get_dataset_item_expand_dims (s : nested) :
  get_dataset_item (expand_dims s) 0 = Ok s.
Proof.
  induction s as [a|xs IH|kvs IH] using nested_ind'; simpl; [done| |].
  - rewrite map_map.
    rewrite (sequence_map_ok _ id); [by rewrite map_id|].
    eapply Forall_impl; [exact IH|]. by intros x ->.
  - rewrite map_map.
    rewrite (sequence_map_ok _ id); [by rewrite map_id|].
    eapply Forall_impl; [exact IH|]. intros [k v]; simpl. by intros ->.
Qed.

(** C7.  Collating the one-element sequence [[s]] into a batch and then
    extracting index 0 from that batch succeeds and gives back a
    structure equal to the sample [s], for every nested structure of
    arrays [s]. *)
Theorem collate_singleton_getitem_roundtrip (s : nested) :
  (batch ← numpy_collate [s]; get_dataset_item batch 0) = Ok s.
Proof.
  rewrite numpy_collate_singleton. simpl.
  apply get_dataset_item_expand_dims.
Qed.

(** ** The length check of [PreloadedDataset.__init__] *)

Lemma set_size_one (lens : list nat) :
  size (list_to_set lens : gset nat) = 1 ↔
  ∃ n, lens ≠ [] ∧ ∀ a, a ∈ lens → a = n.
Proof.
  split.
  - intros Hsz. apply size_1_elem_of in Hsz as [n Hn].
    exists n. split.
    + intros ->. simpl in Hn. set_solver +Hn.
    + intros a Ha. apply (elem_of_list_to_set (C:=gset nat)) in Ha.
      rewrite Hn in Ha. by apply elem_of_singleton in Ha.
  - intros (n & Hne & Hall).
    assert (list_to_set lens = ({[ n ]} : gset nat)) as ->; [|by rewrite size_singleton].
    apply set_eq. intros a. rewrite elem_of_list_to_set, elem_of_singleton.
    split; [by apply Hall|]. intros ->.
    destruct lens as [|b lens]; [done|].
    rewrite (Hall b); [|left]. left.
Qed.

Lemma set_size_two (lens : list nat) a b :
  a ∈ lens → b ∈ lens → a ≠ b → size (list_to_set lens : gset nat) ≠ 1.
Proof.
  intros Ha Hb Hab Hsz. apply set_size_one in Hsz as (n & _ & Hall).
  apply Hall in Ha, Hb. congruence.
Qed.

Lemma PreloadedDataset_init_unfold cls args w f data lens :
  type_getattr (classes w) cls "data_fn" = Ok (AFunction f) →
  fn_call f args = Ok (VData data) →
  get_dataset_lens data = Ok lens →
  PreloadedDataset.__init__ cls args w =
    if decide (size (list_to_set lens : gset nat) = 1) then
      match lens !! 0 with
      | Some n => Ok ({| PreloadedDataset.data := data; PreloadedDataset.n := n |},
                      new_object w)
      | None => Err IndexError
      end
    else Err DimensionMismatch.
Proof.
  intros Hattr Hcall Hlens.
  unfold PreloadedDataset.__init__, PreloadedDataset._get_data_fn.
  rewrite Hattr. simpl. rewrite Hcall. simpl. rewrite Hlens. done.
Qed.

(** C3.  Constructing a preloaded dataset from a structure whose leaves
    show more than one distinct first-dimension length fails with
    [DimensionMismatch]; when the leaves all share one length [n] the
    construction succeeds, keeps the structure, and the length of the
    dataset is [n]. *)
Theorem PreloadedDataset_init_uniform_length cls args w f data lens :
  type_getattr (classes w) cls "data_fn" = Ok (AFunction f) →
  fn_call f args = Ok (VData data) →
  get_dataset_lens data = Ok lens →
  ((∃ a b, a ∈ lens ∧ b ∈ lens ∧ a ≠ b) →
     PreloadedDataset.__init__ cls args w = Err DimensionMismatch)
  ∧ (∀ n, lens ≠ [] → (∀ a, a ∈ lens → a = n) →
       ∃ self,
         PreloadedDataset.__init__ cls args w = Ok (self, new_object w)
         ∧ PreloadedDataset.data self = data
         ∧ PreloadedDataset.__len__ self = n).
Proof.
  intros Hattr Hcall Hlens.
  rewrite (PreloadedDataset_init_unfold _ _ _ _ _ _ Hattr Hcall Hlens).
  split.
  - intros (a & b & Ha & Hb & Hab).
    rewrite decide_False; [done|]. exact (set_size_two _ _ _ Ha Hb Hab).
  - intros n Hne Hall.
    rewrite decide_True; [|apply set_size_one; eauto].
    destruct lens as [|m lens]; [done|]. simpl.
    eexists. split; [done|]. split; [done|].
    simpl. apply Hall. left.
Qed.

Lemma PreloadedDataset_init_uniform_length_example :
  PreloadedDataset.__init__ "PreloadedDataset" no_args
      (preloaded_world (returning ragged_samples)) = Err DimensionMismatch
  ∧ ∃ self,
      PreloadedDataset.__init__ "PreloadedDataset" no_args
          (preloaded_world (returning (samples 10)))
        = Ok (self, new_object (preloaded_world (returning (samples 10))))
      ∧ PreloadedDataset.data self = samples 10
      ∧ PreloadedDataset.__len__ self = 10.
Proof.
  split.
  - apply (PreloadedDataset_init_uniform_length "PreloadedDataset" no_args
             (preloaded_world (returning ragged_samples))
             (returning ragged_samples) ragged_samples [10; 9]);
      [reflexivity | done | done |].
    exists 10, 9. repeat split; [left | right; left | lia].
  - apply (PreloadedDataset_init_uniform_length "PreloadedDataset" no_args
             (preloaded_world (returning (samples 10)))
             (returning (samples 10)) (samples 10) [10; 10]);
      [reflexivity | done | done | done |].
    intros a Ha.
    repeat (apply elem_of_cons in Ha as [->|Ha]; [done|]).
    by apply elem_of_nil in Ha.
Defined.

(** ** [load_all] *)

Lemma kw_get_insert name v kw dflt :
  kw_get name dflt (<[name := v]> kw) = v.
Proof. unfold kw_get. by rewrite lookup_insert_eq. Qed.

Lemma kw_get_insert_ne name name' v kw dflt :
  name ≠ name' → kw_get name' dflt (<[name := v]> kw) = kw_get name' dflt kw.
Proof. intros. unfold kw_get. by rewrite lookup_insert_ne. Qed.

Lemma kw_rest_insert names name v (kw : kwargs) :
  name ∈ names → kw_rest names (<[name := v]> kw) = kw_rest names kw.
Proof.
  intros Hin. apply map_eq. intros i.
  assert (∀ m : kwargs, kw_rest names m !! i = if decide (i ∈ names) then None else m !! i)
    as Hlook.
  { intros m. unfold kw_rest. clear Hin.
    induction names as [|x names IH]; cbn [foldr].
    - case_decide as H0; [by apply elem_of_nil in H0|done].
    - rewrite lookup_delete, IH.
      destruct (decide (x = i)) as [->|Hx].
      + rewrite decide_True; [done|left].
      + destruct (decide (i ∈ names)) as [Hi|Hi].
        * rewrite decide_True; [done|by right].
        * rewrite decide_False; [done|]. rewrite elem_of_cons. by intros [->|?]. }
  rewrite !Hlook. case_decide as Hi; [done|].
  rewrite lookup_insert_ne; [done|]. intros ->. done.
Qed.

(** Binding [batch_size] by name and handing it on changes nothing. *)
Lemma Dataset_batch_iter_batch_size kw self w :
  Dataset.batch_iter (<["batch_size" := kw_get "batch_size" 32 kw]> kw) self w
  = Dataset.batch_iter kw self w.
Proof.
  unfold Dataset.batch_iter, Dataset._batch_iterable.
  rewrite kw_rest_insert; [|set_solver].
  rewrite kw_get_insert, !kw_get_insert_ne; done.
Qed.

Lemma lift_bind {T A B} (inj : T → loader) (r : result (A * T * world))
    (k : A * loader * world → result B) :
  (lift inj r ≫= k) = (r ≫= λ '(x, s, w), k (x, inj s, w)).
Proof. by destruct r as [[[x s] w]|e]. Qed.

(** C1.  A preloaded dataset that was constructed successfully hands
    back, from [load_all] with any keywords, the very structure that its
    production function returned, without touching anything else; for
    every other variant [load_all] runs [batch_iter] to its end and
    returns the concatenation of all the batches it yielded. *)
Theorem load_all_spec :
  (∀ cls args w self w',
     PreloadedDataset.__init__ cls args w = Ok (self, w') →
     (∃ f, PreloadedDataset._get_data_fn cls w = Ok f
           ∧ call f args = Ok (VData (PreloadedDataset.data self)))
     ∧ ∀ kw w2,
         load_all kw (inst_PreloadedDataset self) w2
         = Ok (PreloadedDataset.data self, inst_PreloadedDataset self, w2))
  ∧ (∀ kw self w,
       is_preloaded self = false →
       load_all kw self w
       = ('(batches, self', w') ← batch_iter kw self w;
          xs ← sequence batches;
          r ← numpy_collate_concat xs;
          Ok (r, self', w'))).
Proof.
  split.
  - intros cls args w self w' Hinit. split; [|done].
    unfold PreloadedDataset.__init__ in Hinit.
    destruct (PreloadedDataset._get_data_fn cls w) as [f|e]; [|done].
    exists f. split; [done|]. simpl in Hinit.
    destruct (call f args) as [[d|items]|e]; simpl in Hinit; try done.
    destruct (get_dataset_lens d) as [lens|e]; simpl in Hinit; [|done].
    case_decide; [|done]. destruct (lens !! 0); [|done].
    by simplify_eq.
  - intros kw [s|s|s|s|s|s|s] w Hpre; try done.
    simpl. unfold Dataset.load_all.
    rewrite Dataset_batch_iter_batch_size, lift_bind.
    destruct (Dataset.batch_iter kw s w) as [[[p s'] w']|e]; [|done].
    simpl. destruct (sequence p) as [xs|e]; [|done].
    simpl. by destruct (numpy_collate_concat xs).
Qed.

Lemma load_all_spec_example :
  (∃ f, PreloadedDataset._get_data_fn "PreloadedDataset"
          (preloaded_world (returning (samples 10))) = Ok f
        ∧ call f no_args = Ok (VData (samples 10)))
  ∧ load_all {[ "batch_size" := 3 ]}
      (inst_PreloadedDataset
         {| PreloadedDataset.data := samples 10; PreloadedDataset.n := 10 |})
      initial_world
    = Ok (samples 10,
          inst_PreloadedDataset
            {| PreloadedDataset.data := samples 10; PreloadedDataset.n := 10 |},
          initial_world)
  ∧ load_all {[ "batch_size" := 3 ]}
      (inst_Dataset
         {| Dataset.__len__ := 10;
            Dataset.__getitem__ := get_dataset_item (samples 10) |})
      initial_world
    = Ok (samples 10,
          inst_Dataset
            {| Dataset.__len__ := 10;
               Dataset.__getitem__ := get_dataset_item (samples 10) |},
          initial_world).
Proof.
  destruct load_all_spec as [Hpre Hother].
  destruct (Hpre "PreloadedDataset" no_args
              (preloaded_world (returning (samples 10)))
              {| PreloadedDataset.data := samples 10; PreloadedDataset.n := 10 |}
              (new_object (preloaded_world (returning (samples 10)))))
    as [Hf Hload]; [reflexivity|].
  split; [exact Hf|]. split; [apply Hload|].
  rewrite Hother; [|done]. reflexivity.
Defined.

(** ** Batches of an indexed dataset *)

(** C2.  Over a preloaded dataset, or an indexed dataset, of 10 samples,
    [batch_iter(batch_size=4, shuffle=False, drop_last=False)] yields
    exactly three batches, which collate the samples at the indices
    0..3, 4..7 and 8..9 in this order; with [drop_last=True] it yields
    exactly the first two of them. *)
Theorem batch_iter_ten_by_four :
  (∀ (self : PreloadedDataset.t) (w : world),
     PreloadedDataset.__len__ self = 10 →
     PreloadedDataset.batch_iter batch_4 self w
       = Ok (map (collate_at (PreloadedDataset.__getitem__ self))
               [[0; 1; 2; 3]; [4; 5; 6; 7]; [8; 9]], self, w)
     ∧ PreloadedDataset.batch_iter batch_4_drop_last self w
       = Ok (map (collate_at (PreloadedDataset.__getitem__ self))
               [[0; 1; 2; 3]; [4; 5; 6; 7]], self, w))
  ∧ (∀ (self : Dataset.t) (w : world),
       Dataset.__len__ self = 10 →
       Dataset.batch_iter batch_4 self w
         = Ok (map (collate_at (Dataset.__getitem__ self))
                 [[0; 1; 2; 3]; [4; 5; 6; 7]; [8; 9]], self, w)
       ∧ Dataset.batch_iter batch_4_drop_last self w
         = Ok (map (collate_at (Dataset.__getitem__ self))
                 [[0; 1; 2; 3]; [4; 5; 6; 7]], self, w)).
Proof.
  split.
  - intros [data n] w Hlen. simpl in Hlen. subst n.
    split; reflexivity.
  - intros [len getitem] w Hlen. simpl in Hlen. subst len.
    split; reflexivity.
Qed.

Lemma batch_iter_ten_by_four_example :
  PreloadedDataset.batch_iter batch_4
      {| PreloadedDataset.data := samples 10; PreloadedDataset.n := 10 |} initial_world
    = Ok ([Ok (samples_slice 0 4); Ok (samples_slice 4 4); Ok (samples_slice 8 2)],
          {| PreloadedDataset.data := samples 10; PreloadedDataset.n := 10 |},
          initial_world)
  ∧ Dataset.batch_iter batch_4_drop_last
      {| Dataset.__len__ := 10; Dataset.__getitem__ := get_dataset_item (samples 10) |}
      initial_world
    = Ok ([Ok (samples_slice 0 4); Ok (samples_slice 4 4)],
          {| Dataset.__len__ := 10; Dataset.__getitem__ := get_dataset_item (samples 10) |},
          initial_world).
Proof.
  destruct batch_iter_ten_by_four as [Hpre Hidx].
  split.
  - destruct (Hpre {| PreloadedDataset.data := samples 10; PreloadedDataset.n := 10 |}
                initial_world) as [-> _]; [reflexivity|].
    reflexivity.
  - destruct (Hidx {| Dataset.__len__ := 10;
                      Dataset.__getitem__ := get_dataset_item (samples 10) |}
                initial_world) as [_ ->]; [reflexivity|].
    reflexivity.
Defined.

(** ** [batch_train_iter] *)

Section cycle.
Context {A St : Type} (restart : St → result (list (result A) * St)).


(** When a restart gives nothing and changes nothing, [next()] on the
    cycle goes round without ever yielding. *)
Lemma iterable_cycle_next_starves fuel s :
  restart s = Ok ([], s) → iterable_cycle_next restart fuel [] s = None.
Proof.
  intros Hempty. induction fuel as [|fuel IH]; [done|].
  simpl. by rewrite Hempty.
Qed.

Lemma iterable_cycle_next_yield fuel x cur s :
  iterable_cycle_next restart fuel (Ok x :: cur) s = Some (Yield x (cur, s)).
Proof. by destruct fuel. Qed.
End cycle.

Section train.
Context {Self : Type}.
Implicit Types (it : iterable Self) (self : Self) (w : world).






End train.

(** [iter()] on the iterable of a loader is a batch iteration of that
    loader, now and whenever the cycle comes back to it. *)
Lemma _batch_iterable_iter kw self it :
  _batch_iterable kw self = Ok it →
  ∀ self' w',
    same_instance self self' →
    it self' w' = batch_iter kw self' w'
    ∧ ∀ p self'' w'', it self' w' = Ok (p, self'', w'') → same_instance self self''.
Proof.
  intros Hit self' w' Hsame.
  destruct self as [s|s|s|s|s|s|s], self' as [s'|s'|s'|s'|s'|s'|s']; try done;
    simpl in Hsame; subst; simpl in Hit.
  - injection Hit as <-. split.
    + unfold batch_iter, PreloadedDataset.batch_iter, DataLoader_iter, lift.
      by destruct (torch.shuffle _); [destruct (draw_randperm _ _)|].
    + unfold DataLoader_iter. intros p self'' w''.
      destruct (torch.shuffle _); [destruct (draw_randperm _ _)|];
        by intros [= _ <- _].
  - destruct (Dataset._batch_iterable kw s') as [dl|e] eqn:Hdl; [|done].
    injection Hit as <-. split.
    + unfold batch_iter, Dataset.batch_iter. rewrite Hdl. simpl.
      unfold DataLoader_iter, lift.
      by destruct (torch.shuffle _); [destruct (draw_randperm _ _)|].
    + unfold DataLoader_iter. intros p self'' w''.
      destruct (torch.shuffle _); [destruct (draw_randperm _ _)|];
        by intros [= _ <- _].
  - injection Hit as <-. split.
    + unfold batch_iter, BatchDataset.batch_iter, DataLoader_iter, lift.
      by destruct (torch.shuffle _); [destruct (draw_randperm _ _)|].
    + unfold DataLoader_iter. intros p self'' w''.
      destruct (torch.shuffle _); [destruct (draw_randperm _ _)|];
        by intros [= _ <- _].
  - injection Hit as <-. unfold DataloaderIterable_iter. simpl. split.
    + unfold SampleIterator.batch_iter. by rewrite kw_get_insert.
    + intros p self'' w''. unfold SampleIterator.batch_iter, lift.
      destruct (SampleIterator.exhaust _ _). by intros [= _ <- _].
  - injection Hit as <-. unfold DataloaderIterable_iter. simpl. split; [done|].
    intros p self'' w''. unfold BatchIterator.batch_iter, lift.
    destruct (BatchIterator.exhaust _ _). by intros [= _ <- _].
  - injection Hit as <-. unfold DataloaderIterable_iter. simpl. split.
    + unfold SampleGenerator.batch_iter. by rewrite kw_get_insert.
    + intros p self'' w''. unfold SampleGenerator.batch_iter, lift.
      destruct (SampleGenerator.__iter__ _ _); [|done]. by intros [= _ <- _].
  - injection Hit as <-. unfold DataloaderIterable_iter. simpl. split; [done|].
    intros p self'' w''. unfold BatchGenerator.batch_iter, lift.
    destruct (BatchGenerator.__iter__ _ _); [|done]. by intros [= _ <- _].
Qed.

Section items.
Context {Self : Type}.
Implicit Types (self : Self) (w : world) (p : list (result nested)).

(** Pulling from the generator of [cycle=False] through batches that
    all have both keys, and then through whatever follows. *)
Lemma train_take_finite_app fuel p pairs rest self w k :
  Forall2 has_pair p pairs →
  BaseDataLoader.train_take fuel (length pairs + k)
    (BaseDataLoader.Finite (genexpr BaseDataLoader.train_pair (p ++ rest)) self w)
  = (let '(ps, v) :=
       BaseDataLoader.train_take fuel k
         (BaseDataLoader.Finite (genexpr BaseDataLoader.train_pair rest) self w) in
     (pairs ++ ps, v)).
Proof.
  induction 1 as [|o pr p pairs (x & -> & Hx) _ IH].
  - simpl. by destruct (BaseDataLoader.train_take _ _ _).
  - cbn [length Nat.add BaseDataLoader.train_take].
    unfold genexpr in *. cbn [app map]. cbn [BaseDataLoader.train_next list_next mbind
                                             result_bind].
    rewrite Hx. cbn [list_next]. rewrite IH.
    by destruct (BaseDataLoader.train_take fuel k _).
Qed.

Lemma train_take_finite_all fuel p pairs self w k :
  Forall2 has_pair p pairs →
  length pairs < k →
  BaseDataLoader.train_take fuel k
    (BaseDataLoader.Finite (genexpr BaseDataLoader.train_pair p) self w)
  = (pairs, Finished).
Proof.
  intros Hp Hk.
  replace k with (length pairs + S (k - S (length pairs))) by lia.
  rewrite <-(app_nil_r p).
  rewrite (train_take_finite_app _ _ _ [] _ _ _ Hp). simpl.
  by rewrite app_nil_r.
Qed.

Lemma train_take_finite_raise fuel p pairs x e rest self w k :
  Forall2 has_pair p pairs →
  BaseDataLoader.train_pair x = Err e →
  length pairs < k →
  BaseDataLoader.train_take fuel k
    (BaseDataLoader.Finite (genexpr BaseDataLoader.train_pair (p ++ Ok x :: rest)) self w)
  = (pairs, Raised e).
Proof.
  intros Hp Hx Hk.
  replace k with (length pairs + S (k - S (length pairs))) by lia.
  rewrite (train_take_finite_app _ _ _ _ _ _ _ Hp).
  cbn [BaseDataLoader.train_take]. unfold genexpr. cbn [map].
  cbn [BaseDataLoader.train_next list_next mbind result_bind].
  rewrite Hx. cbn [list_next]. by rewrite app_nil_r.
Qed.
End items.

Lemma train_take_starves fuel (it : iterable loader) cur pairs self w k :
  it self w = Ok ([], self, w) →
  Forall2 has_pair cur pairs →
  length pairs < k →
  BaseDataLoader.train_take fuel k (BaseDataLoader.Cycling it cur self w)
  = (pairs, Starved).
Proof.
  intros Hempty Hcur. revert k.
  induction Hcur as [|o pr cur pairs (x & -> & Hx) _ IH]; intros k Hk.
  - destruct k as [|k]; [simpl in Hk; lia|].
    cbn [BaseDataLoader.train_take BaseDataLoader.train_next].
    rewrite iterable_cycle_next_starves; [done|].
    unfold BaseDataLoader.restart. simpl. by rewrite Hempty.
  - destruct k as [|k]; [simpl in Hk; lia|].
    cbn [BaseDataLoader.train_take BaseDataLoader.train_next].
    rewrite iterable_cycle_next_yield.
    rewrite Hx. rewrite IH; [done|]. simpl in Hk. lia.
Qed.

Lemma train_take_first_pass fuel (it : iterable loader) p pairs self self' w k :
  it self w = Ok (p, self', w) →
  it self' w = Ok ([], self', w) →
  Forall2 has_pair p pairs →
  length pairs < k →
  BaseDataLoader.train_take (S fuel) k (BaseDataLoader.Cycling it [] self w)
  = (pairs, Starved).
Proof.
  intros Hfirst Hempty Hp Hk.
  destruct Hp as [|o pr p pairs (x & -> & Hx) Hp].
  - destruct k as [|k]; [simpl in Hk; lia|].
    cbn [BaseDataLoader.train_take BaseDataLoader.train_next iterable_cycle_next].
    unfold BaseDataLoader.restart at 1. cbn [fst snd]. rewrite Hfirst.
    cbn [mbind result_bind].
    rewrite iterable_cycle_next_starves; [done|].
    unfold BaseDataLoader.restart. simpl. by rewrite Hempty.
  - destruct k as [|k]; [simpl in Hk; lia|].
    cbn [BaseDataLoader.train_take BaseDataLoader.train_next iterable_cycle_next].
    unfold BaseDataLoader.restart at 1. cbn [fst snd]. rewrite Hfirst.
    cbn [mbind result_bind]. rewrite iterable_cycle_next_yield.
    rewrite Hx. rewrite (train_take_starves _ _ _ pairs); [done|done|done|].
    simpl in Hk. lia.
Qed.




(** ** The dynamic loader *)

Lemma available_spec ty variant :
  available ty = Some variant ↔ variant = ty ∧ ty ∈ map fst AVAILABLE_DATALOADERS.
Proof.
  unfold available. split.
  - intros Hlook. apply elem_of_list_to_map_2 in Hlook.
    unfold AVAILABLE_DATALOADERS in Hlook.
    repeat (apply elem_of_cons in Hlook as [[= -> ->]|Hlook];
            [split; [done|compute_done]|]).
    by apply elem_of_nil in Hlook.
  - intros [-> Hin]. unfold AVAILABLE_DATALOADERS in Hin. simpl in Hin.
    repeat (apply elem_of_cons in Hin as [->|Hin]; [by vm_compute|]).
    by apply elem_of_nil in Hin.
Qed.

Lemma from_fn_known variant f w :
  variant ∈ DATALOADERS_AS_FUNCTIONS →
  ∃ name, (name = "data_fn" ∨ name = "generator_fn")
          ∧ from_fn variant f w
            = Ok (variant, set_classes (type_setattr variant name (AFunction f)) w).
Proof.
  unfold DATALOADERS_AS_FUNCTIONS. intros Hin.
  repeat (apply elem_of_cons in Hin as [->|Hin];
          [eexists; split; [|reflexivity]; auto|]).
  by apply elem_of_nil in Hin.
Qed.

Lemma from_fn_ok cls f w cls' w' :
  from_fn cls f w = Ok (cls', w') →
  cls' = cls
  ∧ ∃ name, is_fn_attr name
            ∧ w' = set_classes (type_setattr cls name (AFunction f)) w
            ∧ ∀ f0 w0, from_fn cls f0 w0
                       = Ok (cls, set_classes (type_setattr cls name (AFunction f0)) w0).
Proof.
  unfold from_fn, is_fn_attr.
  repeat case_decide; try done; subst; intros [= <- <-];
    (split; [done|eexists; split; [|split; [reflexivity|done]]; auto]).
Qed.

(** C5.  The check of the argument names, which comes second, after
    the check of the variant name.  When the parameter names of the
    implementation are not exactly the declared argument names (a
    subset or a superset is refused as well), loading fails at this
    check with [ArgumentMismatch], whose message gives both sets, and
    no instance has been created; a description that does not reach the
    check, because its variant name is not known, has failed before
    with [UnknownVariant].  When the two sets are equal the check
    passes: loading does not fail with [ArgumentMismatch]. *)
Theorem argument_names_checked (r : resolution) (w : world) :
  let actual := getargs (classes w) (CustomDataLoader r) in
  let declared := dom (args (dl r)) in
  (actual ≠ declared →
     (is_Some (available (type (dl r))) →
        get_dataloader_factory r w = Err (ArgumentMismatch actual declared)
        ∧ ∃ m, ArgumentMismatch actual declared = ValueError m
               ∧ ReprSet actual ∈ m ∧ ReprSet declared ∈ m)
     ∧ (available (type (dl r)) = None →
          get_dataloader_factory r w = Err (UnknownVariant (type (dl r)))))
  ∧ (actual = declared →
       ∀ a d, get_dataloader_factory r w ≠ Err (ArgumentMismatch a d)).
Proof.
  intros actual declared. unfold get_dataloader_factory.
  fold actual declared. split.
  - intros Hne. split.
    + intros [variant ->].
      rewrite bool_decide_eq_false_2 by done. simpl. split; [done|].
      eexists. split; [reflexivity|]. split; set_solver.
    + by intros ->.
  - intros Heq a d.
    destruct (available (type (dl r))) as [variant|] eqn:Hav; [|done].
    apply available_spec in Hav as [-> _].
    rewrite bool_decide_eq_true_2 by done. simpl.
    case_bool_decide as Hfn.
    + destruct (CustomDataLoader r) as [f|c]; [|done].
      destruct (from_fn_known _ f w Hfn) as (name & _ & ->). done.
    + destruct (CustomDataLoader r) as [f|c]; [done|].
      by destruct (issubclass (classes w) c _).
Qed.

Lemma argument_names_checked_example :
  get_dataloader_factory dataset_ab_ac user_world
    = Err (ArgumentMismatch {[ "a"; "c" ]} {[ "a"; "b" ]})
  ∧ (∃ m, ArgumentMismatch (getargs (classes user_world) (CustomDataLoader dataset_ab_ac))
            (dom (args (dl dataset_ab_ac))) = ValueError m
          ∧ ReprSet {[ "a"; "c" ]} ∈ m ∧ ReprSet {[ "a"; "b" ]} ∈ m)
  ∧ ∀ a d, get_dataloader_factory dataset_MyDataset user_world
           ≠ Err (ArgumentMismatch a d).
Proof.
  destruct (argument_names_checked dataset_ab_ac user_world) as [Hne _].
  destruct Hne as [Hknown _]; [compute_done|].
  destruct Hknown as [Hfail Hmsg]; [by eexists; vm_compute|].
  split.
  - rewrite Hfail. f_equal.
  - split.
    + destruct Hmsg as (m & Hm & Ha & Hd). exists m. split; [exact Hm|].
      split; [exact Ha|exact Hd].
    + destruct (argument_names_checked dataset_MyDataset user_world) as [_ Heq].
      apply Heq. by vm_compute.
Defined.

Lemma set_classes_objects f w : objects (set_classes f w) = objects w.
Proof. done. Qed.

(** C6.  What the type validation of [get_dataloader_factory] does.
    The known variant names are the seven of [AVAILABLE_DATALOADERS],
    and any other name fails with [UnknownVariant].  For a known name,
    once the argument names have been found to match: a function-derived
    variant takes a plain function, which [from_fn] binds on the
    variant's class, and refuses a class; any other variant takes a
    class, and fails with [ContractMismatch] when that class is not a
    subclass of the variant's class.  What is returned is the class,
    with the metadata bound; no instance is created.  One case departs
    from the claim: a plain function given for a variant that is not
    function-derived is no subclass of the variant's class, yet loading
    does not fail with [ContractMismatch]: [issubclass] is called on
    the function and raises [TypeError]. *)
Theorem variant_checked (r : resolution) (w : world) :
  (∀ ty, is_Some (available ty) ↔
         ty ∈ ["PreloadedDataset"; "Dataset"; "BatchDataset"; "SampleIterator";
               "SampleGenerator"; "BatchIterator"; "BatchGenerator"])
  ∧ (available (type (dl r)) = None →
       get_dataloader_factory r w = Err (UnknownVariant (type (dl r))))
  ∧ (is_Some (available (type (dl r))) →
     getargs (classes w) (CustomDataLoader r) = dom (args (dl r)) →
     (type (dl r) ∈ DATALOADERS_AS_FUNCTIONS →
        (∀ f, CustomDataLoader r = Function f →
           ∃ w1, from_fn (type (dl r)) f w = Ok (type (dl r), w1)
                 ∧ get_dataloader_factory r w
                   = Ok (type (dl r), set_classes (bind_metadata (type (dl r)) r) w1))
        ∧ (∀ c, CustomDataLoader r = Class c →
             get_dataloader_factory r w
             = Err (AssertionError "isinstance(CustomDataLoader, types.FunctionType)")))
     ∧ (type (dl r) ∉ DATALOADERS_AS_FUNCTIONS →
        (∀ c, CustomDataLoader r = Class c →
           (issubclass (classes w) c (type (dl r)) = true →
              get_dataloader_factory r w = Ok (c, set_classes (bind_metadata c r) w))
           ∧ (issubclass (classes w) c (type (dl r)) = false →
                get_dataloader_factory r w = Err (ContractMismatch (type (dl r)))))
        ∧ (∀ f, CustomDataLoader r = Function f →
             get_dataloader_factory r w
             = Err (TypeError [Text "issubclass() arg 1 must be a class"])
             ∧ get_dataloader_factory r w ≠ Err (ContractMismatch (type (dl r))))))
  ∧ (∀ cls w', get_dataloader_factory r w = Ok (cls, w') → objects w' = objects w).
Proof.
  split; [|split; [|split]].
  - intros ty. split.
    + intros [variant Hav]. by apply available_spec in Hav as [_ Hin].
    + intros Hin. exists ty. by apply available_spec.
  - unfold get_dataloader_factory. by intros ->.
  - intros [variant Hav] Hargs.
    apply available_spec in Hav as Hav'. destruct Hav' as [-> _].
    unfold get_dataloader_factory. rewrite Hav.
    rewrite bool_decide_eq_true_2 by done. simpl. split.
    + intros Hfn. rewrite bool_decide_eq_true_2 by done. split.
      * intros f ->. destruct (from_fn_known _ f w Hfn) as (name & _ & ->).
        eexists. split; [reflexivity|done].
      * by intros c ->.
    + intros Hfn. rewrite bool_decide_eq_false_2 by done. split.
      * intros c ->. split; by intros ->.
      * by intros f ->.
  - intros cls w'. unfold get_dataloader_factory.
    destruct (available (type (dl r))) as [variant|]; [|done].
    case_bool_decide; simpl; [|done].
    case_bool_decide; destruct (CustomDataLoader r) as [f|c]; try done.
    + destruct (from_fn variant f w) as [[cls1 w1]|e] eqn:Hfrom; [|done].
      apply from_fn_ok in Hfrom as (_ & name & _ & -> & _).
      simpl. by intros [= _ <-].
    + destruct (issubclass (classes w) c variant); [|done].
      simpl. by intros [= _ <-].
Qed.

Lemma variant_checked_example :
  get_dataloader_factory unknown_variant_ab_ac initial_world = Err (UnknownVariant "Foo")
  ∧ (∃ w1, from_fn "PreloadedDataset" (fn ["a"] (VData (samples 10))) initial_world
             = Ok ("PreloadedDataset", w1)
           ∧ get_dataloader_factory (preloaded_fn (samples 10)) initial_world
             = Ok ("PreloadedDataset",
                   set_classes (bind_metadata "PreloadedDataset" (preloaded_fn (samples 10)))
                     w1))
  ∧ get_dataloader_factory sample_generator_Mine user_world
    = Err (AssertionError "isinstance(CustomDataLoader, types.FunctionType)")
  ∧ get_dataloader_factory dataset_MyDataset user_world
    = Ok ("MyDataset", set_classes (bind_metadata "MyDataset" dataset_MyDataset) user_world)
  ∧ get_dataloader_factory dataset_Mine user_world = Err (ContractMismatch "Dataset")
  ∧ get_dataloader_factory dataset_fn initial_world
    = Err (TypeError [Text "issubclass() arg 1 must be a class"])
  ∧ get_dataloader_factory dataset_fn initial_world ≠ Err (ContractMismatch "Dataset").
Proof.
  split.
  { destruct (variant_checked unknown_variant_ab_ac initial_world) as (_ & Hunk & _).
    apply Hunk. by vm_compute. }
  split.
  { destruct (variant_checked (preloaded_fn (samples 10)) initial_world)
      as (_ & _ & Hok & _).
    destruct Hok as [Hfn _]; [by eexists; vm_compute|by vm_compute|].
    destruct Hfn as [Hf _]; [compute_done|].
    apply (Hf (fn ["a"] (VData (samples 10)))). reflexivity. }
  split.
  { destruct (variant_checked sample_generator_Mine user_world) as (_ & _ & Hok & _).
    destruct Hok as [Hfn _]; [by eexists; vm_compute|by vm_compute|].
    destruct Hfn as [_ Hc]; [compute_done|].
    apply (Hc "Mine"). reflexivity. }
  split.
  { destruct (variant_checked dataset_MyDataset user_world) as (_ & _ & Hok & _).
    destruct Hok as [_ Hcls]; [by eexists; vm_compute|by vm_compute|].
    assert (type (dl dataset_MyDataset) ∉ DATALOADERS_AS_FUNCTIONS) as Hn
      by compute_done.
    destruct (Hcls Hn) as [Hc _].
    destruct (Hc "MyDataset" eq_refl) as [Hsub _].
    apply Hsub. by vm_compute. }
  split.
  { destruct (variant_checked dataset_Mine user_world) as (_ & _ & Hok & _).
    destruct Hok as [_ Hcls]; [by eexists; vm_compute|by vm_compute|].
    assert (type (dl dataset_Mine) ∉ DATALOADERS_AS_FUNCTIONS) as Hn by compute_done.
    destruct (Hcls Hn) as [Hc _].
    destruct (Hc "Mine" eq_refl) as [_ Hnot].
    apply Hnot. by vm_compute. }
  destruct (variant_checked dataset_fn initial_world) as (_ & _ & Hok & _).
  destruct Hok as [_ Hcls]; [by eexists; vm_compute|by vm_compute|].
  assert (type (dl dataset_fn) ∉ DATALOADERS_AS_FUNCTIONS) as Hn by compute_done.
  destruct (Hcls Hn) as [_ Hf].
  apply (Hf (fn ["a"] (VData (samples 10)))). reflexivity.
Defined.

(** ** Attributes of class objects *)

Lemma setattr_lookup cls name a (classes : class_store) c :
  type_setattr cls name a classes !! c
  = (if decide (cls = c)
     then (λ o, {| mro := mro o; attrs := <[name := a]> (attrs o);
                   init_args := init_args o |}) <$> classes !! c
     else classes !! c).
Proof. unfold type_setattr. rewrite lookup_alter. by case_decide; subst. Qed.

Lemma setattr_mro cls name a (classes : class_store) c :
  mro <$> type_setattr cls name a classes !! c = mro <$> classes !! c.
Proof.
  rewrite setattr_lookup. case_decide; [|done]. by destruct (classes !! c).
Qed.

Lemma setattr_attr_ne cls name a (classes : class_store) c name' :
  name ≠ name' →
  (type_setattr cls name a classes !! c ≫= λ o, attrs o !! name')
  = (classes !! c ≫= λ o, attrs o !! name').
Proof.
  intros Hne. rewrite setattr_lookup. case_decide; [|done].
  destruct (classes !! c); [|done]. simpl. by rewrite lookup_insert_ne.
Qed.

Lemma mro_lookup_setattr_ne cls name a classes name' order :
  name ≠ name' →
  mro_lookup (type_setattr cls name a classes) name' order
  = mro_lookup classes name' order.
Proof.
  intros Hne. induction order as [|c order IH]; [done|].
  simpl. by rewrite setattr_attr_ne, IH.
Qed.

Lemma getattr_setattr_ne cls name a classes c name' :
  name ≠ name' →
  type_getattr (type_setattr cls name a classes) c name' = type_getattr classes c name'.
Proof.
  intros Hne. unfold type_getattr.
  by rewrite setattr_mro, mro_lookup_setattr_ne.
Qed.

Lemma getattr_setattr cls name a classes :
  wf_class classes cls →
  type_getattr (type_setattr cls name a classes) cls name = Ok a.
Proof.
  intros (o & bases & Ho & Hmro). unfold type_getattr.
  rewrite setattr_mro, Ho. simpl. rewrite Hmro. simpl.
  rewrite setattr_lookup, decide_True by done.
  rewrite Ho. simpl. by rewrite lookup_insert_eq.
Qed.

Lemma wf_class_setattr cls name a classes c :
  wf_class classes c → wf_class (type_setattr cls name a classes) c.
Proof.
  intros (o & bases & Ho & Hmro). unfold wf_class.
  rewrite setattr_lookup. case_decide; rewrite Ho; simpl; eauto.
Qed.

Lemma wf_class_bind_metadata cls r classes c :
  wf_class classes c → wf_class (bind_metadata cls r classes) c.
Proof.
  intros Hwf. unfold bind_metadata. cbn [foldl].
  repeat apply wf_class_setattr. exact Hwf.
Qed.

Lemma bind_metadata_bound cls r classes :
  wf_class classes cls → metadata_bound (bind_metadata cls r classes) cls r.
Proof.
  intros Hwf. unfold metadata_bound, bind_metadata. cbn [foldl].
  repeat split;
    repeat (rewrite getattr_setattr_ne by done);
    (apply getattr_setattr; repeat apply wf_class_setattr; exact Hwf).
Qed.

Lemma bind_metadata_fn_attr cls r classes c name :
  is_fn_attr name →
  type_getattr (bind_metadata cls r classes) c name = type_getattr classes c name.
Proof.
  intros [-> | ->]; unfold bind_metadata; cbn [foldl];
    by repeat (rewrite getattr_setattr_ne by done).
Qed.

(** What a successful load has done to the class store. *)
Lemma get_dataloader_factory_ok r w cls w' :
  get_dataloader_factory r w = Ok (cls, w') →
  ∃ w1, w' = set_classes (bind_metadata cls r) w1
        ∧ match CustomDataLoader r with
          | Function f =>
              ∃ name, is_fn_attr name
                      ∧ w1 = set_classes (type_setattr cls name (AFunction f)) w
          | Class c => w1 = w ∧ cls = c
          end.
Proof.
  unfold get_dataloader_factory.
  destruct (available (type (dl r))) as [variant|]; [|done].
  case_bool_decide; simpl; [|done].
  case_bool_decide; destruct (CustomDataLoader r) as [f|c]; try done.
  - destruct (from_fn variant f w) as [[cls1 w1]|e] eqn:Hfrom; [|done].
    apply from_fn_ok in Hfrom as (-> & name & Hname & -> & _).
    simpl. intros [= <- <-]. eexists. split; [done|]. by exists name.
  - destruct (issubclass (classes w) c variant); [|done].
    simpl. intros [= <- <-]. by eexists.
Qed.

Lemma get_dataloader_factory_wf r w cls w' c :
  get_dataloader_factory r w = Ok (cls, w') →
  wf_class (classes w) c → wf_class (classes w') c.
Proof.
  intros Hok Hwf.
  apply get_dataloader_factory_ok in Hok as (w1 & -> & Hw1).
  cbn [classes set_classes]. apply wf_class_bind_metadata.
  destruct (CustomDataLoader r) as [f|c0].
  - destruct Hw1 as (name & _ & ->). by apply wf_class_setattr.
  - by destruct Hw1 as [-> _].
Qed.

(** C8.  Binding a function or the metadata assigns attributes on the
    class object itself and hands back a reference to that same object:
    after two successive [from_fn] calls on a class, or two successive
    loads that resolve to the same class, the reference obtained first
    reads the function and the metadata of the second. *)
Theorem class_object_is_shared :
  (∀ cls f1 f2 w c1 w1 c2 w2,
     wf_class (classes w) cls →
     from_fn cls f1 w = Ok (c1, w1) →
     from_fn cls f2 w1 = Ok (c2, w2) →
     c1 = cls ∧ c2 = cls
     ∧ ∃ name, is_fn_attr name
               ∧ type_getattr (classes w1) c1 name = Ok (AFunction f1)
               ∧ type_getattr (classes w2) c1 name = Ok (AFunction f2))
  ∧ (∀ r1 r2 w c1 w1 c2 w2,
       wf_class (classes w) c1 →
       get_dataloader_factory r1 w = Ok (c1, w1) →
       get_dataloader_factory r2 w1 = Ok (c2, w2) →
       c2 = c1 →
       metadata_bound (classes w1) c1 r1
       ∧ metadata_bound (classes w2) c1 r2
       ∧ ∀ f2, CustomDataLoader r2 = Function f2 →
               ∃ name, is_fn_attr name
                       ∧ type_getattr (classes w2) c1 name = Ok (AFunction f2)).
Proof.
  split.
  - intros cls f1 f2 w c1 w1 c2 w2 Hwf H1 H2.
    apply from_fn_ok in H1 as (-> & name & Hname & -> & Hfrom).
    rewrite Hfrom in H2. injection H2 as <- <-.
    split; [done|]. split; [done|]. exists name. split; [done|]. cbn [classes set_classes]. split.
    + by apply getattr_setattr.
    + apply getattr_setattr. by apply wf_class_setattr.
  - intros r1 r2 w c1 w1 c2 w2 Hwf H1 H2 ->.
    pose proof (get_dataloader_factory_wf _ _ _ _ _ H1 Hwf) as Hwf1.
    apply get_dataloader_factory_ok in H1 as (w1' & -> & Hw1).
    apply get_dataloader_factory_ok in H2 as (w2' & -> & Hw2).
    split; [|split].
    + cbn [classes set_classes]. apply bind_metadata_bound.
      destruct (CustomDataLoader r1) as [f|c0].
      * destruct Hw1 as (name & _ & ->). by apply wf_class_setattr.
      * by destruct Hw1 as [-> _].
    + cbn [classes set_classes]. apply bind_metadata_bound.
      destruct (CustomDataLoader r2) as [f|c0].
      * destruct Hw2 as (name & _ & ->). by apply wf_class_setattr.
      * by destruct Hw2 as [-> _].
    + intros f2 Hf2. rewrite Hf2 in Hw2. destruct Hw2 as (name & Hname & ->).
      exists name. split; [done|].
      cbn [classes set_classes]. rewrite bind_metadata_fn_attr by done.
      by apply getattr_setattr.
Qed.

Lemma wf_class_kipoi cls :
  cls ∈ map fst AVAILABLE_DATALOADERS → wf_class (classes initial_world) cls.
Proof.
  unfold AVAILABLE_DATALOADERS. simpl. intros Hin.
  repeat (apply elem_of_cons in Hin as [->|Hin];
          [eexists _, _; split; reflexivity|]).
  by apply elem_of_nil in Hin.
Qed.

Lemma class_object_is_shared_example :
  get_dataloader_factory first_load initial_world
    = Ok ("SampleGenerator", after_first_load)
  ∧ get_dataloader_factory second_load after_first_load
    = Ok ("SampleGenerator", after_second_load)
  ∧ SampleGenerator.__iter__ generator_instance after_first_load = Ok [samples 1]
  ∧ SampleGenerator.__iter__ generator_instance after_second_load
    = Ok [samples 2; samples 3]
  ∧ metadata_bound (classes after_second_load) "SampleGenerator" second_load
  ∧ ∃ name, is_fn_attr name
            ∧ type_getattr (classes after_second_load) "SampleGenerator" name
              = Ok (AFunction (fn ["a"] (VStream [samples 2; samples 3]))).
Proof.
  assert (get_dataloader_factory first_load initial_world
          = Ok ("SampleGenerator", after_first_load)) as H1 by reflexivity.
  assert (get_dataloader_factory second_load after_first_load
          = Ok ("SampleGenerator", after_second_load)) as H2 by reflexivity.
  destruct class_object_is_shared as [_ Hshared].
  destruct (Hshared first_load second_load initial_world "SampleGenerator"
              after_first_load "SampleGenerator" after_second_load)
    as (_ & Hmeta & Hfn);
    [apply wf_class_kipoi; compute_done | exact H1 | exact H2 | reflexivity |].
  split; [exact H1|]. split; [exact H2|].
  split; [reflexivity|]. split; [reflexivity|].
  split; [exact Hmeta|].
  apply Hfn. reflexivity.
Defined.

(** ** [PreloadedDataset.from_data] *)

Lemma lacks_setattr cls name a classes c name' :
  name ≠ name' → lacks classes c name' → lacks (type_setattr cls name a classes) c name'.
Proof.
  intros Hne (o & Ho & Hnone). unfold lacks.
  rewrite setattr_lookup. case_decide; rewrite Ho; simpl; eexists; split; try done.
  simpl. by rewrite lookup_insert_ne.
Qed.

Lemma lacks_insert name o (classes : class_store) c name' :
  classes !! name = None → lacks classes c name' → lacks (<[name := o]> classes) c name'.
Proof.
  intros Hfresh (o' & Ho' & Hnone). exists o'. split; [|done].
  rewrite lookup_insert_ne; [done|]. intros ->. congruence.
Qed.

Lemma no_from_data_fn_setattr cls name a classes :
  name ≠ "from_data_fn" →
  no_from_data_fn classes → no_from_data_fn (type_setattr cls name a classes).
Proof.
  intros Hne ((o & Ho & Hmro) & HP & HB & HO).
  split; [|by repeat split; apply lacks_setattr].
  rewrite setattr_lookup. case_decide; rewrite Ho; simpl; eauto.
Qed.

Lemma no_from_data_fn_insert name o (classes : class_store) :
  classes !! name = None →
  no_from_data_fn classes → no_from_data_fn (<[name := o]> classes).
Proof.
  intros Hfresh ((o' & Ho' & Hmro) & HP & HB & HO).
  split; [|by repeat split; apply lacks_insert].
  exists o'. split; [|done].
  rewrite lookup_insert_ne; [done|]. intros ->. congruence.
Qed.

Lemma no_from_data_fn_bind_metadata cls r classes :
  no_from_data_fn classes → no_from_data_fn (bind_metadata cls r classes).
Proof.
  intros Hinv. unfold bind_metadata. cbn [foldl].
  by repeat (apply no_from_data_fn_setattr; [done|]).
Qed.

Lemma no_from_data_fn_initial : no_from_data_fn (classes initial_world).
Proof.
  split; [eexists; split; reflexivity|].
  repeat split; eexists; split; reflexivity.
Qed.

Lemma reachable_no_from_data_fn w : reachable w → no_from_data_fn (classes w).
Proof.
  induction 1 as [|name o w Hfresh _ IH|cls f w cls' w' _ IH Hfrom
                  |r w cls w' _ IH Hload|w w' _ IH Hsame].
  - apply no_from_data_fn_initial.
  - cbn [classes set_classes]. by apply no_from_data_fn_insert.
  - apply from_fn_ok in Hfrom as (_ & name & [-> | ->] & -> & _);
      cbn [classes set_classes]; by apply no_from_data_fn_setattr.
  - apply get_dataloader_factory_ok in Hload as (w1 & -> & Hw1).
    cbn [classes set_classes]. apply no_from_data_fn_bind_metadata.
    destruct (CustomDataLoader r) as [f|c].
    + destruct Hw1 as (name & [-> | ->] & ->);
        cbn [classes set_classes]; by apply no_from_data_fn_setattr.
    + by destruct Hw1 as [-> _].
  - by rewrite Hsame.
Qed.

(** C9.  In every world that the module's own operations can reach,
    [PreloadedDataset.from_data(data)] raises [AttributeError] for every
    [data]: it asks the class for [from_data_fn], which no class on its
    resolution order defines. *)
Theorem from_data_raises_AttributeError (data : nested) (w : world) :
  reachable w →
  PreloadedDataset.from_data "PreloadedDataset" data w
  = Err (AttributeError "PreloadedDataset" "from_data_fn").
Proof.
  intros Hreach.
  destruct (reachable_no_from_data_fn w Hreach)
    as ((o & Ho & Hmro) & (oP & HoP & HP) & (oB & HoB & HB) & (oO & HoO & HO)).
  unfold PreloadedDataset.from_data, type_getattr.
  rewrite Ho. simpl. rewrite Hmro. simpl.
  rewrite HoP, HoB, HoO. simpl. by rewrite HP, HB, HO.
Qed.

Lemma from_data_raises_AttributeError_example :
  PreloadedDataset.from_data "PreloadedDataset" (samples 10) initial_world
    = Err (AttributeError "PreloadedDataset" "from_data_fn")
  ∧ PreloadedDataset.from_data "PreloadedDataset" (samples 10)
      (preloaded_world (returning (samples 10)))
    = Err (AttributeError "PreloadedDataset" "from_data_fn").
Proof.
  split.
  - apply from_data_raises_AttributeError. apply reachable_initial.
  - apply from_data_raises_AttributeError.
    apply (reachable_from_fn "PreloadedDataset" (returning (samples 10))
             initial_world "PreloadedDataset"); [apply reachable_initial|reflexivity].
Defined.

(** ** Iterators and generators *)

Lemma SampleIterator_exhaust fuel (self : SampleIterator.t) :
  length (SampleIterator.pending self) < fuel →
  SampleIterator.exhaust fuel self
  = (SampleIterator.pending self, {| SampleIterator.pending := [] |}).
Proof.
  destruct self as [pending]. simpl.
  revert pending. induction fuel as [|fuel IH]; intros pending Hlt; [lia|].
  destruct pending as [|x pending]; [done|].
  simpl in *. rewrite IH by lia. done.
Qed.

Lemma BatchIterator_exhaust fuel (self : BatchIterator.t) :
  length (BatchIterator.pending self) < fuel →
  BatchIterator.exhaust fuel self
  = (BatchIterator.pending self, {| BatchIterator.pending := [] |}).
Proof.
  destruct self as [pending]. simpl.
  revert pending. induction fuel as [|fuel IH]; intros pending Hlt; [lia|].
  destruct pending as [|x pending]; [done|].
  simpl in *. rewrite IH by lia. done.
Qed.

(** [__iter__] of the two generator classes calls the function that is
    bound on the class at that moment, with the arguments kept by the
    instance. *)
Lemma SampleGenerator_iter_calls self w f :
  type_getattr (classes w) (SampleGenerator.cls self) "generator_fn" = Ok (AFunction f) →
  SampleGenerator.__iter__ self w
  = (v ← fn_call f (SampleGenerator.args self);
     match v with
     | VStream items => Ok items
     | VData _ => Err (TypeError [Text "iter() returned non-iterator"])
     end).
Proof.
  intros Hf. unfold SampleGenerator.__iter__, SampleGenerator._get_generator_fn.
  by rewrite Hf.
Qed.

Lemma BatchGenerator_iter_calls self w f :
  type_getattr (classes w) (BatchGenerator.cls self) "generator_fn" = Ok (AFunction f) →
  BatchGenerator.__iter__ self w
  = (v ← fn_call f (BatchGenerator.args self);
     match v with
     | VStream items => Ok items
     | VData _ => Err (TypeError [Text "iter() returned non-iterator"])
     end).
Proof.
  intros Hf. unfold BatchGenerator.__iter__, BatchGenerator._get_generator_fn.
  by rewrite Hf.
Qed.

(** An [__iter__] that succeeds has found a function bound on the class
    and has called it. *)
Lemma SampleGenerator_iter_inv self w items :
  SampleGenerator.__iter__ self w = Ok items →
  ∃ f, type_getattr (classes w) (SampleGenerator.cls self) "generator_fn"
         = Ok (AFunction f)
       ∧ fn_call f (SampleGenerator.args self) = Ok (VStream items).
Proof.
  unfold SampleGenerator.__iter__, SampleGenerator._get_generator_fn.
  destruct (type_getattr _ _ _) as [a|e]; [|done].
  destruct a as [|f| | | | |]; try done. simpl.
  destruct (fn_call f _) as [[d|items']|e] eqn:Hcall; try done.
  simpl. intros [= <-]. by exists f.
Qed.

Lemma BatchGenerator_iter_inv self w items :
  BatchGenerator.__iter__ self w = Ok items →
  ∃ f, type_getattr (classes w) (BatchGenerator.cls self) "generator_fn"
         = Ok (AFunction f)
       ∧ fn_call f (BatchGenerator.args self) = Ok (VStream items).
Proof.
  unfold BatchGenerator.__iter__, BatchGenerator._get_generator_fn.
  destruct (type_getattr _ _ _) as [a|e]; [|done].
  destruct a as [|f| | | | |]; try done. simpl.
  destruct (fn_call f _) as [[d|items']|e] eqn:Hcall; try done.
  simpl. intros [= <-]. by exists f.
Qed.

(** C10.  A batch iteration over a [SampleIterator] or a [BatchIterator]
    consumes the instance itself: once it has run to its end the
    instance is exhausted, and every later [batch_iter] on it yields no
    batch.  A [SampleGenerator] or a [BatchGenerator] calls the function
    bound on its class anew in [__iter__], with the arguments of the
    instance: when that call returns a stream, every [batch_iter],
    whatever its parameters, gives the whole stream (in batches for a
    [SampleGenerator], as it is for a [BatchGenerator]) and leaves the
    instance and the classes as they were, so that the next call gives
    the whole stream again; when the call fails, [batch_iter] fails with
    the same error.  Conversely a [batch_iter] that succeeds has called
    the bound function, and what it yields is what that call returned.
    The function is read at each iteration: after [from_fn] has bound
    another one, the same instance streams what the new one returns. *)
Theorem iterators_exhaust_generators_restart (kw : kwargs) (w : world) :
  (∀ self p self' w',
     batch_iter kw (inst_SampleIterator self) w = Ok (p, self', w') →
     p = batch_gen (SampleIterator.pending self) (kw_get "batch_size" 32 kw)
     ∧ ∃ s', self' = inst_SampleIterator s'
             ∧ SampleIterator.__next__ s' = Stop
             ∧ ∀ kw2 w2, batch_iter kw2 self' w2 = Ok ([], self', w2))
  ∧ (∀ self p self' w',
       batch_iter kw (inst_BatchIterator self) w = Ok (p, self', w') →
       p = map Ok (BatchIterator.pending self)
       ∧ ∃ s', self' = inst_BatchIterator s'
               ∧ BatchIterator.__next__ s' = Stop
               ∧ ∀ kw2 w2, batch_iter kw2 self' w2 = Ok ([], self', w2))
  ∧ (∀ self f,
       type_getattr (classes w) (SampleGenerator.cls self) "generator_fn"
         = Ok (AFunction f) →
       (∀ items, fn_call f (SampleGenerator.args self) = Ok (VStream items) →
          SampleGenerator.__iter__ self w = Ok items
          ∧ ∀ kw2, batch_iter kw2 (inst_SampleGenerator self) w
                   = Ok (batch_gen items (kw_get "batch_size" 32 kw2),
                         inst_SampleGenerator self, w))
       ∧ (∀ e, fn_call f (SampleGenerator.args self) = Err e →
            batch_iter kw (inst_SampleGenerator self) w = Err e))
  ∧ (∀ self p self' w',
       batch_iter kw (inst_SampleGenerator self) w = Ok (p, self', w') →
       (∃ f items,
          type_getattr (classes w) (SampleGenerator.cls self) "generator_fn"
            = Ok (AFunction f)
          ∧ fn_call f (SampleGenerator.args self) = Ok (VStream items)
          ∧ SampleGenerator.__iter__ self w = Ok items
          ∧ p = batch_gen items (kw_get "batch_size" 32 kw))
       ∧ self' = inst_SampleGenerator self ∧ w' = w
       ∧ batch_iter kw self' w' = Ok (p, self', w'))
  ∧ (∀ self f items,
       wf_class (classes w) (SampleGenerator.cls self) →
       fn_call f (SampleGenerator.args self) = Ok (VStream items) →
       batch_iter kw (inst_SampleGenerator self)
         (SampleGenerator.from_fn (SampleGenerator.cls self) f w).2
       = Ok (batch_gen items (kw_get "batch_size" 32 kw), inst_SampleGenerator self,
             (SampleGenerator.from_fn (SampleGenerator.cls self) f w).2))
  ∧ (∀ self f,
       type_getattr (classes w) (BatchGenerator.cls self) "generator_fn"
         = Ok (AFunction f) →
       (∀ items, fn_call f (BatchGenerator.args self) = Ok (VStream items) →
          BatchGenerator.__iter__ self w = Ok items
          ∧ ∀ kw2, batch_iter kw2 (inst_BatchGenerator self) w
                   = Ok (map Ok items, inst_BatchGenerator self, w))
       ∧ (∀ e, fn_call f (BatchGenerator.args self) = Err e →
            batch_iter kw (inst_BatchGenerator self) w = Err e))
  ∧ (∀ self p self' w',
       batch_iter kw (inst_BatchGenerator self) w = Ok (p, self', w') →
       (∃ f items,
          type_getattr (classes w) (BatchGenerator.cls self) "generator_fn"
            = Ok (AFunction f)
          ∧ fn_call f (BatchGenerator.args self) = Ok (VStream items)
          ∧ BatchGenerator.__iter__ self w = Ok items
          ∧ p = map Ok items)
       ∧ self' = inst_BatchGenerator self ∧ w' = w
       ∧ batch_iter kw self' w' = Ok (p, self', w'))
  ∧ (∀ self f items,
       wf_class (classes w) (BatchGenerator.cls self) →
       fn_call f (BatchGenerator.args self) = Ok (VStream items) →
       batch_iter kw (inst_BatchGenerator self)
         (BatchGenerator.from_fn (BatchGenerator.cls self) f w).2
       = Ok (map Ok items, inst_BatchGenerator self,
             (BatchGenerator.from_fn (BatchGenerator.cls self) f w).2)).
Proof.
  split; [|split; [|split; [|split; [|split; [|split; [|split]]]]]].
  - intros self p self' w'. simpl. unfold SampleIterator.batch_iter.
    unfold SampleIterator.__iter__. rewrite SampleIterator_exhaust by lia.
    simpl. intros [= <- <- <-]. split; [done|].
    eexists. split; [done|]. split; [done|]. done.
  - intros self p self' w'. simpl. unfold BatchIterator.batch_iter.
    unfold BatchIterator.__iter__. rewrite BatchIterator_exhaust by lia.
    simpl. intros [= <- <- <-]. split; [done|].
    eexists. split; [done|]. split; [done|]. done.
  - intros self f Hf. split.
    + intros items Hcall.
      assert (SampleGenerator.__iter__ self w = Ok items) as Hiter.
      { rewrite (SampleGenerator_iter_calls _ _ _ Hf), Hcall. done. }
      split; [done|]. intros kw2. simpl. unfold SampleGenerator.batch_iter.
      by rewrite Hiter.
    + intros e Hcall. simpl. unfold SampleGenerator.batch_iter.
      rewrite (SampleGenerator_iter_calls _ _ _ Hf), Hcall. done.
  - intros self p self' w'. simpl. unfold SampleGenerator.batch_iter.
    destruct (SampleGenerator.__iter__ self w) as [items|e] eqn:Hiter; [|done].
    simpl. intros [= <- <- <-].
    destruct (SampleGenerator_iter_inv _ _ _ Hiter) as (f & Hf & Hcall).
    split; [by exists f, items|].
    split; [done|]. split; [done|]. simpl.
    unfold SampleGenerator.batch_iter. by rewrite Hiter.
  - intros self f items Hwf Hcall. simpl. unfold SampleGenerator.batch_iter.
    rewrite (SampleGenerator_iter_calls _ _ f).
    + rewrite Hcall. done.
    + simpl. by apply getattr_setattr.
  - intros self f Hf. split.
    + intros items Hcall.
      assert (BatchGenerator.__iter__ self w = Ok items) as Hiter.
      { rewrite (BatchGenerator_iter_calls _ _ _ Hf), Hcall. done. }
      split; [done|]. intros kw2. simpl. unfold BatchGenerator.batch_iter.
      by rewrite Hiter.
    + intros e Hcall. simpl. unfold BatchGenerator.batch_iter.
      rewrite (BatchGenerator_iter_calls _ _ _ Hf), Hcall. done.
  - intros self p self' w'. simpl. unfold BatchGenerator.batch_iter.
    destruct (BatchGenerator.__iter__ self w) as [items|e] eqn:Hiter; [|done].
    simpl. intros [= <- <- <-].
    destruct (BatchGenerator_iter_inv _ _ _ Hiter) as (f & Hf & Hcall).
    split; [by exists f, items|].
    split; [done|]. split; [done|]. simpl.
    unfold BatchGenerator.batch_iter. by rewrite Hiter.
  - intros self f items Hwf Hcall. simpl. unfold BatchGenerator.batch_iter.
    rewrite (BatchGenerator_iter_calls _ _ f).
    + rewrite Hcall. done.
    + simpl. by apply getattr_setattr.
Qed.
Lemma iterators_exhaust_generators_restart_example :
  (∃ self',
     batch_iter batch_4 five_iterator initial_world
       = Ok ([Ok (samples_slice 0 4); Ok (samples_slice 4 1)], self', initial_world)
     ∧ batch_iter batch_4 self' initial_world = Ok ([], self', initial_world))
  ∧ batch_iter batch_4 (inst_SampleGenerator generator_instance) generator_world
    = Ok ([Ok (samples_slice 0 4); Ok (samples_slice 4 1)],
          inst_SampleGenerator generator_instance, generator_world)
  ∧ batch_iter batch_4 (inst_BatchGenerator batch_generator_instance)
      batch_generator_world
    = Ok ([Ok (samples 2); Ok (samples 3)],
          inst_BatchGenerator batch_generator_instance, batch_generator_world)
  ∧ batch_iter batch_4 (inst_BatchGenerator batch_generator_instance)
      (BatchGenerator.from_fn "BatchGenerator" (yielding [samples 1])
         batch_generator_world).2
    = Ok ([Ok (samples 1)], inst_BatchGenerator batch_generator_instance,
          (BatchGenerator.from_fn "BatchGenerator" (yielding [samples 1])
             batch_generator_world).2).
Proof.
  destruct (iterators_exhaust_generators_restart batch_4 initial_world)
    as (Hiter & _).
  destruct (iterators_exhaust_generators_restart batch_4 generator_world)
    as (_ & _ & Hgen & _).
  destruct (iterators_exhaust_generators_restart batch_4 batch_generator_world)
    as (_ & _ & _ & _ & _ & Hbatch & _ & Hrebound).
  split; [|split; [|split]].
  - exists (inst_SampleIterator {| SampleIterator.pending := [] |}).
    split; [reflexivity|].
    destruct (Hiter {| SampleIterator.pending := map sample (seq 0 5) |}
                [Ok (samples_slice 0 4); Ok (samples_slice 4 1)]
                (inst_SampleIterator {| SampleIterator.pending := [] |})
                initial_world) as (_ & s' & _ & _ & Hempty); [reflexivity|].
    apply Hempty.
  - destruct (Hgen generator_instance (yielding (map sample (seq 0 5))))
      as [Hstream _]; [reflexivity|].
    destruct (Hstream (map sample (seq 0 5))) as [_ Hagain]; [reflexivity|].
    exact (Hagain batch_4).
  - destruct (Hbatch batch_generator_instance (yielding [samples 2; samples 3]))
      as [Hstream _]; [reflexivity|].
    destruct (Hstream [samples 2; samples 3]) as [_ Hagain]; [reflexivity|].
    exact (Hagain batch_4).
  - apply (Hrebound batch_generator_instance (yielding [samples 1]) [samples 1]);
      [|reflexivity].
    eexists _, _. split; reflexivity.
Defined.
(** ** What assigning a class attribute leaves alone *)

Lemma setattr_init_args cls name a (classes : class_store) c :
  init_args <$> type_setattr cls name a classes !! c = init_args <$> classes !! c.
Proof.
  rewrite setattr_lookup. case_decide; [|done]. by destruct (classes !! c).
Qed.

Lemma setattr_lookup_ne cls name a (classes : class_store) c :
  cls ≠ c → type_setattr cls name a classes !! c = classes !! c.
Proof. intros. by rewrite setattr_lookup, decide_False. Qed.

Lemma mro_lookup_setattr_other cls name a classes name' order :
  cls ∉ order →
  mro_lookup (type_setattr cls name a classes) name' order
  = mro_lookup classes name' order.
Proof.
  induction order as [|c order IH]; [done|].
  intros Hnotin. apply not_elem_of_cons in Hnotin as [Hne Hnotin].
  simpl. by rewrite setattr_lookup_ne, IH.
Qed.

(** A class that does not derive from [cls] reads nothing of what is
    assigned on [cls]. *)
Lemma getattr_setattr_other cls name a classes c name' :
  cls ∉ default [] (mro <$> classes !! c) →
  type_getattr (type_setattr cls name a classes) c name' = type_getattr classes c name'.
Proof.
  intros Hnotin. unfold type_getattr.
  by rewrite setattr_mro, mro_lookup_setattr_other.
Qed.

Lemma bind_metadata_lookup_ne cls r (classes : class_store) c :
  cls ≠ c → bind_metadata cls r classes !! c = classes !! c.
Proof.
  intros Hne. unfold bind_metadata. cbn [foldl].
  by repeat (rewrite setattr_lookup_ne by done).
Qed.

Lemma bind_metadata_mro cls r (classes : class_store) c :
  mro <$> bind_metadata cls r classes !! c = mro <$> classes !! c.
Proof.
  unfold bind_metadata. cbn [foldl]. by repeat rewrite setattr_mro.
Qed.

Lemma bind_metadata_init_args cls r (classes : class_store) c :
  init_args <$> bind_metadata cls r classes !! c = init_args <$> classes !! c.
Proof.
  unfold bind_metadata. cbn [foldl]. by repeat rewrite setattr_init_args.
Qed.

Lemma issubclass_mro (c1 c2 : class_store) :
  (∀ c, mro <$> c1 !! c = mro <$> c2 !! c) →
  ∀ a b, issubclass c1 a b = issubclass c2 a b.
Proof. intros Hmro a b. unfold issubclass. by rewrite Hmro. Qed.

Lemma getargs_init_args (c1 c2 : class_store) :
  (∀ c, init_args <$> c1 !! c = init_args <$> c2 !! c) →
  ∀ x, getargs c1 x = getargs c2 x.
Proof. intros Hargs [f|c]; simpl; [done|]. by rewrite Hargs. Qed.

(** The bases and the constructor parameters of every class after a
    successful load are what they were before it. *)
Lemma get_dataloader_factory_shape r w cls w' :
  get_dataloader_factory r w = Ok (cls, w') →
  (∀ c, mro <$> classes w' !! c = mro <$> classes w !! c)
  ∧ (∀ c, init_args <$> classes w' !! c = init_args <$> classes w !! c)
  ∧ (∀ c, c ≠ cls → classes w' !! c = classes w !! c)
  ∧ randperms w' = randperms w.
Proof.
  intros Hok. apply get_dataloader_factory_ok in Hok as (w1 & -> & Hw1).
  cbn [classes set_classes randperms].
  destruct (CustomDataLoader r) as [f|c0].
  - destruct Hw1 as (name & _ & ->). cbn [classes set_classes randperms].
    split; [|split; [|split]]; [| | |done].
    + intros c. by rewrite bind_metadata_mro, setattr_mro.
    + intros c. by rewrite bind_metadata_init_args, setattr_init_args.
    + intros c Hne. by rewrite bind_metadata_lookup_ne, setattr_lookup_ne.
  - destruct Hw1 as [-> ->].
    split; [|split; [|split]]; [| | |done].
    + intros c. by rewrite bind_metadata_mro.
    + intros c. by rewrite bind_metadata_init_args.
    + intros c Hne. by rewrite bind_metadata_lookup_ne.
Qed.
(** ** The classes of the module in a reachable world *)

(** A class of the module keeps its bases and its constructor
    parameters, whatever is loaded or bound. *)
Lemma reachable_kipoi_classes w :
  reachable w →
  ∀ c, is_Some (classes initial_world !! c) →
    mro <$> classes w !! c = mro <$> classes initial_world !! c
    ∧ init_args <$> classes w !! c = init_args <$> classes initial_world !! c.
Proof.
  induction 1 as [|name o w Hfresh _ IH|cls f w cls' w' _ IH Hfrom
                  |r w cls w' _ IH Hload|w w' _ IH Hsame]; intros c Hc.
  - done.
  - cbn [classes set_classes]. destruct (IH c Hc) as [Hmro Hargs].
    assert (name ≠ c) as Hne.
    { intros ->. rewrite Hfresh in Hmro. destruct Hc as [o' Ho'].
      by rewrite Ho' in Hmro. }
    by rewrite lookup_insert_ne.
  - apply from_fn_ok in Hfrom as (_ & name & _ & -> & _).
    cbn [classes set_classes]. rewrite setattr_mro, setattr_init_args. by apply IH.
  - apply get_dataloader_factory_shape in Hload as (Hmro & Hargs & _).
    rewrite Hmro, Hargs. by apply IH.
  - rewrite Hsame. by apply IH.
Qed.

Lemma reachable_variant_mro w c :
  reachable w → c ∈ map fst AVAILABLE_DATALOADERS →
  mro <$> classes w !! c = Some [c; "BaseDataLoader"; "object"].
Proof.
  intros Hreach Hin.
  assert (mro <$> classes initial_world !! c = Some [c; "BaseDataLoader"; "object"])
    as Hinit.
  { unfold AVAILABLE_DATALOADERS in Hin. simpl in Hin.
    repeat (apply elem_of_cons in Hin as [->|Hin]; [reflexivity|]).
    by apply elem_of_nil in Hin. }
  destruct (reachable_kipoi_classes w Hreach c) as [-> _]; [|done].
  destruct (classes initial_world !! c); [by eexists|done].
Qed.

Lemma reachable_wf_class w c :
  reachable w → c ∈ map fst AVAILABLE_DATALOADERS → wf_class (classes w) c.
Proof.
  intros Hreach Hin. pose proof (reachable_variant_mro w c Hreach Hin) as Hmro.
  destruct (classes w !! c) as [o|] eqn:Ho; [|done].
  injection Hmro as Hmro. by exists o, ["BaseDataLoader"; "object"].
Qed.

Lemma from_fn_function_derived cls f w cls' w' :
  from_fn cls f w = Ok (cls', w') → cls ∈ DATALOADERS_AS_FUNCTIONS.
Proof.
  unfold from_fn, DATALOADERS_AS_FUNCTIONS.
  repeat case_decide; try done; subst; intros _.
  - left.
  - right; left.
  - right; right; left.
Qed.

(** X1.  Binding a function on one function-derived variant, in any
    world that the module's operations can reach, makes that class read
    the function and leaves every other variant as it was: the class
    object of another variant is unchanged, and so is every attribute
    read through it; in particular [SampleGenerator] and
    [BatchGenerator], which both keep the function under
    [generator_fn], do not share it. *)
Theorem from_fn_binds_one_variant cls f w cls' w' :
  reachable w →
  from_fn cls f w = Ok (cls', w') →
  (∃ name, is_fn_attr name ∧ type_getattr (classes w') cls name = Ok (AFunction f))
  ∧ ∀ other, other ∈ map fst AVAILABLE_DATALOADERS → other ≠ cls →
      classes w' !! other = classes w !! other
      ∧ ∀ name, type_getattr (classes w') other name = type_getattr (classes w) other name.
Proof.
  intros Hreach Hfrom.
  pose proof (from_fn_function_derived _ _ _ _ _ Hfrom) as Hcls.
  apply from_fn_ok in Hfrom as (_ & name & Hname & -> & _).
  cbn [classes set_classes]. split.
  - exists name. split; [done|]. apply getattr_setattr.
    apply reachable_wf_class; [done|].
    unfold DATALOADERS_AS_FUNCTIONS in Hcls.
    repeat (apply elem_of_cons in Hcls as [->|Hcls]; [compute_done|]).
    by apply elem_of_nil in Hcls.
  - intros other Hother Hne. split; [by apply setattr_lookup_ne|].
    intros name'. apply getattr_setattr_other.
    rewrite (reachable_variant_mro w other Hreach Hother). simpl.
    unfold DATALOADERS_AS_FUNCTIONS in Hcls.
    rewrite !not_elem_of_cons. split; [done|].
    repeat (apply elem_of_cons in Hcls as [->|Hcls];
            [split; [done|]; split; [done|]; apply not_elem_of_nil|]).
    by apply elem_of_nil in Hcls.
Qed.

Lemma from_fn_binds_one_variant_example :
  (∃ name, is_fn_attr name
           ∧ type_getattr (classes generator_world) "SampleGenerator" name
             = Ok (AFunction (yielding (map sample (seq 0 5)))))
  ∧ BatchGenerator._get_generator_fn "BatchGenerator" generator_world
    = Err (AssertionError "cls.generator_fn is not None")
  ∧ type_getattr (classes generator_world) "BatchGenerator" "generator_fn"
    = type_getattr (classes initial_world) "BatchGenerator" "generator_fn".
Proof.
  destruct (from_fn_binds_one_variant "SampleGenerator"
              (yielding (map sample (seq 0 5))) initial_world
              "SampleGenerator" generator_world) as [Hbound Hother];
    [apply reachable_initial | reflexivity |].
  split; [exact Hbound|]. split; [reflexivity|].
  destruct (Hother "BatchGenerator") as [_ Hattr]; [compute_done | done |].
  apply Hattr.
Defined.
(** ** Subclasses and the bound function *)

Lemma getattr_setattr_inherited sub base bases o name a (classes : class_store) :
  classes !! sub = Some o →
  mro o = sub :: base :: bases →
  sub ≠ base →
  attrs o !! name = None →
  is_Some (classes !! base) →
  type_getattr (type_setattr base name a classes) sub name = Ok a.
Proof.
  intros Ho Hmro Hne Hnone [ob Hob]. unfold type_getattr.
  rewrite setattr_mro, Ho. simpl. rewrite Hmro. simpl.
  rewrite setattr_lookup_ne, Ho by done. simpl. rewrite Hnone.
  rewrite setattr_lookup, decide_True, Hob by done. simpl.
  by rewrite lookup_insert_eq.
Qed.

(** X2.  [from_fn] is a class method that assigns on the class it is
    called on.  A subclass of [SampleGenerator] that has no
    [generator_fn] of its own reads the function bound on the base
    class; binding a function on the subclass makes the subclass read
    that one, and the base class still reads its own. *)
Theorem generator_fn_inherited_then_shadowed sub base bases o f g (w : world) :
  classes w !! sub = Some o →
  mro o = sub :: base :: bases →
  sub ≠ base →
  attrs o !! "generator_fn" = None →
  wf_class (classes w) base →
  sub ∉ default [] (mro <$> classes w !! base) →
  let w1 := (SampleGenerator.from_fn base f w).2 in
  let w2 := (SampleGenerator.from_fn sub g w1).2 in
  SampleGenerator._get_generator_fn sub w1 = Ok (AFunction f)
  ∧ SampleGenerator._get_generator_fn sub w2 = Ok (AFunction g)
  ∧ SampleGenerator._get_generator_fn base w2 = Ok (AFunction f).
Proof.
  intros Ho Hmro Hne Hnone Hwf Hnotin w1 w2.
  assert (type_getattr (classes w1) sub "generator_fn" = Ok (AFunction f)) as H1.
  { apply (getattr_setattr_inherited sub base bases o); try done.
    destruct Hwf as (ob & ? & Hob & _). by exists ob. }
  assert (type_getattr (classes w2) sub "generator_fn" = Ok (AFunction g)) as H2.
  { apply getattr_setattr. apply wf_class_setattr. by exists o, (base :: bases). }
  assert (type_getattr (classes w2) base "generator_fn" = Ok (AFunction f)) as H3.
  { unfold w2, w1. cbn [SampleGenerator.from_fn snd classes set_classes].
    rewrite getattr_setattr_other; [by apply getattr_setattr|].
    by rewrite setattr_mro. }
  unfold SampleGenerator._get_generator_fn. by rewrite H1, H2, H3.
Qed.

Lemma generator_fn_inherited_then_shadowed_example :
  SampleGenerator._get_generator_fn "MyGenerator" base_bound_world
    = Ok (AFunction (yielding [sample 0]))
  ∧ SampleGenerator._get_generator_fn "MyGenerator" subclass_bound_world
    = Ok (AFunction (yielding [sample 1]))
  ∧ SampleGenerator._get_generator_fn "SampleGenerator" subclass_bound_world
    = Ok (AFunction (yielding [sample 0])).
Proof.
  apply (generator_fn_inherited_then_shadowed "MyGenerator" "SampleGenerator"
           ["BaseDataLoader"; "object"]
           (user_class "MyGenerator" ["SampleGenerator"; "BaseDataLoader"; "object"] [])).
  - reflexivity.
  - reflexivity.
  - done.
  - reflexivity.
  - eexists _, _. split; reflexivity.
  - assert (mro <$> classes subclass_world !! "SampleGenerator"
            = Some ["SampleGenerator"; "BaseDataLoader"; "object"]) as -> by reflexivity.
    compute_done.
Defined.
(** ** Loading twice *)

Lemma foldl_insert_union {A} (l : list (string * A)) (m : gmap string A) :
  foldl (λ m '(k, v), <[k := v]> m) m l = list_to_map (reverse l) ∪ m.
Proof.
  revert m. induction l as [|[k v] l IH]; intros m; simpl.
  - by rewrite (left_id_L ∅ (∪)).
  - rewrite IH, reverse_cons, list_to_map_app. simpl.
    rewrite insert_empty, (insert_union_singleton_l m).
    by rewrite (assoc_L (∪)).
Qed.

(** A run of assignments makes an earlier run to the same names
    invisible. *)
Lemma foldl_insert_override {A} (l1 l2 : list (string * A)) (m : gmap string A) :
  l1.*1 = l2.*1 →
  foldl (λ m '(k, v), <[k := v]> m) (foldl (λ m '(k, v), <[k := v]> m) m l1) l2
  = foldl (λ m '(k, v), <[k := v]> m) m l2.
Proof.
  intros Hnames. rewrite !foldl_insert_union. apply map_eq. intros i.
  rewrite !lookup_union.
  destruct (list_to_map (reverse l2) !! i) as [a|] eqn:H2;
    [by destruct (list_to_map (reverse l1) !! i), (m !! i)|].
  destruct (list_to_map (reverse l1) !! i) as [b|] eqn:H1;
    [|by destruct (m !! i)].
  exfalso.
  apply not_elem_of_list_to_map in H2. apply H2.
  apply elem_of_list_to_map_2, (list_elem_of_fmap_2 fst) in H1. simpl in H1.
  rewrite fmap_reverse, elem_of_reverse in H1.
  rewrite fmap_reverse, elem_of_reverse, <-Hnames. done.
Qed.

(** A run of assignments on one class, seen as one update of its
    attributes. *)
Lemma foldl_setattr cls (l : list (string * attr)) (classes : class_store) :
  foldl (λ c '(name, a), type_setattr cls name a c) classes l
  = alter (λ o, {| mro := mro o;
                   attrs := foldl (λ m '(k, v), <[k := v]> m) (attrs o) l;
                   init_args := init_args o |}) cls classes.
Proof.
  revert classes. induction l as [|[k v] l IH]; intros classes; simpl.
  - symmetry. apply alter_id. by intros [].
  - rewrite IH. unfold type_setattr. rewrite alter_alter_eq.
    by apply alter_ext.
Qed.

Lemma foldl_setattr_override cls (l1 l2 : list (string * attr))
    (classes : class_store) :
  l1.*1 = l2.*1 →
  foldl (λ c '(name, a), type_setattr cls name a c)
    (foldl (λ c '(name, a), type_setattr cls name a c) classes l1) l2
  = foldl (λ c '(name, a), type_setattr cls name a c) classes l2.
Proof.
  intros Hnames. rewrite !foldl_setattr, alter_alter_eq. apply alter_ext.
  intros o _. simpl. by rewrite foldl_insert_override.
Qed.

(** What a load of a function has assigned on a class is assigned again,
    name by name, by the next load of a function on that class. *)
Lemma bind_metadata_override cls r1 r2 name f1 f2 (classes : class_store) :
  bind_metadata cls r2
    (type_setattr cls name (AFunction f2)
       (bind_metadata cls r1 (type_setattr cls name (AFunction f1) classes)))
  = bind_metadata cls r2 (type_setattr cls name (AFunction f2) classes).
Proof.
  unfold bind_metadata.
  repeat match goal with
  | |- context [foldl ?f (type_setattr cls name ?a ?c) ?l] =>
      change (foldl f (type_setattr cls name a c) l)
        with (foldl f c ((name, a) :: l))
  end.
  by apply foldl_setattr_override.
Qed.
(** X3.  For the variants that are made from a function, the last
    load wins and nothing of an earlier load is left.  After a
    successful load of a description of such a variant, loading any
    description of the same variant does exactly what it would have done
    had the earlier load not taken place: it fails with the same error,
    or it returns the same class and leaves every class with the same
    attributes.  When its candidate is a function whose parameters are
    the declared arguments, the later load succeeds and returns the
    class of the variant. *)
Theorem later_function_load_overrides r1 r2 w cls w1 :
  type (dl r1) ∈ DATALOADERS_AS_FUNCTIONS →
  type (dl r2) = type (dl r1) →
  get_dataloader_factory r1 w = Ok (cls, w1) →
  get_dataloader_factory r2 w1 = get_dataloader_factory r2 w
  ∧ cls = type (dl r1)
  ∧ (∀ f2, CustomDataLoader r2 = Function f2 →
       fn_args f2 = dom (args (dl r2)) →
       ∃ w2, get_dataloader_factory r2 w1 = Ok (cls, w2)).
Proof.
  intros Hfn Hty Hok.
  pose proof (get_dataloader_factory_shape _ _ _ _ Hok) as (_ & Hargs & _ & _).
  assert (∃ name f1,
            cls = type (dl r1)
            ∧ available (type (dl r1)) = Some cls
            ∧ w1 = set_classes (bind_metadata cls r1)
                     (set_classes (type_setattr cls name (AFunction f1)) w)
            ∧ ∀ f0 w0, from_fn cls f0 w0
                       = Ok (cls, set_classes (type_setattr cls name (AFunction f0)) w0))
    as (name & f1 & Hcls & Hav & Hw1 & Hany).
  { revert Hok. unfold get_dataloader_factory.
    destruct (available (type (dl r1))) as [variant|] eqn:Hav; [|done].
    apply available_spec in Hav as Hav'. destruct Hav' as [-> _].
    case_bool_decide; simpl; [|done].
    rewrite bool_decide_eq_true_2 by done.
    destruct (CustomDataLoader r1) as [f1|c]; [|done].
    destruct (from_fn _ f1 w) as [[cls1 w']|e] eqn:Hfrom; [|done].
    apply from_fn_ok in Hfrom as (-> & name & _ & -> & Hany).
    simpl. intros [= <- <-]. by exists name, f1. }
  assert (get_dataloader_factory r2 w1 = get_dataloader_factory r2 w) as Hsame.
  { unfold get_dataloader_factory. rewrite Hty, Hav.
    rewrite (getargs_init_args _ _ Hargs).
    case_bool_decide; simpl; [|done].
    rewrite bool_decide_eq_true_2 by done.
    destruct (CustomDataLoader r2) as [f2|c]; [|done].
    rewrite !Hany. simpl. do 2 f_equal. rewrite Hw1.
    unfold set_classes. cbn [classes randperms objects]. f_equal.
    apply bind_metadata_override. }
  split; [done|]. split; [done|].
  intros f2 Hf2 Hnames. rewrite Hsame.
  unfold get_dataloader_factory. rewrite Hty, Hav, Hf2. simpl.
  rewrite bool_decide_eq_true_2 by done. simpl.
  rewrite bool_decide_eq_true_2 by done.
  rewrite Hany. simpl. by eexists.
Qed.

Lemma later_function_load_overrides_example :
  get_dataloader_factory (sample_generator_fn [samples 2; samples 3]) after_first_load
  = get_dataloader_factory (sample_generator_fn [samples 2; samples 3]) initial_world
  ∧ ∃ w2, get_dataloader_factory (sample_generator_fn [samples 2; samples 3])
            after_first_load
          = Ok ("SampleGenerator", w2).
Proof.
  destruct (later_function_load_overrides first_load
              (sample_generator_fn [samples 2; samples 3]) initial_world
              "SampleGenerator" after_first_load) as (Hsame & _ & Hok).
  - compute_done.
  - reflexivity.
  - reflexivity.
  - split; [exact Hsame|].
    apply (Hok (fn ["a"] (VStream [samples 2; samples 3]))); [reflexivity|].
    by vm_compute.
Defined.

(** X4.  From the first check on, a successful load assigns on the
    class that it returns and on nothing else: every other class object
    is the one it was, the bases and the constructor parameters of
    every class are unchanged (so [issubclass] and the argument names
    answer as before), and no instance is created. *)
Theorem get_dataloader_factory_touches_one_class r w cls w' :
  get_dataloader_factory r w = Ok (cls, w') →
  (∀ c, c ≠ cls → classes w' !! c = classes w !! c)
  ∧ (∀ a b, issubclass (classes w') a b = issubclass (classes w) a b)
  ∧ (∀ x, getargs (classes w') x = getargs (classes w) x)
  ∧ randperms w' = randperms w
  ∧ objects w' = objects w.
Proof.
  intros Hok.
  pose proof (get_dataloader_factory_shape _ _ _ _ Hok) as (Hmro & Hargs & Hne & Hperm).
  split; [done|]. split; [|split; [|split]].
  - by apply issubclass_mro.
  - by apply getargs_init_args.
  - done.
  - apply get_dataloader_factory_ok in Hok as (w1 & -> & Hw1).
    destruct (CustomDataLoader r) as [f|c].
    + by destruct Hw1 as (name & _ & ->).
    + by destruct Hw1 as [-> _].
Qed.

Lemma get_dataloader_factory_touches_one_class_example :
  classes after_first_load !! "BatchGenerator" = classes initial_world !! "BatchGenerator"
  ∧ issubclass (classes after_first_load) "SampleGenerator" "BaseDataLoader" = true
  ∧ objects after_first_load = 0.
Proof.
  destruct (get_dataloader_factory_touches_one_class first_load initial_world
              "SampleGenerator" after_first_load)
    as (Hne & Hsub & _ & _ & Hobj); [reflexivity|].
  split; [by apply Hne|].
  split; [by rewrite Hsub|]. exact Hobj.
Defined.

(** X5.  Whatever a load returns honours the description: in a world
    that the module's operations can reach, the returned class is a
    subclass of the class of the declared variant, the parameter names
    of the implementation are exactly the declared argument names, and
    the class carries the description's metadata. *)
Theorem loaded_class_honours_description r w cls w' :
  reachable w →
  get_dataloader_factory r w = Ok (cls, w') →
  type (dl r) ∈ map fst AVAILABLE_DATALOADERS
  ∧ issubclass (classes w') cls (type (dl r)) = true
  ∧ getargs (classes w') (CustomDataLoader r) = dom (args (dl r))
  ∧ (wf_class (classes w) cls → metadata_bound (classes w') cls r).
Proof.
  intros Hreach Hok.
  pose proof (get_dataloader_factory_shape _ _ _ _ Hok) as (Hmro & Hargs & _ & _).
  pose proof (get_dataloader_factory_ok _ _ _ _ Hok) as (w1 & Hw' & Hw1).
  rewrite (issubclass_mro _ _ Hmro), (getargs_init_args _ _ Hargs).
  revert Hok. unfold get_dataloader_factory.
  destruct (available (type (dl r))) as [variant|] eqn:Hav; [|done].
  apply available_spec in Hav as [-> Hknown].
  case_bool_decide as Hsame; simpl; [|done].
  intros Hok. split; [done|]. split; [|split; [done|]].
  - revert Hok.
    case_bool_decide as Hfn; destruct (CustomDataLoader r) as [f|c]; try done.
    + destruct (from_fn _ f w) as [[cls1 w1']|e] eqn:Hfrom; [|done].
      apply from_fn_ok in Hfrom as (-> & _). simpl. intros [= <- _].
      unfold issubclass. rewrite (reachable_variant_mro w _ Hreach Hknown).
      apply bool_decide_eq_true_2. cbn [default]. left.
    + destruct (issubclass (classes w) c _) eqn:Hsub; [|done].
      simpl. by intros [= <- _].
  - intros Hwf. subst w'. cbn [classes set_classes]. apply bind_metadata_bound.
    destruct (CustomDataLoader r) as [f|c].
    + destruct Hw1 as (name & _ & ->). by apply wf_class_setattr.
    + by destruct Hw1 as [-> _].
Qed.

Lemma loaded_class_honours_description_example :
  issubclass (classes after_first_load) "SampleGenerator" "SampleGenerator" = true
  ∧ getargs (classes after_first_load) (CustomDataLoader first_load) = {[ "a" ]}
  ∧ metadata_bound (classes after_first_load) "SampleGenerator" first_load.
Proof.
  destruct (loaded_class_honours_description first_load initial_world
              "SampleGenerator" after_first_load)
    as (_ & Hsub & Hargs & Hmeta); [apply reachable_initial | reflexivity |].
  split; [exact Hsub|]. split.
  - rewrite Hargs. reflexivity.
  - apply Hmeta. apply wf_class_kipoi. compute_done.
Defined.
(** X6.  Once the description is read and the candidate resolved, the
    checks of [get_dataloader_factory] fail in five ways only, each for
    its own reason, in the order in which the checks are made: the
    variant name is not known; the argument names differ; a class is
    given for a variant made from a function; a function is given for
    any other variant; a class is given that is not a subclass of the
    variant.  In particular a plain function that is given for a
    class-based variant passes the argument check and then fails inside
    [issubclass] with a [TypeError], not with [ContractMismatch]; and
    looking up the variant's class or its [from_fn] never fails.  What
    runs before the first check (pulling the description, splitting
    [defined_as], importing the module) has failures of its own, which
    are not among these. *)
Theorem get_dataloader_factory_failures (r : resolution) (w : world) :
  let ty := type (dl r) in
  let actual := getargs (classes w) (CustomDataLoader r) in
  let declared := dom (args (dl r)) in
  (∀ f, is_Some (available ty) → actual = declared →
        (ty ∉ DATALOADERS_AS_FUNCTIONS) → CustomDataLoader r = Function f →
        get_dataloader_factory r w
        = Err (TypeError [Text "issubclass() arg 1 must be a class"]))
  ∧ ∀ e, get_dataloader_factory r w = Err e →
      (e = UnknownVariant ty ∧ available ty = None)
      ∨ (e = ArgumentMismatch actual declared
         ∧ is_Some (available ty) ∧ actual ≠ declared)
      ∨ (e = AssertionError "isinstance(CustomDataLoader, types.FunctionType)"
         ∧ actual = declared ∧ ty ∈ DATALOADERS_AS_FUNCTIONS
         ∧ ∃ c, CustomDataLoader r = Class c)
      ∨ (e = TypeError [Text "issubclass() arg 1 must be a class"]
         ∧ actual = declared ∧ (ty ∉ DATALOADERS_AS_FUNCTIONS)
         ∧ ∃ f, CustomDataLoader r = Function f)
      ∨ (e = ContractMismatch ty
         ∧ actual = declared ∧ (ty ∉ DATALOADERS_AS_FUNCTIONS)
         ∧ ∃ c, CustomDataLoader r = Class c ∧ issubclass (classes w) c ty = false).
Proof.
  intros ty actual declared. unfold get_dataloader_factory.
  fold ty actual declared. split.
  - intros f [variant ->] Hsame Hfn ->.
    rewrite bool_decide_eq_true_2 by done. simpl.
    by rewrite bool_decide_eq_false_2 by done.
  - intros e.
    destruct (available ty) as [variant|] eqn:Hav; [|intros [= <-]; by left].
    apply available_spec in Hav as [-> _].
    case_bool_decide as Hsame; simpl.
    + case_bool_decide as Hfn.
      * destruct (CustomDataLoader r) as [f|c].
        -- destruct (from_fn_known _ f w Hfn) as (name & _ & ->). done.
        -- intros [= <-]. right; right; left. eauto.
      * destruct (CustomDataLoader r) as [f|c].
        -- intros [= <-]. right; right; right; left. eauto.
        -- destruct (issubclass (classes w) c ty) eqn:Hsub; [done|].
           intros [= <-]. right; right; right; right. eauto 6.
    + intros [= <-]. right; left. eauto.
Qed.

Lemma get_dataloader_factory_failures_example :
  get_dataloader_factory
      (resolved "Dataset" ["a"] (Function (fn ["a"] (VData (samples 10)))))
      initial_world
    = Err (TypeError [Text "issubclass() arg 1 must be a class"])
  ∧ (get_dataloader_factory dataset_Mine user_world = Err (ContractMismatch "Dataset")
     ∧ ∃ c, CustomDataLoader dataset_Mine = Class c
            ∧ issubclass (classes user_world) c "Dataset" = false).
Proof.
  destruct (get_dataloader_factory_failures
              (resolved "Dataset" ["a"] (Function (fn ["a"] (VData (samples 10)))))
              initial_world) as [Hfn _].
  destruct (get_dataloader_factory_failures dataset_Mine user_world) as [_ Herr].
  split.
  - apply (Hfn (fn ["a"] (VData (samples 10)))).
    + by eexists; vm_compute.
    + by vm_compute.
    + compute_done.
    + reflexivity.
  - assert (get_dataloader_factory dataset_Mine user_world
            = Err (ContractMismatch "Dataset")) as Hfail by (by vm_compute).
    split; [exact Hfail|].
    destruct (Herr _ Hfail) as [[Hbad _]|[[Hbad _]|[[Hbad _]|[[Hbad _]|(_ & _ & _ & Hc)]]]];
      [discriminate Hbad .. | exact Hc].
Defined.

(** ** Iterating before a function is bound *)

(** X7.  While the class attribute that [from_fn] assigns is still
    [None], a preloaded dataset cannot be constructed: [__init__] raises
    the [AssertionError] of [_get_data_fn].  The two generator classes
    read the function only in [__iter__]: an instance is constructed
    without any check, and every way of iterating it (a batch
    iteration, the prediction items, [load_all], the training items
    with [cycle=False]) raises the [AssertionError] of
    [_get_generator_fn] at the call, while [batch_train_iter] with
    [cycle=True] returns a generator, which raises at its first
    [next()]. *)
Theorem unbound_function_raises (kw : kwargs) (w : world) :
  (∀ cls args,
     type_getattr (classes w) cls "data_fn" = Ok ANone →
     PreloadedDataset.__init__ cls args w
     = Err (AssertionError "cls.data_fn is not None"))
  ∧ (∀ cls args,
       type_getattr (classes w) cls "generator_fn" = Ok ANone →
       let e := AssertionError "cls.generator_fn is not None" in
       let self := (SampleGenerator.__init__ cls args w).1 in
       let w' := (SampleGenerator.__init__ cls args w).2 in
       SampleGenerator.__iter__ self w' = Err e
       ∧ batch_iter kw (inst_SampleGenerator self) w' = Err e
       ∧ batch_predict_iter kw (inst_SampleGenerator self) w' = Err e
       ∧ load_all kw (inst_SampleGenerator self) w' = Err e
       ∧ batch_train_iter false kw (inst_SampleGenerator self) w' = Err e
       ∧ ∃ g, batch_train_iter true kw (inst_SampleGenerator self) w' = Ok g
              ∧ ∀ fuel, BaseDataLoader.train_next (S fuel) g = Some (Raise e))
  ∧ (∀ cls args,
       type_getattr (classes w) cls "generator_fn" = Ok ANone →
       let e := AssertionError "cls.generator_fn is not None" in
       let self := (BatchGenerator.__init__ cls args w).1 in
       let w' := (BatchGenerator.__init__ cls args w).2 in
       BatchGenerator.__iter__ self w' = Err e
       ∧ batch_iter kw (inst_BatchGenerator self) w' = Err e
       ∧ batch_predict_iter kw (inst_BatchGenerator self) w' = Err e
       ∧ load_all kw (inst_BatchGenerator self) w' = Err e
       ∧ batch_train_iter false kw (inst_BatchGenerator self) w' = Err e
       ∧ ∃ g, batch_train_iter true kw (inst_BatchGenerator self) w' = Ok g
              ∧ ∀ fuel, BaseDataLoader.train_next (S fuel) g = Some (Raise e)).
Proof.
  split; [|split].
  - intros cls args Hnone.
    unfold PreloadedDataset.__init__, PreloadedDataset._get_data_fn.
    by rewrite Hnone.
  - intros cls args Hnone e self w'.
    assert (SampleGenerator.__iter__ self w' = Err e) as Hiter.
    { unfold SampleGenerator.__iter__, SampleGenerator._get_generator_fn.
      unfold self, w'. cbn [SampleGenerator.__init__ fst snd SampleGenerator.cls
                            classes new_object].
      by rewrite Hnone. }
    assert (batch_iter kw (inst_SampleGenerator self) w' = Err e) as Hbatch.
    { cbn [batch_iter]. unfold SampleGenerator.batch_iter. by rewrite Hiter. }
    split; [done|]. split; [done|].
    split; [unfold batch_predict_iter, BaseDataLoader.batch_predict_iter;
            by rewrite Hbatch|].
    split; [cbn [load_all]; unfold BaseDataLoader.load_all; by rewrite Hbatch|].
    split; [unfold batch_train_iter, BaseDataLoader.batch_train_iter;
            by rewrite Hbatch|].
    eexists. split; [reflexivity|]. intros fuel.
    cbn [BaseDataLoader.train_next iterable_cycle_next].
    unfold BaseDataLoader.restart, DataloaderIterable_iter.
    cbn [fst snd dl_kwargs SampleGenerator._batch_iterable batch_iter].
    unfold SampleGenerator.batch_iter. by rewrite Hiter.
  - intros cls args Hnone e self w'.
    assert (BatchGenerator.__iter__ self w' = Err e) as Hiter.
    { unfold BatchGenerator.__iter__, BatchGenerator._get_generator_fn.
      unfold self, w'. cbn [BatchGenerator.__init__ fst snd BatchGenerator.cls
                            classes new_object].
      by rewrite Hnone. }
    assert (batch_iter kw (inst_BatchGenerator self) w' = Err e) as Hbatch.
    { cbn [batch_iter]. unfold BatchGenerator.batch_iter. by rewrite Hiter. }
    split; [done|]. split; [done|].
    split; [unfold batch_predict_iter, BaseDataLoader.batch_predict_iter;
            by rewrite Hbatch|].
    split; [cbn [load_all]; unfold BaseDataLoader.load_all; by rewrite Hbatch|].
    split; [unfold batch_train_iter, BaseDataLoader.batch_train_iter;
            by rewrite Hbatch|].
    eexists. split; [reflexivity|]. intros fuel.
    cbn [BaseDataLoader.train_next iterable_cycle_next].
    unfold BaseDataLoader.restart, DataloaderIterable_iter.
    cbn [fst snd dl_kwargs BatchGenerator._batch_iterable batch_iter].
    unfold BatchGenerator.batch_iter. by rewrite Hiter.
Qed.

Lemma unbound_function_raises_example :
  PreloadedDataset.__init__ "PreloadedDataset" no_args initial_world
    = Err (AssertionError "cls.data_fn is not None")
  ∧ load_all batch_4 (inst_SampleGenerator generator_instance) (new_object initial_world)
    = Err (AssertionError "cls.generator_fn is not None")
  ∧ ∃ g, batch_train_iter true batch_4
           (inst_BatchGenerator
              {| BatchGenerator.cls := "BatchGenerator"; BatchGenerator.args := no_args |})
           (new_object initial_world) = Ok g
         ∧ BaseDataLoader.train_next 1 g
           = Some (Raise (AssertionError "cls.generator_fn is not None")).
Proof.
  destruct (unbound_function_raises batch_4 initial_world) as (Hpre & Hsample & Hbatch).
  split; [by apply Hpre|]. split.
  - destruct (Hsample "SampleGenerator" no_args) as (_ & _ & _ & Hload & _);
      [reflexivity|]. exact Hload.
  - destruct (Hbatch "BatchGenerator" no_args) as (_ & _ & _ & _ & _ & g & Hg & Hnext);
      [reflexivity|].
    exists g. split; [exact Hg|]. apply Hnext.
Defined.
(** ** Training and prediction items *)

Lemma train_pair_inputs x pr :
  BaseDataLoader.train_pair x = Ok pr → getitem_key x "inputs" = Ok pr.1.
Proof.
  unfold BaseDataLoader.train_pair.
  destruct (getitem_key x "inputs") as [i|e]; [|done]. simpl.
  destruct (getitem_key x "targets") as [t|e]; [|done]. simpl.
  by intros [= <-].
Qed.

Lemma train_pair_targets x pr :
  BaseDataLoader.train_pair x = Ok pr → getitem_key x "targets" = Ok pr.2.
Proof.
  unfold BaseDataLoader.train_pair.
  destruct (getitem_key x "inputs") as [i|e]; [|done]. simpl.
  destruct (getitem_key x "targets") as [t|e]; [|done]. simpl.
  by intros [= <-].
Qed.

Lemma genexpr_inputs_pairs p pairs :
  Forall2 has_pair p pairs →
  genexpr (λ x, getitem_key x "inputs") p = map (λ pr, Ok pr.1) pairs.
Proof.
  induction 1 as [|o pr p pairs (x & -> & Hx) _ IH]; [done|].
  unfold genexpr in *. simpl. rewrite IH. f_equal.
  by apply train_pair_inputs.
Qed.

(** X8.  [batch_predict_iter] and [batch_train_iter(cycle=False)] run
    the same batch iteration as [batch_iter].  When every batch has
    inputs and targets, the prediction items are the inputs of the
    batches in order, and the training generator yields the (inputs,
    targets) pairs in order and is then exhausted.  At the first batch
    that has inputs but no targets the training generator raises the
    error of the missing key after the earlier pairs, while the
    prediction items still hold the inputs of that batch. *)
Theorem train_and_predict_items kw (self : loader) w p self' w' :
  batch_iter kw self w = Ok (p, self', w') →
  ∃ q g,
    batch_predict_iter kw self w = Ok (q, self', w')
    ∧ batch_train_iter false kw self w = Ok g
    ∧ length q = length p
    ∧ (∀ pairs, Forall2 has_pair p pairs →
         q = map (λ pr, Ok pr.1) pairs
         ∧ ∀ fuel k, length pairs < k →
             BaseDataLoader.train_take fuel k g = (pairs, Finished))
    ∧ (∀ p1 x p2 pairs inputs e,
         p = p1 ++ Ok x :: p2 →
         Forall2 has_pair p1 pairs →
         getitem_key x "inputs" = Ok inputs →
         getitem_key x "targets" = Err e →
         q !! length p1 = Some (Ok inputs)
         ∧ ∀ fuel k, length pairs < k →
             BaseDataLoader.train_take fuel k g = (pairs, Raised e)).
Proof.
  intros Hp.
  exists (genexpr (λ x, getitem_key x "inputs") p),
         (BaseDataLoader.Finite (genexpr BaseDataLoader.train_pair p) self' w').
  split; [unfold batch_predict_iter, BaseDataLoader.batch_predict_iter; by rewrite Hp|].
  split; [unfold batch_train_iter, BaseDataLoader.batch_train_iter; by rewrite Hp|].
  split; [unfold genexpr; by rewrite length_map|].
  split.
  - intros pairs Hpairs. split; [by apply genexpr_inputs_pairs|].
    intros fuel k Hk. by apply train_take_finite_all.
  - intros p1 x p2 pairs inputs e -> Hpairs Hin Htg. split.
    + unfold genexpr. rewrite list_lookup_fmap, list_lookup_middle by done.
      simpl. by rewrite Hin.
    + intros fuel k Hk. apply train_take_finite_raise; [done| |done].
      unfold BaseDataLoader.train_pair. rewrite Hin. simpl. by rewrite Htg.
Qed.

Lemma train_and_predict_items_example :
  (∃ q g,
     batch_predict_iter batch_4 (preloaded 10) initial_world
       = Ok (q, preloaded 10, initial_world)
     ∧ batch_train_iter false batch_4 (preloaded 10) initial_world = Ok g
     ∧ q = [Ok (NArr (arange 4 0)); Ok (NArr (arange 4 4)); Ok (NArr (arange 2 8))]
     ∧ BaseDataLoader.train_take 0 4 g
       = ([(NArr (arange 4 0), NArr (arange 4 100));
           (NArr (arange 4 4), NArr (arange 4 104));
           (NArr (arange 2 8), NArr (arange 2 108))], Finished))
  ∧ ∃ q g self',
      batch_predict_iter ∅ two_batches initial_world = Ok (q, self', initial_world)
      ∧ batch_train_iter false ∅ two_batches initial_world = Ok g
      ∧ q !! 1 = Some (Ok (NArr (arange 3 0)))
      ∧ BaseDataLoader.train_take 0 2 g
        = ([(NArr (arange 2 0), NArr (arange 2 100))], Raised (KeyError "targets")).
Proof.
  split.
  - destruct (train_and_predict_items batch_4 (preloaded 10) initial_world
                [Ok (samples_slice 0 4); Ok (samples_slice 4 4); Ok (samples_slice 8 2)]
                (preloaded 10) initial_world)
      as (q & g & Hq & Hg & _ & Hall & _); [reflexivity|].
    exists q, g. split; [exact Hq|]. split; [exact Hg|].
    destruct (Hall [(NArr (arange 4 0), NArr (arange 4 100));
                    (NArr (arange 4 4), NArr (arange 4 104));
                    (NArr (arange 2 8), NArr (arange 2 108))]) as [Hitems Htake].
    { repeat constructor; eexists; split; reflexivity. }
    split; [exact Hitems|]. apply Htake. simpl. lia.
  - destruct (train_and_predict_items ∅ two_batches initial_world
                [Ok (samples 2); Ok (inputs_only 3)]
                (inst_BatchIterator {| BatchIterator.pending := [] |}) initial_world)
      as (q & g & Hq & Hg & _ & _ & Hmiss); [reflexivity|].
    exists q, g, (inst_BatchIterator {| BatchIterator.pending := [] |}).
    split; [exact Hq|]. split; [exact Hg|].
    destruct (Hmiss [Ok (samples 2)] (inputs_only 3) []
                [(NArr (arange 2 0), NArr (arange 2 100))]
                (NArr (arange 3 0)) (KeyError "targets")) as [Hitem Htake];
      [reflexivity | | reflexivity | reflexivity |].
    { repeat constructor; eexists; split; reflexivity. }
    split; [exact Hitem|]. apply Htake. simpl. lia.
Defined.
(** ** Cycling over an iterator *)

(** X9.  Cycling over an iterator instance does not start over.  The
    generator that [batch_train_iter(cycle=True)] returns for a
    [SampleIterator] or a [BatchIterator] yields the pairs of the
    batches that the instance still had to give; after them every new
    pass finds the instance exhausted, so the next [next()] neither
    yields nor stops, however long it is run. *)
Theorem cycle_over_iterator_starves (kw : kwargs) (w : world) :
  (∀ (s : SampleIterator.t) pairs,
     Forall2 has_pair
       (batch_gen (SampleIterator.pending s) (kw_get "batch_size" 32 kw)) pairs →
     ∃ g, batch_train_iter true kw (inst_SampleIterator s) w = Ok g
          ∧ ∀ fuel k, length pairs < k →
              BaseDataLoader.train_take (S fuel) k g = (pairs, Starved))
  ∧ (∀ (s : BatchIterator.t) pairs,
       Forall2 has_pair (map Ok (BatchIterator.pending s)) pairs →
       ∃ g, batch_train_iter true kw (inst_BatchIterator s) w = Ok g
            ∧ ∀ fuel k, length pairs < k →
                BaseDataLoader.train_take (S fuel) k g = (pairs, Starved)).
Proof.
  split.
  - intros s pairs Hpairs. eexists. split; [reflexivity|]. intros fuel k Hk.
    apply (train_take_first_pass fuel _
             (batch_gen (SampleIterator.pending s) (kw_get "batch_size" 32 kw)) pairs
             _ (inst_SampleIterator {| SampleIterator.pending := [] |})); [| |done|done].
    + unfold DataloaderIterable_iter. cbn [dl_kwargs SampleIterator._batch_iterable
                                           batch_iter].
      unfold SampleIterator.batch_iter, SampleIterator.__iter__.
      rewrite SampleIterator_exhaust by lia. by rewrite kw_get_insert.
    + reflexivity.
  - intros s pairs Hpairs. eexists. split; [reflexivity|]. intros fuel k Hk.
    apply (train_take_first_pass fuel _ (map Ok (BatchIterator.pending s)) pairs
             _ (inst_BatchIterator {| BatchIterator.pending := [] |})); [| |done|done].
    + unfold DataloaderIterable_iter. cbn [dl_kwargs BatchIterator._batch_iterable
                                           batch_iter].
      unfold BatchIterator.batch_iter, BatchIterator.__iter__.
      by rewrite BatchIterator_exhaust by lia.
    + reflexivity.
Qed.

Lemma cycle_over_iterator_starves_example :
  ∃ g, batch_train_iter true batch_4 five_iterator initial_world = Ok g
       ∧ BaseDataLoader.train_take 1 2 g
         = ([(NArr (arange 4 0), NArr (arange 4 100));
             (NArr (arange 1 4), NArr (arange 1 104))], Running)
       ∧ ∀ fuel, BaseDataLoader.train_take (S fuel) 3 g
                 = ([(NArr (arange 4 0), NArr (arange 4 100));
                     (NArr (arange 1 4), NArr (arange 1 104))], Starved).
Proof.
  destruct (cycle_over_iterator_starves batch_4 initial_world) as [Hsample _].
  destruct (Hsample {| SampleIterator.pending := map sample (seq 0 5) |}
              [(NArr (arange 4 0), NArr (arange 4 100));
               (NArr (arange 1 4), NArr (arange 1 104))]) as (g & Hg & Hstarve).
  { repeat constructor; eexists; split; reflexivity. }
  exists g. split; [exact Hg|]. split.
  - unfold batch_train_iter, BaseDataLoader.batch_train_iter in Hg.
    simpl in Hg. injection Hg as <-. reflexivity.
  - intros fuel. apply Hstarve. simpl. lia.
Defined.
(** ** Methods stay in place *)

Lemma attr_insert_fresh name o (classes : class_store) c attr :
  name ≠ c →
  (<[name := o]> classes !! c ≫= λ o, attrs o !! attr)
  = (classes !! c ≫= λ o, attrs o !! attr).
Proof. intros. by rewrite lookup_insert_ne. Qed.

Lemma bind_metadata_attr_ne cls r (classes : class_store) c name :
  name ∉ assigned_names →
  (bind_metadata cls r classes !! c ≫= λ o, attrs o !! name)
  = (classes !! c ≫= λ o, attrs o !! name).
Proof.
  unfold assigned_names. rewrite !not_elem_of_cons.
  intros (_ & _ & ? & ? & ? & ? & ? & ? & ? & ? & ? & ? & ? & ? & ? & _).
  unfold bind_metadata. cbn [foldl].
  by repeat (rewrite setattr_attr_ne by done).
Qed.

(** What a class of the module has in its own dictionary under a name
    that is never assigned. *)
Lemma reachable_own_attr w :
  reachable w →
  ∀ c name, is_Some (classes initial_world !! c) → name ∉ assigned_names →
    (classes w !! c ≫= λ o, attrs o !! name)
    = (classes initial_world !! c ≫= λ o, attrs o !! name).
Proof.
  induction 1 as [|name o w Hfresh Hreach IH|cls f w cls' w' _ IH Hfrom
                  |r w cls w' _ IH Hload|w w' _ IH Hsame]; intros c attr Hc Hattr.
  - done.
  - cbn [classes set_classes]. rewrite attr_insert_fresh; [by apply IH|].
    intros ->. destruct (reachable_kipoi_classes w Hreach c Hc) as [Hmro _].
    rewrite Hfresh in Hmro. destruct Hc as [o' Ho']. by rewrite Ho' in Hmro.
  - apply from_fn_ok in Hfrom as (_ & name & Hname & -> & _).
    cbn [classes set_classes]. rewrite setattr_attr_ne; [by apply IH|].
    intros <-. apply Hattr. unfold assigned_names.
    destruct Hname as [-> | ->]; [left|right; left].
  - apply get_dataloader_factory_ok in Hload as (w1 & -> & Hw1).
    cbn [classes set_classes]. rewrite bind_metadata_attr_ne by done.
    destruct (CustomDataLoader r) as [f|c0].
    + destruct Hw1 as (name & Hname & ->). cbn [classes set_classes].
      rewrite setattr_attr_ne; [by apply IH|].
      intros <-. apply Hattr. unfold assigned_names.
      destruct Hname as [-> | ->]; [left|right; left].
    + destruct Hw1 as [-> _]. by apply IH.
  - rewrite Hsame. by apply IH.
Qed.

(** Two class stores in which a class has the same resolution order,
    and every class on it the same entry for a name, resolve the name
    alike. *)
Lemma getattr_same_own (c1 c2 : class_store) c name order :
  mro <$> c1 !! c = Some order →
  mro <$> c2 !! c = Some order →
  Forall (λ x, (c1 !! x ≫= λ o, attrs o !! name) = (c2 !! x ≫= λ o, attrs o !! name))
    order →
  type_getattr c1 c name = type_getattr c2 c name.
Proof.
  intros H1 H2 Hown. unfold type_getattr. rewrite H1, H2. cbn [default id].
  assert (mro_lookup c1 name order = mro_lookup c2 name order) as ->; [|done].
  clear H1 H2. induction Hown as [|x order Hx _ IH]; [done|].
  cbn [mro_lookup]. cbn beta in Hx. by rewrite Hx, IH.
Qed.

Lemma reachable_variant_own_attrs w c name :
  reachable w →
  c ∈ map fst AVAILABLE_DATALOADERS →
  name ∉ assigned_names →
  Forall (λ x, (classes w !! x ≫= λ o, attrs o !! name)
               = (classes initial_world !! x ≫= λ o, attrs o !! name))
    [c; "BaseDataLoader"; "object"].
Proof.
  intros Hreach Hc Hname.
  assert (is_Some (classes initial_world !! c)) as Hsome.
  { pose proof (reachable_variant_mro initial_world c reachable_initial Hc) as Hmro.
    destruct (classes initial_world !! c); [by eexists|done]. }
  repeat constructor.
  - by apply reachable_own_attr.
  - apply reachable_own_attr; [done|by eexists|done].
  - apply reachable_own_attr; [done|by eexists|done].
Qed.

(** The constructor that a variant resolves to is the one of the
    module, in every reachable world. *)
Lemma reachable_init_intact w c :
  reachable w →
  c ∈ map fst AVAILABLE_DATALOADERS →
  type_getattr (classes w) c "__init__"
  = type_getattr (classes initial_world) c "__init__".
Proof.
  intros Hreach Hc.
  apply (getattr_same_own _ _ _ _ [c; "BaseDataLoader"; "object"]).
  - by apply reachable_variant_mro.
  - apply reachable_variant_mro; [apply reachable_initial|done].
  - apply reachable_variant_own_attrs; [done|done|compute_done].
Qed.

(** X10.  Binding and loading never replace a method of the module's
    classes.  In every world that the module's operations can reach,
    each of the seven variants reads, under any name other than the
    fifteen that [from_fn] and [get_dataloader_factory] assign, what it
    read right after the import: [batch_iter], [load_all], [__init__]
    and the others are the ones that the module defines. *)
Theorem reachable_methods_intact w c name :
  reachable w →
  c ∈ map fst AVAILABLE_DATALOADERS →
  name ∉ assigned_names →
  type_getattr (classes w) c name = type_getattr (classes initial_world) c name.
Proof.
  intros Hreach Hc Hname.
  apply (getattr_same_own _ _ _ _ [c; "BaseDataLoader"; "object"]).
  - by apply reachable_variant_mro.
  - apply reachable_variant_mro; [apply reachable_initial|done].
  - by apply reachable_variant_own_attrs.
Qed.

Lemma reachable_methods_intact_example :
  type_getattr (classes after_second_load) "SampleGenerator" "batch_iter"
    = Ok (AMethod "SampleGenerator.batch_iter")
  ∧ type_getattr (classes after_second_load) "SampleGenerator" "load_all"
    = Ok (AMethod "BaseDataLoader.load_all").
Proof.
  assert (reachable after_second_load) as Hreach.
  { apply (reachable_factory second_load after_first_load "SampleGenerator");
      [|reflexivity].
    apply (reachable_factory first_load initial_world "SampleGenerator");
      [apply reachable_initial|reflexivity]. }
  split.
  - rewrite (reachable_methods_intact after_second_load "SampleGenerator" "batch_iter");
      [reflexivity | exact Hreach | compute_done | compute_done].
  - rewrite (reachable_methods_intact after_second_load "SampleGenerator" "load_all");
      [reflexivity | exact Hreach | compute_done | compute_done].
Defined.
(** ** [init_example] *)

Lemma bind_metadata_init_example cls r classes :
  wf_class classes cls →
  type_getattr (bind_metadata cls r classes) cls "init_example"
    = Ok (AMethod "get_dataloader_factory.<locals>.init_example")
  ∧ type_getattr (bind_metadata cls r classes) cls "example_kwargs"
    = Ok (AKwargs (example_kwargs r)).
Proof.
  intros Hwf. unfold bind_metadata. cbn [foldl].
  split;
    repeat (rewrite getattr_setattr_ne by done);
    (apply getattr_setattr; repeat apply wf_class_setattr; exact Hwf).
Qed.

(** What a successful load of a function has bound, by variant. *)
Lemma get_dataloader_factory_function r w cls w' f :
  wf_class (classes w) cls →
  get_dataloader_factory r w = Ok (cls, w') →
  CustomDataLoader r = Function f →
  cls ∈ DATALOADERS_AS_FUNCTIONS
  ∧ type_getattr (classes w') cls
      (if decide (cls = "PreloadedDataset") then "data_fn" else "generator_fn")
    = Ok (AFunction f).
Proof.
  intros Hwf Hok Hf. revert Hok. unfold get_dataloader_factory.
  destruct (available (type (dl r))) as [variant|] eqn:Hav; [|done].
  apply available_spec in Hav as [-> _].
  case_bool_decide; simpl; [|done]. rewrite Hf.
  case_bool_decide as Hfn; [|done].
  unfold DATALOADERS_AS_FUNCTIONS in Hfn.
  repeat (apply elem_of_cons in Hfn as [Hty|Hfn];
          [rewrite Hty in *; cbn [from_fn decide]; simpl;
           intros [= <- <-]; split; [compute_done|];
           cbn [classes set_classes]; rewrite bind_metadata_fn_attr;
           [by apply getattr_setattr|unfold is_fn_attr; auto]|]).
  by apply elem_of_nil in Hfn.
Qed.

(** The start of [cls.init_example()] on a class that has been loaded. *)
Lemma init_example_loaded construct r w cls w' q :
  reachable w →
  cls ∈ map fst AVAILABLE_DATALOADERS →
  get_dataloader_factory r w = Ok (cls, w') →
  type_getattr (classes initial_world) cls "__init__" = Ok (AMethod q) →
  init_example construct cls w'
  = (if decide (q = "PreloadedDataset.__init__") then
       '(self, w'') ← PreloadedDataset.__init__ cls ([], example_kwargs r) w';
       Ok (inst_PreloadedDataset self, w'')
     else if decide (q = "SampleGenerator.__init__") then
       let '(self, w'') := SampleGenerator.__init__ cls ([], example_kwargs r) w' in
       Ok (inst_SampleGenerator self, w'')
     else if decide (q = "BatchGenerator.__init__") then
       let '(self, w'') := BatchGenerator.__init__ cls ([], example_kwargs r) w' in
       Ok (inst_BatchGenerator self, w'')
     else construct q cls ([], example_kwargs r) w').
Proof.
  intros Hreach Hcls Hok Hinit.
  assert (reachable w') as Hreach' by (by eapply reachable_factory).
  pose proof (reachable_wf_class w cls Hreach Hcls) as Hwf.
  pose proof (get_dataloader_factory_ok _ _ _ _ Hok) as (w1 & Hw' & Hw1).
  assert (wf_class (classes w1) cls) as Hwf1.
  { destruct (CustomDataLoader r) as [f|c].
    - destruct Hw1 as (name & _ & ->). by apply wf_class_setattr.
    - by destruct Hw1 as [-> _]. }
  destruct (bind_metadata_init_example cls r (classes w1) Hwf1) as [Hm Hkw].
  unfold init_example, instantiate.
  rewrite (reachable_init_intact w' cls Hreach' Hcls).
  rewrite Hinit. subst w'. cbn [classes set_classes]. rewrite Hm, Hkw. done.
Qed.

(** X11.  After a description of a function-derived variant has been
    loaded, [init_example()] on the returned class calls the loaded
    function without positional arguments and with the example
    arguments of the description as keywords.  For [PreloadedDataset] it
    is the constructor on these arguments, which reads the loaded
    function; for the two generator classes it creates an instance that
    holds these arguments, and iterating the instance calls the loaded
    function on them. *)
Theorem init_example_calls_loaded_function construct r w cls w' f :
  reachable w →
  get_dataloader_factory r w = Ok (cls, w') →
  CustomDataLoader r = Function f →
  let args : call_args := ([], example_kwargs r) in
  let not_a_stream := TypeError [Text "iter() returned non-iterator"] in
  cls ∈ DATALOADERS_AS_FUNCTIONS
  ∧ (cls = "PreloadedDataset" →
       PreloadedDataset._get_data_fn cls w' = Ok (AFunction f)
       ∧ init_example construct cls w'
         = ('(self, w'') ← PreloadedDataset.__init__ cls args w';
            Ok (inst_PreloadedDataset self, w'')))
  ∧ (cls = "SampleGenerator" →
       let self := {| SampleGenerator.cls := cls; SampleGenerator.args := args |} in
       init_example construct cls w' = Ok (inst_SampleGenerator self, new_object w')
       ∧ SampleGenerator.__iter__ self (new_object w')
         = (v ← fn_call f args;
            match v with VStream items => Ok items | VData _ => Err not_a_stream end))
  ∧ (cls = "BatchGenerator" →
       let self := {| BatchGenerator.cls := cls; BatchGenerator.args := args |} in
       init_example construct cls w' = Ok (inst_BatchGenerator self, new_object w')
       ∧ BatchGenerator.__iter__ self (new_object w')
         = (v ← fn_call f args;
            match v with VStream items => Ok items | VData _ => Err not_a_stream end)).
Proof.
  intros Hreach Hok Hf args not_a_stream.
  assert (cls ∈ map fst AVAILABLE_DATALOADERS ∧ cls ∈ DATALOADERS_AS_FUNCTIONS)
    as [Hknown Hfn].
  { revert Hok. unfold get_dataloader_factory.
    destruct (available (type (dl r))) as [variant|] eqn:Hav; [|done].
    apply available_spec in Hav as [-> Hknown].
    case_bool_decide; simpl; [|done]. rewrite Hf.
    case_bool_decide as Hfn; [|done].
    destruct (from_fn _ f w) as [[cls1 w1]|e] eqn:Hfrom; [|done].
    apply from_fn_ok in Hfrom as (-> & _). simpl. by intros [= <- _]. }
  pose proof (reachable_wf_class w cls Hreach Hknown) as Hwf.
  destruct (get_dataloader_factory_function r w cls w' f Hwf Hok Hf) as [_ Hattr].
  split; [done|]. split; [|split].
  - intros ->. simpl in Hattr. split.
    + unfold PreloadedDataset._get_data_fn. by rewrite Hattr.
    + by rewrite (init_example_loaded construct r w "PreloadedDataset" w'
                    "PreloadedDataset.__init__").
  - intros ->. simpl in Hattr. intros self. split.
    + by rewrite (init_example_loaded construct r w "SampleGenerator" w'
                    "SampleGenerator.__init__").
    + unfold SampleGenerator.__iter__, SampleGenerator._get_generator_fn.
      cbn [SampleGenerator.cls self classes new_object]. by rewrite Hattr.
  - intros ->. simpl in Hattr. intros self. split.
    + by rewrite (init_example_loaded construct r w "BatchGenerator" w'
                    "BatchGenerator.__init__").
    + unfold BatchGenerator.__iter__, BatchGenerator._get_generator_fn.
      cbn [BatchGenerator.cls self classes new_object]. by rewrite Hattr.
Qed.

Lemma init_example_calls_loaded_function_example :
  get_dataloader_factory example_load initial_world
    = Ok ("SampleGenerator", after_example_load)
  ∧ init_example no_user_constructor "SampleGenerator" after_example_load
    = Ok (inst_SampleGenerator example_instance, new_object after_example_load)
  ∧ SampleGenerator.__iter__ example_instance (new_object after_example_load)
    = Ok [sample 0]
  ∧ SampleGenerator.__iter__ generator_instance (new_object after_example_load)
    = Err (TypeError [Text "missing a required argument: "; ReprStr "a"]).
Proof.
  assert (get_dataloader_factory example_load initial_world
          = Ok ("SampleGenerator", after_example_load)) as Hload by reflexivity.
  destruct (init_example_calls_loaded_function no_user_constructor example_load
              initial_world "SampleGenerator" after_example_load needs_a)
    as (_ & _ & Hgen & _); [apply reachable_initial | exact Hload | reflexivity |].
  destruct (Hgen eq_refl) as [Hinit Hiter].
  split; [exact Hload|]. split; [exact Hinit|]. split; [|reflexivity].
  etransitivity; [exact Hiter|]. reflexivity.
Defined.
(** ** Slices and collation *)

Lemma sequence_ok_Forall2 {A B} (f : A → result B) (l : list A) (ys : list B) :
  sequence (map f l) = Ok ys ↔ Forall2 (λ x y, f x = Ok y) l ys.
Proof.
  split.
  - revert ys. induction l as [|x l IH]; intros ys; simpl.
    + intros [= <-]. constructor.
    + destruct (f x) as [y|e] eqn:Hx; [|done]. simpl.
      destruct (sequence (map f l)) as [ys'|e]; [|done]. simpl.
      intros [= <-]. constructor; [done|]. by apply IH.
  - induction 1 as [|x y l ys Hx _ IH]; simpl; [done|].
    by rewrite Hx, IH.
Qed.

Lemma leaves_impl (P Q : ndarray → Prop) d :
  (∀ a, P a → Q a) → leaves P d → leaves Q d.
Proof.
  intros HPQ. induction d as [a|xs IH|kvs IH] using nested_ind'; inversion 1; subst.
  - constructor. auto.
  - constructor. rewrite Forall_forall in *. auto.
  - constructor. rewrite Forall_forall in *. auto.
Qed.

(** The length check of the constructor, read on the arrays. *)
Lemma get_dataset_lens_leaves d lens n :
  get_dataset_lens d = Ok lens → (∀ a, a ∈ lens → a = n) → leaves (has_rows n) d.
Proof.
  revert lens. induction d as [a|xs IH|kvs IH] using nested_ind'; intros lens; simpl.
  - destruct a as [v|rows]; simpl; [done|]. intros [= <-] Hall.
    constructor. exists rows. split; [done|]. apply Hall. left.
  - destruct (sequence _) as [ls|e] eqn:Hseq; simpl; [|done]. intros [= <-] Hall.
    apply sequence_ok_Forall2 in Hseq. constructor.
    induction Hseq as [|x l xs ls Hx _ IHseq]; [constructor|].
    apply Forall_cons in IH as [IHx IH]. constructor.
    + apply (IHx l Hx). intros a Ha. apply Hall. simpl. apply elem_of_app. by left.
    + apply IHseq; [done|]. intros a Ha. apply Hall. simpl. apply elem_of_app. by right.
  - destruct (sequence _) as [ls|e] eqn:Hseq; simpl; [|done]. intros [= <-] Hall.
    apply (sequence_ok_Forall2 (λ kv : string * nested, get_dataset_lens kv.2)) in Hseq.
    constructor.
    induction Hseq as [|x l xs ls Hx _ IHseq]; [constructor|].
    apply Forall_cons in IH as [IHx IH]. constructor.
    + apply (IHx l Hx). intros a Ha. apply Hall. simpl. apply elem_of_app. by left.
    + apply IHseq; [done|]. intros a Ha. apply Hall. simpl. apply elem_of_app. by right.
Qed.

(** Indexing within the bounds of every array. *)
Lemma get_dataset_item_row d i :
  leaves (λ a, ∃ rows, a = Arr rows ∧ i < length rows) d →
  get_dataset_item d i = Ok (map_leaves (row i) d).
Proof.
  induction d as [a|xs IH|kvs IH] using nested_ind'; inversion 1 as [? Ha|? Hxs|? Hkvs];
    subst; simpl.
  - destruct Ha as (rows & -> & Hi). simpl.
    apply lookup_lt_is_Some in Hi as [r Hr]. by rewrite Hr.
  - rewrite (sequence_map_ok _ (map_leaves (row i))); [done|].
    rewrite Forall_forall in *. auto.
  - rewrite (sequence_map_ok _ (λ kv, (kv.1, map_leaves (row i) kv.2))); [done|].
    rewrite Forall_forall in *. intros kv Hkv. by rewrite IH; auto.
Qed.

Lemma collate_with_list leaf xs rest :
  collate_with leaf (NList xs) rest
  = (rest' ← sequence (map (as_list (length xs)) rest);
     ys ← collate_list leaf rest' 0 xs; Ok (NList ys)).
Proof. reflexivity. Qed.

Lemma collate_with_dict leaf kvs rest :
  collate_with leaf (NDict kvs) rest
  = (rest' ← sequence (map (as_dict (length kvs)) rest);
     ys ← collate_dict leaf rest' kvs; Ok (NDict ys)).
Proof. reflexivity. Qed.

Lemma dict_get_map (F : nested → nested) kvs k v :
  NoDup (map fst kvs) → (k, v) ∈ kvs →
  dict_get (map (λ kv, (kv.1, F kv.2)) kvs) k = Ok (F v).
Proof.
  induction kvs as [|[k' v'] kvs IH]; intros Hnodup Hin; [by apply elem_of_nil in Hin|].
  simpl in *. apply NoDup_cons in Hnodup as [Hnotin Hnodup].
  apply elem_of_cons in Hin as [[= -> ->]|Hin].
  - by rewrite decide_True.
  - rewrite decide_False; [by apply IH|].
    intros ->. apply Hnotin. apply list_elem_of_fmap. by exists (k, v).
Qed.

(** Collating the images of one structure under a family of functions
    on its arrays: the result is the structure with every array
    replaced by what [leaf] makes of its images. *)
Lemma collate_with_leaves leaf (f0 : ndarray → ndarray) (fs : list (ndarray → ndarray))
    (g : ndarray → ndarray) d :
  distinct_keys d →
  leaves (λ a, leaf (f0 a :: map (λ f, f a) fs) = Ok (g a)) d →
  collate_with leaf (map_leaves f0 d) (map (λ f, map_leaves f d) fs)
  = Ok (map_leaves g d).
Proof.
  induction d as [a|xs IH|kvs IH] using nested_ind'; intros Hdist Hleaves;
    inversion Hdist as [|? Hdxs|? Hnodup Hdkvs]; inversion Hleaves as [? Ha|? Hxs|? Hkvs];
    subst.
  - simpl. rewrite map_map.
    rewrite (sequence_map_ok _ (λ f, f a)) by (by apply Forall_forall).
    simpl. by rewrite Ha.
  - cbn [map_leaves]. rewrite collate_with_list, map_map.
    rewrite (sequence_map_ok _ (λ f, map (map_leaves f) xs)).
    2:{ apply Forall_forall. intros f _. simpl.
        by rewrite !length_map, decide_True. }
    cbn [mbind result_bind].
    assert (∀ pre l, xs = pre ++ l →
              collate_list leaf (map (λ f, map (map_leaves f) xs) fs) (length pre)
                (map (map_leaves f0) l) = Ok (map (map_leaves g) l)) as Hloop.
    { intros pre l. revert pre. induction l as [|x l IHl]; intros pre Hxs'; [done|].
      cbn [map collate_list]. rewrite map_map.
      rewrite (sequence_map_ok _ (λ f, map_leaves f x)).
      2:{ apply Forall_forall. intros f _. unfold nth_of.
          by rewrite list_lookup_fmap, Hxs', list_lookup_middle. }
      cbn [mbind result_bind].
      assert (x ∈ xs) as Hx by (rewrite Hxs'; set_solver).
      rewrite Forall_forall in IH, Hdxs, Hxs.
      rewrite (IH x Hx (Hdxs x Hx) (Hxs x Hx)). cbn [mbind result_bind].
      specialize (IHl (pre ++ [x])). rewrite length_app in IHl. simpl in IHl.
      rewrite Nat.add_1_r in IHl. rewrite IHl; [done|].
      by rewrite <-app_assoc. }
    specialize (Hloop [] xs eq_refl). cbn [length] in Hloop. by rewrite Hloop.
  - cbn [map_leaves]. rewrite collate_with_dict, map_map.
    rewrite (sequence_map_ok _ (λ f, map (λ kv, (kv.1, map_leaves f kv.2)) kvs)).
    2:{ apply Forall_forall. intros f _. simpl.
        by rewrite !length_map, decide_True. }
    cbn [mbind result_bind].
    assert (∀ l, l ⊆ kvs →
              collate_dict leaf
                (map (λ f, map (λ kv, (kv.1, map_leaves f kv.2)) kvs) fs)
                (map (λ kv, (kv.1, map_leaves f0 kv.2)) l)
              = Ok (map (λ kv, (kv.1, map_leaves g kv.2)) l)) as Hloop.
    { induction l as [|[k v] l IHl]; intros Hsub; [done|].
      cbn [map collate_dict fst snd]. rewrite map_map.
      assert ((k, v) ∈ kvs) as Hkv by (apply Hsub; left).
      rewrite (sequence_map_ok _ (λ f, map_leaves f v)).
      2:{ apply Forall_forall. intros f _. unfold key_of.
          by rewrite (dict_get_map (map_leaves f) kvs k v). }
      cbn [mbind result_bind].
      rewrite Forall_forall in IH, Hdkvs, Hkvs.
      pose proof (IH (k, v) Hkv (Hdkvs (k, v) Hkv) (Hkvs (k, v) Hkv)) as Hv.
      cbn [fst snd] in Hv. rewrite Hv.
      cbn [mbind result_bind].
      rewrite IHl; [done|]. intros y Hy. apply Hsub. by right. }
    by rewrite (Hloop kvs).
Qed.
(** *** Rows of an array *)

Lemma omap_lookup_in_range {A} (d : A) (rows : list A) indices :
  Forall (λ i, i < length rows) indices →
  omap (λ i, rows !! i) indices = map (λ i, default d (rows !! i)) indices.
Proof.
  induction 1 as [|i indices Hi _ IH]; [done|].
  csimpl. apply lookup_lt_is_Some in Hi as [x Hx]. by rewrite Hx, IH.
Qed.

Lemma omap_lookup_seq {A} (rows : list A) from len :
  from + len ≤ length rows →
  omap (λ i, rows !! i) (seq from len) = take len (drop from rows).
Proof.
  revert from. induction len as [|len IH]; intros from Hle; [done|].
  csimpl. destruct (lookup_lt_is_Some_2 rows from) as [x Hx]; [lia|].
  rewrite Hx. rewrite (drop_S _ _ _ Hx). csimpl. by rewrite IH by lia.
Qed.

Lemma take_rows_all n a : has_rows n a → take_rows (seq 0 n) a = a.
Proof.
  intros (rows & -> & <-). simpl.
  by rewrite omap_lookup_seq, drop_0, firstn_all by lia.
Qed.

Lemma np_concatenate_take_rows rows (groups : list (list nat)) :
  np_concatenate (map (λ g, take_rows g (Arr rows)) groups)
  = Ok (take_rows (concat groups) (Arr rows)).
Proof.
  induction groups as [|g groups IH]; [done|].
  simpl in *. rewrite IH. simpl. by rewrite omap_app.
Qed.

(** *** Slices of a structure *)

Lemma map_leaves_ext (f g : ndarray → ndarray) d :
  leaves (λ a, f a = g a) d → map_leaves f d = map_leaves g d.
Proof.
  induction d as [a|xs IH|kvs IH] using nested_ind'; inversion 1 as [? Ha|? Hxs|? Hkvs];
    subst; simpl.
  - by rewrite Ha.
  - f_equal. apply Forall_fmap_ext_1. rewrite Forall_forall in *. auto.
  - f_equal. apply Forall_fmap_ext_1. rewrite Forall_forall in *.
    intros kv Hkv. by rewrite IH; auto.
Qed.

Lemma map_leaves_id d : map_leaves id d = d.
Proof.
  induction d as [a|xs IH|kvs IH] using nested_ind'; simpl; [done| |].
  - f_equal. rewrite <-(map_id xs) at 2. apply Forall_fmap_ext_1.
    eapply Forall_impl; [exact IH|]. done.
  - f_equal. rewrite <-(map_id kvs) at 2. apply Forall_fmap_ext_1.
    eapply Forall_impl; [exact IH|]. intros [k v]. simpl. by intros ->.
Qed.

Lemma slice_all d n : leaves (has_rows n) d → slice 0 n d = d.
Proof.
  intros Hd. unfold slice. rewrite <-(map_leaves_id d) at 2.
  apply map_leaves_ext. eapply leaves_impl; [|exact Hd].
  intros a Ha. by apply take_rows_all.
Qed.

(** Collating the samples found at some indices gives the structure
    made of these rows. *)
Lemma numpy_collate_rows d n indices :
  distinct_keys d →
  leaves (has_rows n) d →
  indices ≠ [] →
  Forall (λ i, i < n) indices →
  numpy_collate (map (λ i, map_leaves (row i) d) indices)
  = Ok (map_leaves (take_rows indices) d).
Proof.
  intros Hdist Hd Hne Hin.
  destruct indices as [|i0 indices]; [done|].
  apply Forall_cons in Hin as [Hi0 Hin].
  unfold numpy_collate, collate. cbn [map].
  rewrite <-(map_map row (λ f, map_leaves f d)).
  apply collate_with_leaves; [done|].
  eapply leaves_impl; [|exact Hd]. intros a (rows & -> & <-).
  rewrite map_map. unfold np_stack, take_rows, row. csimpl.
  apply lookup_lt_is_Some in Hi0 as [x Hx]. rewrite Hx. csimpl.
  by rewrite (omap_lookup_in_range (Scalar 0)).
Qed.

Lemma fetch_take_rows (dl : torch.DataLoader) d n g :
  distinct_keys d →
  leaves (has_rows n) d →
  (∀ i, i < n → torch.dataset_getitem dl i = Ok (map_leaves (row i) d)) →
  torch.collate_fn dl = numpy_collate →
  g ≠ [] →
  Forall (λ i, i < n) g →
  torch.fetch dl g = Ok (map_leaves (take_rows g) d).
Proof.
  intros Hdist Hd Hitem Hcollate Hne Hin. unfold torch.fetch.
  rewrite (sequence_map_ok _ (λ i, map_leaves (row i) d)).
  2:{ rewrite Forall_forall in *. auto. }
  cbn [mbind result_bind]. rewrite Hcollate. by apply (numpy_collate_rows d n).
Qed.

Lemma get_dataset_item_rows d n i :
  leaves (has_rows n) d → i < n → get_dataset_item d i = Ok (map_leaves (row i) d).
Proof.
  intros Hd Hi. apply get_dataset_item_row.
  eapply leaves_impl; [|exact Hd]. intros a (rows & -> & <-). by exists rows.
Qed.

(** Concatenating slices of one structure gives the structure made of
    all their rows. *)
Lemma numpy_collate_concat_take_rows d n (groups : list (list nat)) :
  distinct_keys d →
  leaves (has_rows n) d →
  groups ≠ [] →
  numpy_collate_concat (map (λ g, map_leaves (take_rows g) d) groups)
  = Ok (map_leaves (take_rows (concat groups)) d).
Proof.
  intros Hdist Hd Hne.
  destruct groups as [|g0 groups]; [done|].
  unfold numpy_collate_concat, collate. cbn [map].
  rewrite <-(map_map take_rows (λ f, map_leaves f d)).
  apply collate_with_leaves; [done|].
  eapply leaves_impl; [|exact Hd]. intros a (rows & -> & <-).
  rewrite map_map.
  exact (np_concatenate_take_rows rows (g0 :: groups)).
Qed.

Lemma sequence_map_Ok {A} (l : list A) : sequence (map Ok l) = Ok l.
Proof. induction l as [|x l IH]; simpl; [done|]. by rewrite IH. Qed.
(** ** The index groups of the batching service *)

(** The groups are the successive full chunks of the index sequence;
    what is left over makes a last, shorter group unless [drop_last]. *)
Lemma BatchSampler_from_chunks bs batch sampler :
  0 < bs → length batch < bs →
  ∃ full tail,
    torch.BatchSampler_from bs true batch sampler = full
    ∧ torch.BatchSampler_from bs false batch sampler
      = full ++ (if decide (tail = []) then [] else [tail])
    ∧ concat full ++ tail = batch ++ sampler
    ∧ Forall (λ g, length g = bs) full
    ∧ length tail < bs.
Proof.
  intros Hbs. revert batch. induction sampler as [|idx sampler IH]; intros batch Hlen.
  - exists [], batch. simpl. rewrite app_nil_r.
    split; [by destruct (length batch =? 0)|].
    split; [|by repeat split].
    by destruct batch.
  - simpl. destruct (length (batch ++ [idx]) =? bs) eqn:Hfull.
    + apply Nat.eqb_eq in Hfull.
      destruct (IH []) as (full & tail & Htrue & Hfalse & Hcat & Hall & Htail);
        [simpl; lia|].
      exists ((batch ++ [idx]) :: full), tail.
      rewrite Htrue, Hfalse. simpl in Hcat.
      split; [done|]. split; [done|].
      split; [simpl; by rewrite <-!app_assoc, Hcat|].
      split; [by constructor|done].
    + apply Nat.eqb_neq in Hfull. rewrite length_app in Hfull. simpl in Hfull.
      destruct (IH (batch ++ [idx])) as (full & tail & Htrue & Hfalse & Hcat & Hall & Htail);
        [rewrite length_app; simpl; lia|].
      exists full, tail. rewrite Htrue, Hfalse, Hcat.
      split; [done|]. split; [done|]. split; [by rewrite <-app_assoc|]. done.
Qed.

(** The chunks of a run of consecutive numbers are runs themselves. *)
Lemma chunks_of_seq bs from len (full : list (list nat)) tail :
  0 < bs →
  concat full ++ tail = seq from len →
  Forall (λ g, length g = bs) full →
  length tail < bs →
  full = map (λ j, seq (from + j * bs) bs) (seq 0 (len / bs))
  ∧ tail = seq (from + len / bs * bs) (len mod bs).
Proof.
  intros Hbs. revert from len.
  induction full as [|g full IH]; intros from len Hcat Hall Htail.
  - simpl in Hcat. subst tail. rewrite length_seq in Htail.
    rewrite Nat.div_small, Nat.mod_small by done. simpl. by rewrite Nat.add_0_r.
  - apply Forall_cons in Hall as [Hg Hall]. simpl in Hcat.
    assert (bs ≤ len) as Hle.
    { apply (f_equal length) in Hcat.
      rewrite !length_app, length_seq in Hcat. lia. }
    replace len with (bs + (len - bs)) in Hcat by lia.
    rewrite seq_app, <-app_assoc in Hcat.
    apply app_inj_1 in Hcat as [-> Hcat]; [|by rewrite length_seq].
    destruct (IH _ _ Hcat Hall Htail) as [-> ->].
    assert (len / bs = S ((len - bs) / bs)) as Hdiv.
    { replace len with (1 * bs + (len - bs)) at 1 by lia.
      rewrite Nat.div_add_l by lia. lia. }
    assert (len mod bs = (len - bs) mod bs) as Hmod.
    { replace len with ((len - bs) + 1 * bs) at 1 by lia.
      by rewrite Nat.Div0.mod_add. }
    rewrite Hdiv, Hmod. split.
    + cbn [seq map]. rewrite Nat.add_0_r. f_equal.
      rewrite <-fmap_S_seq, map_map. apply map_ext. intros j. f_equal. lia.
    + f_equal. lia.
Qed.

(** The index groups over [0 .. n-1] in order. *)
Lemma BatchSampler_seq n bs drop_last :
  0 < bs →
  torch.BatchSampler (seq 0 n) bs drop_last
  = map (λ j, seq (j * bs) bs) (seq 0 (n / bs))
    ++ (if drop_last || (n mod bs =? 0) then [] else [seq (n / bs * bs) (n mod bs)]).
Proof.
  intros Hbs. unfold torch.BatchSampler.
  destruct (BatchSampler_from_chunks bs [] (seq 0 n) Hbs)
    as (full & tail & Htrue & Hfalse & Hcat & Hall & Htail); [simpl; lia|].
  simpl in Hcat.
  destruct (chunks_of_seq bs 0 n full tail Hbs Hcat Hall Htail) as [Hfull Htl].
  simpl in Hfull, Htl.
  destruct drop_last; simpl.
  - rewrite Htrue, Hfull. by rewrite app_nil_r.
  - rewrite Hfalse, Hfull. f_equal.
    destruct (n mod bs =? 0) eqn:Hmod.
    + apply Nat.eqb_eq in Hmod. rewrite Hmod in Htl. simpl in Htl.
      by rewrite decide_True.
    + apply Nat.eqb_neq in Hmod. rewrite decide_False; [by rewrite Htl|].
      intros Hnil. apply (f_equal length) in Hnil. rewrite Htl, length_seq in Hnil.
      simpl in Hnil. done.
Qed.

Lemma concat_chunks_seq bs k :
  concat (map (λ j, seq (j * bs) bs) (seq 0 k)) = seq 0 (k * bs).
Proof.
  induction k as [|k IH]; [done|].
  rewrite seq_S, map_app, concat_app, IH. simpl. rewrite app_nil_r.
  replace (bs + k * bs) with (k * bs + bs) by lia. by rewrite seq_app.
Qed.

Lemma concat_BatchSampler_seq n bs (drop_last : bool) :
  0 < bs →
  concat (torch.BatchSampler (seq 0 n) bs drop_last)
  = seq 0 (if drop_last then n / bs * bs else n).
Proof.
  intros Hbs. rewrite BatchSampler_seq by done.
  rewrite concat_app, concat_chunks_seq.
  destruct drop_last; simpl; [by rewrite app_nil_r|].
  pose proof (Nat.div_mod_eq n bs) as Hn.
  destruct (n mod bs =? 0) eqn:Hmod; simpl.
  - apply Nat.eqb_eq in Hmod. rewrite app_nil_r. f_equal. lia.
  - rewrite app_nil_r. rewrite <-seq_app. f_equal. lia.
Qed.

Lemma BatchSampler_seq_groups n bs drop_last :
  0 < bs →
  Forall (λ g, g ≠ [] ∧ Forall (λ i, i < n) g)
    (torch.BatchSampler (seq 0 n) bs drop_last).
Proof.
  intros Hbs. rewrite BatchSampler_seq by done.
  pose proof (Nat.div_mod_eq n bs) as Hn.
  apply Forall_app. split.
  - apply Forall_fmap, Forall_forall. intros j Hj.
    apply elem_of_seq in Hj as [_ Hj]. simpl in Hj. split.
    + intros Hnil. apply (f_equal length) in Hnil. rewrite length_seq in Hnil.
      simpl in Hnil. lia.
    + apply Forall_forall. intros i Hi. apply elem_of_seq in Hi. nia.
  - destruct (drop_last || (n mod bs =? 0)) eqn:Hlast; [constructor|].
    apply orb_false_iff in Hlast as [_ Hmod]. apply Nat.eqb_neq in Hmod.
    constructor; [|constructor]. split.
    + intros Hnil. apply (f_equal length) in Hnil. rewrite length_seq in Hnil.
      simpl in Hnil. lia.
    + apply Forall_forall. intros i Hi. apply elem_of_seq in Hi. nia.
Qed.

(** The batches of a loader without shuffling, over a dataset whose
    samples are the rows of one structure. *)
Lemma DataLoader_iter_slices {Self} (dl : torch.DataLoader) d (self : Self) w :
  distinct_keys d →
  leaves (has_rows (torch.dataset_len dl)) d →
  (∀ i, i < torch.dataset_len dl →
        torch.dataset_getitem dl i = Ok (map_leaves (row i) d)) →
  torch.collate_fn dl = numpy_collate →
  torch.shuffle dl = false →
  0 < torch.batch_size dl →
  DataLoader_iter dl self w
  = Ok (map (λ g, Ok (map_leaves (take_rows g) d))
          (torch.BatchSampler (seq 0 (torch.dataset_len dl)) (torch.batch_size dl)
             (torch.drop_last dl)), self, w).
Proof.
  intros Hdist Hd Hitem Hcollate Hshuffle Hbs. unfold DataLoader_iter.
  rewrite Hshuffle. do 3 f_equal. apply Forall_fmap_ext_1.
  eapply Forall_impl; [by apply BatchSampler_seq_groups|].
  intros g [Hne Hin]. by apply (fetch_take_rows dl d (torch.dataset_len dl)).
Qed.

Lemma PreloadedDataset_init_leaves cls args w self w' :
  PreloadedDataset.__init__ cls args w = Ok (self, w') →
  leaves (has_rows (PreloadedDataset.__len__ self)) (PreloadedDataset.data self).
Proof.
  unfold PreloadedDataset.__init__.
  destruct (PreloadedDataset._get_data_fn cls w) as [f|e]; [|done]. simpl.
  destruct (call f args) as [[d|items]|e]; simpl; try done.
  destruct (get_dataset_lens d) as [lens|e] eqn:Hlens; simpl; [|done].
  case_decide as Hsize; [|done].
  destruct (lens !! 0) as [n|] eqn:Hn; [|done]. intros [= <- _]. simpl.
  apply set_size_one in Hsize as (m & _ & Hall).
  apply (get_dataset_lens_leaves d lens); [done|].
  intros a Ha. rewrite (Hall a Ha). symmetry. apply Hall.
  by apply list_elem_of_lookup_2 in Hn.
Qed.
(** ** Batches of a preloaded dataset *)

Lemma BatchSampler_seq_one n (drop_last : bool) :
  torch.BatchSampler (seq 0 n) 1 drop_last = map (λ i, [i]) (seq 0 n).
Proof.
  rewrite BatchSampler_seq by lia.
  rewrite Nat.div_1_r, Nat.mod_1_r. simpl. rewrite orb_true_r, app_nil_r.
  apply map_ext. intros j. simpl. by rewrite Nat.mul_1_r.
Qed.

Lemma numpy_collate_concat_singleton x :
  distinct_keys x →
  leaves (λ a, ∃ rows, a = Arr rows) x →
  numpy_collate_concat [x] = Ok x.
Proof.
  intros Hdist Hx. unfold numpy_collate_concat, collate.
  pose proof (collate_with_leaves np_concatenate id [] id x Hdist) as Hcollate.
  rewrite !map_leaves_id in Hcollate. apply Hcollate.
  eapply leaves_impl; [|exact Hx]. intros a [rows ->]. simpl.
  by rewrite app_nil_r.
Qed.

(** X12.  The batches of a preloaded dataset that was constructed
    successfully, without shuffling and with a positive batch size
    [bs], are the successive slices of the data: [n / bs] batches
    [data[j*bs : (j+1)*bs]], followed by the slice of the remaining
    [n mod bs] samples when there are some and [drop_last] is not set.
    No batch fails, the dataset is left as it was; and when nothing is
    dropped and the dataset is not empty, the batches concatenated are
    the data. *)
Theorem PreloadedDataset_batches_are_slices cls args w0 self w1 kw w :
  PreloadedDataset.__init__ cls args w0 = Ok (self, w1) →
  distinct_keys (PreloadedDataset.data self) →
  truthy (kw_get "shuffle" 0 kw) = false →
  0 < kw_get "batch_size" 32 kw →
  let n := PreloadedDataset.__len__ self in
  let bs := kw_get "batch_size" 32 kw in
  let data := PreloadedDataset.data self in
  let drop_last := truthy (kw_get "drop_last" 0 kw) in
  let batches :=
    map (λ j, slice (j * bs) bs data) (seq 0 (n / bs))
    ++ (if drop_last || (n mod bs =? 0) then []
        else [slice (n / bs * bs) (n mod bs) data]) in
  PreloadedDataset.batch_iter kw self w = Ok (map Ok batches, self, w)
  ∧ (drop_last = false → 0 < n → numpy_collate_concat batches = Ok data).
Proof.
  intros Hinit Hdist Hshuffle Hbs n bs data drop_last batches.
  pose proof (PreloadedDataset_init_leaves _ _ _ _ _ Hinit) as Hd.
  assert (batches = map (λ g, map_leaves (take_rows g) data)
                      (torch.BatchSampler (seq 0 n) bs drop_last)) as Hbatches.
  { rewrite BatchSampler_seq by done. rewrite map_app, map_map.
    unfold batches. f_equal. by destruct (drop_last || (n mod bs =? 0)). }
  split.
  - unfold PreloadedDataset.batch_iter.
    rewrite (DataLoader_iter_slices _ data); try done.
    + rewrite Hbatches, map_map. done.
    + intros i Hi. by apply (get_dataset_item_rows data n).
  - intros Hdrop Hn. rewrite Hbatches.
    rewrite (numpy_collate_concat_take_rows data n); [|done|done|].
    + rewrite concat_BatchSampler_seq, Hdrop by done. f_equal.
      by apply slice_all.
    + intros Hnil. pose proof (concat_BatchSampler_seq n bs drop_last Hbs) as Hcat.
      rewrite Hnil, Hdrop in Hcat. destruct n; [lia|done].
Qed.

Lemma PreloadedDataset_batches_are_slices_example :
  PreloadedDataset.batch_iter {[ "batch_size" := 3 ]}
      {| PreloadedDataset.data := samples 10; PreloadedDataset.n := 10 |} initial_world
    = Ok ([Ok (slice 0 3 (samples 10)); Ok (slice 3 3 (samples 10));
           Ok (slice 6 3 (samples 10)); Ok (slice 9 1 (samples 10))],
          {| PreloadedDataset.data := samples 10; PreloadedDataset.n := 10 |},
          initial_world)
  ∧ numpy_collate_concat
      [slice 0 3 (samples 10); slice 3 3 (samples 10);
       slice 6 3 (samples 10); slice 9 1 (samples 10)]
    = Ok (samples 10).
Proof.
  destruct (PreloadedDataset_batches_are_slices "PreloadedDataset" no_args
              (preloaded_world (returning (samples 10)))
              {| PreloadedDataset.data := samples 10; PreloadedDataset.n := 10 |}
              (new_object (preloaded_world (returning (samples 10))))
              {[ "batch_size" := 3 ]} initial_world) as [Hbatches Hconcat].
  - reflexivity.
  - constructor; [compute_done|]. repeat constructor.
  - reflexivity.
  - compute_done.
  - split; [exact Hbatches|]. apply Hconcat; [reflexivity|]. simpl. lia.
Defined.
(** ** Indexing a preloaded dataset *)

(** Indexing at or beyond the common length: the first array met
    raises, and a structure without any array is returned as it is. *)
Lemma get_dataset_item_beyond d n i lens :
  leaves (has_rows n) d →
  n ≤ i →
  get_dataset_lens d = Ok lens →
  get_dataset_item d i
  = if decide (lens = []) then Ok (map_leaves (row i) d) else Err IndexError.
Proof.
  intros Hd Hi. revert lens.
  induction d as [a|xs IH|kvs IH] using nested_ind'; intros lens;
    inversion Hd as [? Ha|? Hxs|? Hkvs]; subst; simpl.
  - destruct Ha as (rows & -> & <-). simpl. intros [= <-]. simpl.
    by rewrite lookup_ge_None_2.
  - destruct (sequence (map get_dataset_lens xs)) as [ls|e] eqn:Hseq; [|done].
    simpl. intros [= <-]. apply sequence_ok_Forall2 in Hseq.
    assert (sequence (map (λ x, get_dataset_item x i) xs)
            = if decide (concat ls = []) then Ok (map (map_leaves (row i)) xs)
              else Err IndexError) as ->.
    { induction Hseq as [|x l xs ls Hx _ IHseq]; [done|].
      apply Forall_cons in IH as [IHx IH]. apply Forall_cons in Hxs as [Hx' Hxs].
      simpl. rewrite (IHx Hx' l Hx).
      destruct l as [|a l]; simpl; [|done].
      rewrite IHseq by (done || by constructor).
      by destruct (decide (concat ls = [])). }
    by destruct (decide (concat ls = [])).
  - destruct (sequence (map (λ kv : string * nested, get_dataset_lens kv.2) kvs))
      as [ls|e] eqn:Hseq; [|done].
    simpl. intros [= <-].
    apply (sequence_ok_Forall2 (λ kv : string * nested, get_dataset_lens kv.2)) in Hseq.
    assert (sequence (map (λ kv : string * nested,
                             v ← get_dataset_item kv.2 i; Ok (kv.1, v)) kvs)
            = if decide (concat ls = [])
              then Ok (map (λ kv, (kv.1, map_leaves (row i) kv.2)) kvs)
              else Err IndexError) as ->.
    { induction Hseq as [|x l xs ls Hx _ IHseq]; [done|].
      apply Forall_cons in IH as [IHx IH]. apply Forall_cons in Hkvs as [Hx' Hkvs].
      simpl. rewrite (IHx Hx' l Hx).
      destruct l as [|a l]; simpl; [|done].
      rewrite IHseq by (done || by constructor).
      by destruct (decide (concat ls = [])). }
    by destruct (decide (concat ls = [])).
Qed.

(** X13.  A preloaded dataset that was constructed successfully can
    be indexed exactly below its length: [self[i]] for [i < len(self)]
    is the structure of the rows [i] of the arrays, and for
    [i >= len(self)] it raises [IndexError]. *)
Theorem PreloadedDataset_getitem_bounds cls args w self w' (i : nat) :
  PreloadedDataset.__init__ cls args w = Ok (self, w') →
  (i < PreloadedDataset.__len__ self →
     PreloadedDataset.__getitem__ self i
     = Ok (map_leaves (row i) (PreloadedDataset.data self)))
  ∧ (PreloadedDataset.__len__ self ≤ i →
       PreloadedDataset.__getitem__ self i = Err IndexError).
Proof.
  intros Hinit.
  pose proof (PreloadedDataset_init_leaves _ _ _ _ _ Hinit) as Hd.
  split; intros Hi.
  - by apply (get_dataset_item_rows _ (PreloadedDataset.__len__ self)).
  - revert Hinit Hd. unfold PreloadedDataset.__init__.
    destruct (PreloadedDataset._get_data_fn cls w) as [f|e]; [|done]. simpl.
    destruct (call f args) as [[d|items]|e]; simpl; try done.
    destruct (get_dataset_lens d) as [lens|e] eqn:Hlens; simpl; [|done].
    case_decide as Hsize; [|done].
    destruct (lens !! 0) as [n|] eqn:Hn; [|done]. intros [= <- _] Hd.
    simpl in *. unfold PreloadedDataset.__getitem__. simpl.
    rewrite (get_dataset_item_beyond d n i lens Hd Hi Hlens).
    rewrite decide_False; [done|]. by intros ->.
Qed.

Lemma PreloadedDataset_getitem_bounds_example :
  PreloadedDataset.__getitem__
      {| PreloadedDataset.data := samples 10; PreloadedDataset.n := 10 |} 9
    = Ok (sample 9)
  ∧ PreloadedDataset.__getitem__
      {| PreloadedDataset.data := samples 10; PreloadedDataset.n := 10 |} 10
    = Err IndexError.
Proof.
  split.
  - destruct (PreloadedDataset_getitem_bounds "PreloadedDataset" no_args
                (preloaded_world (returning (samples 10)))
                {| PreloadedDataset.data := samples 10; PreloadedDataset.n := 10 |}
                (new_object (preloaded_world (returning (samples 10)))) 9) as [Hin _];
      [reflexivity|].
    rewrite Hin; [reflexivity|]. simpl. lia.
  - destruct (PreloadedDataset_getitem_bounds "PreloadedDataset" no_args
                (preloaded_world (returning (samples 10)))
                {| PreloadedDataset.data := samples 10; PreloadedDataset.n := 10 |}
                (new_object (preloaded_world (returning (samples 10)))) 10) as [_ Hout];
      [reflexivity|].
    apply Hout. simpl. lia.
Defined.

(** ** [load_all] over an indexed dataset *)

(** X14.  [Dataset.load_all], over a dataset whose samples are the
    rows of one structure [d], without shuffling and without keywords
    that the batching service does not know, returns [d] itself
    whatever the positive batch size is: all the samples, in index
    order.  With [drop_last] set it returns only the first
    [n / bs * bs] samples: the keyword is handed on to the batch
    iteration, which drops the last incomplete batch.  When no sample
    is left at all (the dataset is empty, or [drop_last] is set and
    there are fewer samples than one batch) there is no batch to
    concatenate, and [load_all] raises [IndexError]. *)
Theorem Dataset_load_all_collects (self : Dataset.t) d kw w :
  distinct_keys d →
  leaves (has_rows (Dataset.__len__ self)) d →
  (∀ i, i < Dataset.__len__ self →
        Dataset.__getitem__ self i = Ok (map_leaves (row i) d)) →
  kw_rest ["batch_size"; "shuffle"; "num_workers"; "drop_last"] kw = ∅ →
  truthy (kw_get "shuffle" 0 kw) = false →
  0 < kw_get "batch_size" 32 kw →
  let n := Dataset.__len__ self in
  let bs := kw_get "batch_size" 32 kw in
  let m := if truthy (kw_get "drop_last" 0 kw) then n / bs * bs else n in
  (0 < m → Dataset.load_all kw self w = Ok (slice 0 m d, self, w))
  ∧ (m = 0 → Dataset.load_all kw self w = Err IndexError)
  ∧ (truthy (kw_get "drop_last" 0 kw) = false → slice 0 m d = d).
Proof.
  intros Hdist Hd Hitem Hrest Hshuffle Hbs n bs m.
  assert (Dataset.load_all kw self w
          = (xs ← Ok (map (λ g, map_leaves (take_rows g) d)
                        (torch.BatchSampler (seq 0 n) bs
                           (truthy (kw_get "drop_last" 0 kw))));
             x ← numpy_collate_concat xs; Ok (x, self, w))) as ->.
  { unfold Dataset.load_all. rewrite Dataset_batch_iter_batch_size.
    unfold Dataset.batch_iter, Dataset._batch_iterable. rewrite Hrest.
    unfold torch.check_kwargs. rewrite map_to_list_empty.
    cbn [mbind result_bind].
    rewrite (DataLoader_iter_slices _ d); try done.
    cbn [mbind result_bind torch.dataset_len torch.batch_size torch.drop_last].
    rewrite <-(map_map (λ g, map_leaves (take_rows g) d) Ok), sequence_map_Ok.
    done. }
  cbn [mbind result_bind].
  pose proof (concat_BatchSampler_seq n bs (truthy (kw_get "drop_last" 0 kw)) Hbs)
    as Hcat. fold m in Hcat.
  split; [|split].
  - intros Hm.
    rewrite (numpy_collate_concat_take_rows d n); [|done|done|].
    + by rewrite Hcat.
    + intros Hnil. rewrite Hnil in Hcat. destruct m; [lia|done].
  - intros Hm. rewrite Hm in Hcat.
    pose proof (BatchSampler_seq_groups n bs (truthy (kw_get "drop_last" 0 kw)) Hbs)
      as Hgroups.
    destruct (torch.BatchSampler (seq 0 n) bs _) as [|g groups]; [done|].
    apply Forall_cons in Hgroups as [[Hne _] _].
    simpl in Hcat. by apply app_eq_nil in Hcat as [-> _].
  - intros Hdrop. unfold m. rewrite Hdrop. by apply slice_all.
Qed.

Lemma distinct_keys_samples n : distinct_keys (samples n).
Proof. constructor; [compute_done|]. repeat constructor. Qed.

Lemma leaves_samples n : leaves (has_rows n) (samples n).
Proof.
  constructor. repeat constructor; simpl; eexists; (split; [reflexivity|]);
    by rewrite length_map, length_seq.
Qed.

Lemma Dataset_load_all_collects_example :
  Dataset.load_all {[ "batch_size" := 3 ]} (indexed 10) initial_world
    = Ok (samples 10, indexed 10, initial_world)
  ∧ Dataset.load_all batch_4_drop_last (indexed 10) initial_world
    = Ok (slice 0 8 (samples 10), indexed 10, initial_world)
  ∧ Dataset.load_all {[ "drop_last" := 1 ]} (indexed 10) initial_world
    = Err IndexError.
Proof.
  split; [|split].
  - destruct (Dataset_load_all_collects (indexed 10) (samples 10)
                {[ "batch_size" := 3 ]} initial_world) as (Hload & _ & Hall).
    + apply distinct_keys_samples.
    + apply leaves_samples.
    + intros i Hi. apply (get_dataset_item_rows _ 10); [apply leaves_samples|done].
    + compute_done.
    + reflexivity.
    + compute_done.
    + rewrite Hload by (vm_compute; lia). rewrite Hall; reflexivity.
  - destruct (Dataset_load_all_collects (indexed 10) (samples 10)
                batch_4_drop_last initial_world) as (Hload & _ & _).
    + apply distinct_keys_samples.
    + apply leaves_samples.
    + intros i Hi. apply (get_dataset_item_rows _ 10); [apply leaves_samples|done].
    + compute_done.
    + reflexivity.
    + compute_done.
    + apply Hload. vm_compute. lia.
  - destruct (Dataset_load_all_collects (indexed 10) (samples 10)
                {[ "drop_last" := 1 ]} initial_world) as (_ & Hnone & _).
    + apply distinct_keys_samples.
    + apply leaves_samples.
    + intros i Hi. apply (get_dataset_item_rows _ 10); [apply leaves_samples|done].
    + compute_done.
    + reflexivity.
    + compute_done.
    + apply Hnone. reflexivity.
Defined.

(** ** Batches of a batch dataset *)

(** X15.  A [BatchDataset] yields one batch per index, in index
    order, whatever keywords [batch_iter] is given: [batch_size],
    [shuffle] and [drop_last] are not handed on.  Each batch is what
    [self[i]] returns, concatenated with nothing else: a structure of
    arrays with a leading axis comes out unchanged, and an error of
    [self[i]] is the outcome at that position. *)
Theorem BatchDataset_batches (self : BatchDataset.t) (kw : kwargs) (w : world) :
  BatchDataset.batch_iter kw self w
  = Ok (map (λ i, x ← BatchDataset.__getitem__ self i; numpy_collate_concat [x])
          (seq 0 (BatchDataset.__len__ self)), self, w)
  ∧ ∀ i,
      (∀ x, BatchDataset.__getitem__ self i = Ok x →
            distinct_keys x →
            leaves (λ a, ∃ rows, a = Arr rows) x →
            (x ← BatchDataset.__getitem__ self i; numpy_collate_concat [x]) = Ok x)
      ∧ (∀ e, BatchDataset.__getitem__ self i = Err e →
              (x ← BatchDataset.__getitem__ self i; numpy_collate_concat [x]) = Err e).
Proof.
  split.
  - unfold BatchDataset.batch_iter, DataLoader_iter.
    cbn [torch.shuffle torch.dataset_len torch.batch_size torch.drop_last
         BatchDataset._batch_iterable].
    rewrite BatchSampler_seq_one, map_map. do 3 f_equal.
    apply map_ext. intros i. unfold torch.fetch. simpl.
    by destruct (BatchDataset.__getitem__ self i).
  - intros i. split.
    + intros x -> Hdist Hx. simpl. by apply numpy_collate_concat_singleton.
    + by intros e ->.
Qed.

Lemma BatchDataset_batches_example :
  BatchDataset.batch_iter {[ "batch_size" := 7 ]} three_batches initial_world
    = Ok ([Ok (samples_slice 0 2); Ok (samples_slice 2 2); Ok (samples_slice 4 2)],
          three_batches, initial_world)
  ∧ load_all {[ "batch_size" := 7 ]} (inst_BatchDataset three_batches) initial_world
    = Ok (samples 6, inst_BatchDataset three_batches, initial_world).
Proof.
  destruct (BatchDataset_batches three_batches {[ "batch_size" := 7 ]} initial_world)
    as [Hbatches _].
  split.
  - rewrite Hbatches. reflexivity.
  - cbn [load_all]. unfold BaseDataLoader.load_all. cbn [batch_iter].
    rewrite Hbatches. reflexivity.
Defined.
(** ** [load_all] on iterators and on generators *)

(** X16.  [load_all] consumes an iterator instance: after a first
    [load_all] over a [SampleIterator] or a [BatchIterator] the
    instance is exhausted, so a second [load_all] finds no batch and
    has nothing to concatenate.  Over a [SampleGenerator] or a
    [BatchGenerator] it leaves the instance as it was, and calling it
    again gives the same result. *)
Theorem load_all_consumes_iterators (kw : kwargs) (w : world) :
  (∀ (s : SampleIterator.t) r self' w',
     load_all kw (inst_SampleIterator s) w = Ok (r, self', w') →
     self' = inst_SampleIterator {| SampleIterator.pending := [] |} ∧ w' = w
     ∧ ∀ kw2 w2,
         load_all kw2 self' w2 = (r ← numpy_collate_concat []; Ok (r, self', w2)))
  ∧ (∀ (s : BatchIterator.t) r self' w',
       load_all kw (inst_BatchIterator s) w = Ok (r, self', w') →
       self' = inst_BatchIterator {| BatchIterator.pending := [] |} ∧ w' = w
       ∧ ∀ kw2 w2,
           load_all kw2 self' w2 = (r ← numpy_collate_concat []; Ok (r, self', w2)))
  ∧ (∀ (s : SampleGenerator.t) r self' w',
       load_all kw (inst_SampleGenerator s) w = Ok (r, self', w') →
       self' = inst_SampleGenerator s ∧ w' = w
       ∧ load_all kw self' w' = Ok (r, self', w'))
  ∧ (∀ (s : BatchGenerator.t) r self' w',
       load_all kw (inst_BatchGenerator s) w = Ok (r, self', w') →
       self' = inst_BatchGenerator s ∧ w' = w
       ∧ load_all kw self' w' = Ok (r, self', w')).
Proof.
  split; [|split; [|split]].
  - intros s r self' w'. cbn [load_all]. unfold BaseDataLoader.load_all.
    cbn [batch_iter]. unfold SampleIterator.batch_iter, SampleIterator.__iter__.
    rewrite SampleIterator_exhaust by lia. cbn [lift mbind result_bind].
    destruct (sequence _) as [xs|e]; [|done]. cbn [mbind result_bind].
    destruct (numpy_collate_concat xs) as [r'|e]; [|done]. cbn [mbind result_bind].
    intros [= <- <- <-]. split; [done|]. split; [done|]. done.
  - intros s r self' w'. cbn [load_all]. unfold BaseDataLoader.load_all.
    cbn [batch_iter]. unfold BatchIterator.batch_iter, BatchIterator.__iter__.
    rewrite BatchIterator_exhaust by lia. cbn [lift mbind result_bind].
    destruct (sequence _) as [xs|e]; [|done]. cbn [mbind result_bind].
    destruct (numpy_collate_concat xs) as [r'|e]; [|done]. cbn [mbind result_bind].
    intros [= <- <- <-]. split; [done|]. split; [done|]. done.
  - intros s r self' w'. cbn [load_all]. unfold BaseDataLoader.load_all.
    cbn [batch_iter]. unfold SampleGenerator.batch_iter.
    destruct (SampleGenerator.__iter__ s w) as [items|e] eqn:Hiter; [|done].
    cbn [lift mbind result_bind].
    destruct (sequence _) as [xs|e] eqn:Hseq; [|done]. cbn [mbind result_bind].
    destruct (numpy_collate_concat xs) as [r'|e] eqn:Hcat; [|done].
    cbn [mbind result_bind]. intros [= <- <- <-]. split; [done|]. split; [done|].
    cbn [load_all]. unfold BaseDataLoader.load_all.
    cbn [batch_iter]. unfold SampleGenerator.batch_iter. rewrite Hiter.
    cbn [lift mbind result_bind]. rewrite Hseq. cbn [mbind result_bind].
    by rewrite Hcat.
  - intros s r self' w'. cbn [load_all]. unfold BaseDataLoader.load_all.
    cbn [batch_iter]. unfold BatchGenerator.batch_iter.
    destruct (BatchGenerator.__iter__ s w) as [items|e] eqn:Hiter; [|done].
    cbn [lift mbind result_bind].
    destruct (sequence _) as [xs|e] eqn:Hseq; [|done]. cbn [mbind result_bind].
    destruct (numpy_collate_concat xs) as [r'|e] eqn:Hcat; [|done].
    cbn [mbind result_bind]. intros [= <- <- <-]. split; [done|]. split; [done|].
    cbn [load_all]. unfold BaseDataLoader.load_all.
    cbn [batch_iter]. unfold BatchGenerator.batch_iter. rewrite Hiter.
    cbn [lift mbind result_bind]. rewrite Hseq. cbn [mbind result_bind].
    by rewrite Hcat.
Qed.

Lemma load_all_consumes_iterators_example :
  (∃ self',
     load_all batch_4 five_iterator initial_world
       = Ok (samples 5, self', initial_world)
     ∧ load_all batch_4 self' initial_world = Err IndexError)
  ∧ load_all batch_4 (inst_SampleGenerator generator_instance) generator_world
    = Ok (samples 5, inst_SampleGenerator generator_instance, generator_world).
Proof.
  destruct (load_all_consumes_iterators batch_4 initial_world) as (Hiter & _ & _ & _).
  destruct (load_all_consumes_iterators batch_4 generator_world) as (_ & _ & Hgen & _).
  split.
  - exists (inst_SampleIterator {| SampleIterator.pending := [] |}).
    assert (load_all batch_4 five_iterator initial_world
            = Ok (samples 5, inst_SampleIterator {| SampleIterator.pending := [] |},
                  initial_world)) as Hfirst by reflexivity.
    split; [exact Hfirst|].
    destruct (Hiter _ _ _ _ Hfirst) as (_ & _ & Hsecond).
    rewrite Hsecond. reflexivity.
  - assert (load_all batch_4 (inst_SampleGenerator generator_instance) generator_world
            = Ok (samples 5, inst_SampleGenerator generator_instance, generator_world))
      as Hfirst by reflexivity.
    destruct (Hgen _ _ _ _ Hfirst) as (_ & _ & Hagain). exact Hagain.
Defined.
(** ** Parsing [defined_as] *)

Lemma append_nil_r s : s +:+ "" = s.
Proof.
  induction s as [|c s IH]; [done|].
  change (String c (s +:+ "") = String c s). by rewrite IH.
Qed.

Lemma append_assoc s1 s2 s3 : (s1 +:+ s2) +:+ s3 = s1 +:+ (s2 +:+ s3).
Proof.
  induction s1 as [|c s1 IH]; [done|].
  change (String c ((s1 +:+ s2) +:+ s3) = String c (s1 +:+ s2 +:+ s3)). by rewrite IH.
Qed.

Lemma split_colons_two cur c c' s :
  split_colons cur (String c (String c' s))
  = if decide (c = colon ∧ c' = colon) then cur :: split_colons "" s
    else split_colons (cur +:+ String c "") (String c' s).
Proof. reflexivity. Qed.

Lemma split_colons_nonempty cur s : split_colons cur s ≠ [].
Proof.
  assert (∀ s, (∀ cur, split_colons cur s ≠ [])
               ∧ ∀ c cur, split_colons cur (String c s) ≠ []) as Hboth.
  { clear. induction s as [|c' s [IH1 IH2]].
    - split; [done|]. done.
    - split; [intros cur; apply IH2|]. intros c cur. rewrite split_colons_two.
      case_decide; [done|]. apply IH2. }
  apply Hboth.
Qed.

(** Gluing the pieces with the separator gives the string back. *)
Lemma split_colons_join cur s :
  String.concat "::" (split_colons cur s) = cur +:+ s.
Proof.
  assert (∀ s, (∀ cur, String.concat "::" (split_colons cur s) = cur +:+ s)
               ∧ ∀ c cur, String.concat "::" (split_colons cur (String c s))
                          = cur +:+ String c s) as Hboth.
  { clear. induction s as [|c' s [IH1 IH2]].
    - split; intros; simpl; [by rewrite append_nil_r|done].
    - split; [intros cur; apply IH2|]. intros c cur. rewrite split_colons_two.
      case_decide as Hsep.
      + destruct Hsep as [-> ->].
        pose proof (split_colons_nonempty "" s) as Hne.
        specialize (IH1 ""). destruct (split_colons "" s) as [|p ps]; [done|].
        cbn [String.concat]. cbn [String.concat] in IH1. rewrite IH1. done.
      + rewrite IH2, append_assoc. done. }
  apply Hboth.
Qed.

Lemma split_colons_no_colon cur s :
  no_colon s = true → split_colons cur s = [cur +:+ s].
Proof.
  assert (∀ s, (∀ cur, no_colon s = true → split_colons cur s = [cur +:+ s])
               ∧ ∀ c cur, no_colon (String c s) = true →
                          split_colons cur (String c s) = [cur +:+ String c s])
    as Hboth.
  { clear. induction s as [|c' s [IH1 IH2]].
    - split; intros; simpl; [by rewrite append_nil_r|done].
    - split; [intros cur; apply IH2|]. intros c cur Hno. rewrite split_colons_two.
      cbn [no_colon] in Hno. apply andb_true_iff in Hno as [Hc Hno].
      apply negb_true_iff, bool_decide_eq_false in Hc.
      rewrite decide_False by (by intros [? _]).
      rewrite IH2 by done. by rewrite append_assoc. }
  apply Hboth.
Qed.

Lemma split_colons_prefix cur f rest :
  no_colon f = true →
  split_colons cur (f +:+ "::" +:+ rest) = (cur +:+ f) :: split_colons "" rest.
Proof.
  revert cur. induction f as [|c f IH]; intros cur Hno.
  - simpl. by rewrite append_nil_r.
  - cbn [no_colon] in Hno. apply andb_true_iff in Hno as [Hc Hno].
    apply negb_true_iff, bool_decide_eq_false in Hc.
    change (String c f +:+ "::" +:+ rest) with (String c (f +:+ "::" +:+ rest)).
    destruct (f +:+ "::" +:+ rest) as [|c' s'] eqn:Hs.
    { destruct f; discriminate Hs. }
    rewrite split_colons_two.
    rewrite decide_False by (by intros [? _]).
    rewrite IH by done. by rewrite append_assoc.
Qed.

(** X17.  The [defined_as] field has to consist of a file path and an
    object name with the separator [::] between them.  A path and a
    name without colons, glued with the separator, are recovered as
    they are; whenever the field is accepted, the two parts glued with
    the separator are the field; a field without a colon is refused,
    since unpacking finds one value only. *)
Theorem defined_as_parts_spec :
  (∀ file_path obj_name,
     no_colon file_path = true → no_colon obj_name = true →
     defined_as_parts (file_path +:+ "::" +:+ obj_name) = Ok (file_path, obj_name))
  ∧ (∀ defined_as file_path obj_name,
       defined_as_parts defined_as = Ok (file_path, obj_name) →
       defined_as = file_path +:+ "::" +:+ obj_name)
  ∧ (∀ defined_as,
       no_colon defined_as = true →
       defined_as_parts defined_as
       = Err (ValueError [Text "not enough values to unpack (expected 2, got 1)"])).
Proof.
  split; [|split].
  - intros f o Hf Ho. unfold defined_as_parts.
    by rewrite split_colons_prefix, split_colons_no_colon.
  - intros s f o. unfold defined_as_parts.
    pose proof (split_colons_join "" s) as Hjoin.
    destruct (split_colons "" s) as [|p1 [|p2 [|p3 ps]]]; try done.
    intros [= <- <-]. change ("" +:+ s) with s in Hjoin. by subst s.
  - intros s Hno. unfold defined_as_parts. by rewrite split_colons_no_colon.
Qed.

Lemma defined_as_parts_spec_example :
  defined_as_parts "dataloader.py::SeqDataset" = Ok ("dataloader.py", "SeqDataset")
  ∧ defined_as_parts "dataloader.py"
    = Err (ValueError [Text "not enough values to unpack (expected 2, got 1)"])
  ∧ defined_as_parts "a::b::c"
    = Err (ValueError [Text "too many values to unpack (expected 2)"]).
Proof.
  destruct defined_as_parts_spec as (Hok & _ & Hnone).
  split; [by apply (Hok "dataloader.py" "SeqDataset")|].
  split; [by apply Hnone|reflexivity].
Defined.
(** ** Batches of a stream of samples *)

(** Grouping a stream greedily is grouping its positions. *)
Lemma partition_from_map (f : nat → nested) bs batch sampler :
  partition_from bs (map f batch) (map f sampler)
  = map (map f) (torch.BatchSampler_from bs false batch sampler).
Proof.
  revert batch. induction sampler as [|i sampler IH]; intros batch; simpl.
  - rewrite length_map. by destruct (length batch =? 0).
  - replace (map f batch ++ [f i]) with (map f (batch ++ [i])) by (by rewrite map_app).
    rewrite length_map.
    destruct (length (batch ++ [i]) =? bs); simpl; [f_equal; apply (IH [])|apply IH].
Qed.

Lemma batch_gen_rows d n bs :
  distinct_keys d →
  leaves (has_rows n) d →
  0 < bs →
  batch_gen (map (λ i, map_leaves (row i) d) (seq 0 n)) bs
  = map (λ g, Ok (map_leaves (take_rows g) d)) (torch.BatchSampler (seq 0 n) bs false).
Proof.
  intros Hdist Hd Hbs. unfold batch_gen.
  pose proof (partition_from_map (λ i, map_leaves (row i) d) bs [] (seq 0 n)) as Hgroups.
  cbn [map] in Hgroups. rewrite Hgroups. fold (torch.BatchSampler (seq 0 n) bs false).
  rewrite map_map. apply Forall_fmap_ext_1.
  eapply Forall_impl; [by apply (BatchSampler_seq_groups n bs false)|].
  intros g [Hne Hin]. by apply (numpy_collate_rows d n).
Qed.

Lemma load_all_slices d n bs :
  distinct_keys d →
  leaves (has_rows n) d →
  0 < bs → 0 < n →
  (xs ← sequence (map (λ g, Ok (map_leaves (take_rows g) d))
                    (torch.BatchSampler (seq 0 n) bs false));
   numpy_collate_concat xs) = Ok d.
Proof.
  intros Hdist Hd Hbs Hn.
  rewrite <-(map_map (λ g, map_leaves (take_rows g) d) Ok), sequence_map_Ok.
  cbn [mbind result_bind].
  rewrite (numpy_collate_concat_take_rows d n); [|done|done|].
  - rewrite concat_BatchSampler_seq by done. f_equal. by apply slice_all.
  - intros Hnil. pose proof (concat_BatchSampler_seq n bs false Hbs) as Hcat.
    rewrite Hnil in Hcat. destruct n; [lia|done].
Qed.

(** X18.  Over a stream of samples that are the rows of one structure
    [d], [load_all] returns [d] whatever the positive batch size is:
    the samples are grouped into batches, collated and concatenated
    again, and nothing is lost or reordered.  This holds for a
    [SampleGenerator], which can do it again, and for a
    [SampleIterator], which is exhausted afterwards. *)
Theorem stream_load_all_collects d n (kw : kwargs) (w : world) :
  distinct_keys d →
  leaves (has_rows n) d →
  0 < n →
  0 < kw_get "batch_size" 32 kw →
  (∀ s : SampleGenerator.t,
     SampleGenerator.__iter__ s w = Ok (map (λ i, map_leaves (row i) d) (seq 0 n)) →
     load_all kw (inst_SampleGenerator s) w = Ok (d, inst_SampleGenerator s, w))
  ∧ (∀ s : SampleIterator.t,
       SampleIterator.pending s = map (λ i, map_leaves (row i) d) (seq 0 n) →
       load_all kw (inst_SampleIterator s) w
       = Ok (d, inst_SampleIterator {| SampleIterator.pending := [] |}, w)).
Proof.
  intros Hdist Hd Hn Hbs. split.
  - intros s Hiter. cbn [load_all]. unfold BaseDataLoader.load_all.
    cbn [batch_iter]. unfold SampleGenerator.batch_iter. rewrite Hiter.
    cbn [lift mbind result_bind]. rewrite (batch_gen_rows d n) by done.
    pose proof (load_all_slices d n _ Hdist Hd Hbs Hn) as Hload.
    destruct (sequence _) as [xs|e]; [|done]. cbn [mbind result_bind] in *.
    by rewrite Hload.
  - intros s Hpending. cbn [load_all]. unfold BaseDataLoader.load_all.
    cbn [batch_iter]. unfold SampleIterator.batch_iter, SampleIterator.__iter__.
    rewrite SampleIterator_exhaust by lia. rewrite Hpending.
    cbn [lift mbind result_bind]. rewrite (batch_gen_rows d n) by done.
    pose proof (load_all_slices d n _ Hdist Hd Hbs Hn) as Hload.
    destruct (sequence _) as [xs|e]; [|done]. cbn [mbind result_bind] in *.
    by rewrite Hload.
Qed.

Lemma stream_load_all_collects_example :
  load_all {[ "batch_size" := 2 ]} (inst_SampleGenerator generator_instance)
      generator_world
    = Ok (samples 5, inst_SampleGenerator generator_instance, generator_world)
  ∧ load_all {[ "batch_size" := 3 ]} five_iterator initial_world
    = Ok (samples 5, inst_SampleIterator {| SampleIterator.pending := [] |},
          initial_world).
Proof.
  split.
  - destruct (stream_load_all_collects (samples 5) 5 {[ "batch_size" := 2 ]}
                generator_world) as [Hgen _];
      [apply distinct_keys_samples | apply leaves_samples | lia | compute_done |].
    apply Hgen. reflexivity.
  - destruct (stream_load_all_collects (samples 5) 5 {[ "batch_size" := 3 ]}
                initial_world) as [_ Hiter];
      [apply distinct_keys_samples | apply leaves_samples | lia | compute_done |].
    apply (Hiter {| SampleIterator.pending := map sample (seq 0 5) |}). reflexivity.
Defined.

(** ** The order of the training items *)

Lemma train_take_cycle_order (it : iterable loader) self w p pairs :
  it self w = Ok (p, self, w) →
  Forall2 has_pair p pairs →
  pairs ≠ [] →
  ∀ k j cur,
    Forall2 has_pair cur (drop j pairs) →
    j ≤ length pairs →
    ∃ ps, BaseDataLoader.train_take 1 k (BaseDataLoader.Cycling it cur self w)
            = (ps, Running)
          ∧ length ps = k
          ∧ ∀ i, i < k → ps !! i = pairs !! ((j + i) mod length pairs).
Proof.
  intros Hit Hp Hne k. induction k as [|k IH]; intros j cur Hcur Hj.
  { exists []. repeat split. intros i Hi. lia. }
  cbn [BaseDataLoader.train_take BaseDataLoader.train_next].
  destruct cur as [|o cur].
  - apply Forall2_nil_inv_l in Hcur.
    assert (j = length pairs) as ->.
    { apply (f_equal length) in Hcur. rewrite length_drop in Hcur. simpl in Hcur. lia. }
    cbn [iterable_cycle_next]. unfold BaseDataLoader.restart at 1. cbn [fst snd].
    rewrite Hit. cbn [mbind result_bind].
    destruct Hp as [|o pr p pairs (x & -> & Hx) Hp]; [done|].
    cbn [iterable_cycle_next]. rewrite Hx.
    destruct (IH 1 p) as (ps & -> & Hlen & Hps); [done|simpl; lia|].
    exists (pr :: ps). split; [done|]. split; [simpl; by rewrite Hlen|].
    intros [|i] Hi.
    + rewrite Nat.add_0_r, Nat.Div0.mod_same. done.
    + cbn [lookup list_lookup]. rewrite Hps by lia.
      f_equal. replace (length (pr :: pairs) + S i) with (1 + i + 1 * length (pr :: pairs))
        by lia.
      by rewrite Nat.Div0.mod_add.
  - destruct (drop j pairs) as [|pr rest] eqn:Hdrop; [by inversion Hcur|].
    apply Forall2_cons in Hcur as [(x & -> & Hx) Hcur].
    assert (j < length pairs) as Hlt.
    { apply (f_equal length) in Hdrop. rewrite length_drop in Hdrop. simpl in Hdrop. lia. }
    assert (pairs !! j = Some pr) as Hpr.
    { rewrite <-(Nat.add_0_r j), <-lookup_drop, Hdrop. done. }
    assert (drop (S j) pairs = rest) as Hrest.
    { rewrite <-(Nat.add_1_l j), Nat.add_comm, <-drop_drop, Hdrop. done. }
    rewrite iterable_cycle_next_yield, Hx.
    destruct (IH (S j) cur) as (ps & -> & Hlen & Hps); [by rewrite Hrest|lia|].
    exists (pr :: ps). split; [done|]. split; [simpl; by rewrite Hlen|].
    intros [|i] Hi.
    + rewrite Nat.add_0_r, Nat.mod_small by done. done.
    + cbn [lookup list_lookup]. rewrite Hps by lia. f_equal. f_equal. lia.
Qed.

(** X19.  The training generator of [cycle=True] goes through the
    batches in order and starts over after the last one.  For a loader
    whose batch iteration can be repeated (it leaves the loader and the
    world as they were) and gives [m > 0] batches, all with inputs and
    targets, the item number [i] that the generator yields is the pair
    of batch number [i mod m], for every [i]. *)
Theorem batch_train_iter_cycles_in_order (kw : kwargs) (self : loader) (w : world)
    p pairs :
  batch_iter kw self w = Ok (p, self, w) →
  Forall2 has_pair p pairs →
  pairs ≠ [] →
  ∃ g, batch_train_iter true kw self w = Ok g
       ∧ ∀ k, ∃ ps,
           BaseDataLoader.train_take 1 k g = (ps, Running)
           ∧ length ps = k
           ∧ ∀ i, i < k → ps !! i = pairs !! (i mod length pairs).
Proof.
  intros Hbatch Hp Hne.
  unfold batch_train_iter, BaseDataLoader.batch_train_iter.
  destruct (_batch_iterable kw self) as [it|e] eqn:Hit.
  2:{ destruct self as [s|s|s|s|s|s|s]; simpl in Hit; try done.
      revert Hbatch. cbn [batch_iter]. unfold Dataset.batch_iter.
      by destruct (Dataset._batch_iterable kw s). }
  assert (same_instance self self) as Hrefl by (by destruct self).
  destruct (_batch_iterable_iter kw self it Hit self w Hrefl) as [Heq _].
  exists (BaseDataLoader.Cycling it [] self w). split; [done|]. intros k.
  destruct (train_take_cycle_order it self w p pairs) with (k := k)
    (j := length pairs) (cur := @nil (result nested)) as (ps & Hps & Hlen & Hord).
  - by rewrite Heq.
  - done.
  - done.
  - rewrite drop_all. constructor.
  - done.
  - exists ps. split; [done|]. split; [done|]. intros i Hi. rewrite Hord by done.
    f_equal. replace (length pairs + i) with (i + 1 * length pairs) by lia.
    by rewrite Nat.Div0.mod_add.
Qed.

Lemma batch_train_iter_cycles_in_order_example :
  ∃ g, batch_train_iter true batch_4 (preloaded 10) initial_world = Ok g
       ∧ ∃ ps, BaseDataLoader.train_take 1 5 g = (ps, Running)
               ∧ ps !! 3 = Some (NArr (arange 4 0), NArr (arange 4 100))
               ∧ ps !! 4 = Some (NArr (arange 4 4), NArr (arange 4 104)).
Proof.
  destruct (batch_train_iter_cycles_in_order batch_4 (preloaded 10) initial_world
              [Ok (samples_slice 0 4); Ok (samples_slice 4 4); Ok (samples_slice 8 2)]
              [(NArr (arange 4 0), NArr (arange 4 100));
               (NArr (arange 4 4), NArr (arange 4 104));
               (NArr (arange 2 8), NArr (arange 2 108))]) as (g & Hg & Htake).
  - reflexivity.
  - repeat constructor; eexists; split; reflexivity.
  - done.
  - exists g. split; [exact Hg|].
    destruct (Htake 5) as (ps & Hps & _ & Hord).
    exists ps. split; [exact Hps|]. split.
    + rewrite (Hord 3) by lia. reflexivity.
    + rewrite (Hord 4) by lia. reflexivity.
Defined.
